(** * Reconciliation commands of the gas-agency back office

    A shallow embedding of the CSV import and report management commands
    ([populate_consumers], [populate_consumers_route],
    [find_duplicate_ration_cards], [find_duplicate_sv_numbers],
    [shared_bluebook], [generate_bluebook_reports],
    [validate_consumer_addresses], [process_areas]) together with the
    parts of the Python runtime, of pandas and of the Django ORM that
    these commands call.

    Conventions.
    - A Python [str] is a [string]; every [ascii] stands for the code
      point of the same number, so the strings of the model are the
      Python strings over U+0000..U+00FF.
    - A data frame is the list of its rows in file order, after
      [read_csv(..., dtype=str).fillna('')]: every cell is a string and
      every column the commands read is present.
    - A command that reads its file with [csv.DictReader] has two
      layers: the loop over the rows of a file that was read, and the
      command from the file on, where an unreadable file, a missing
      column or a short row makes it raise.
    - Code that can raise returns a [result]; code that talks to the
      database is a function from the store to a [result] and a store. *)

From Stdlib Require Import ZArith String Ascii List Bool Lia.
From stdpp Require Import base option list gmap strings sorting.

Open Scope string_scope.
Open Scope Z_scope.

Set Warnings "-clear-no-such-hyp".

(** ** The Python runtime *)

Module Py.

(** The exception classes the commands can meet. *)
Inductive exn : Set :=
  | ValueError
  | OverflowError
  | IndexError
  | IntegrityError
  | DataError
  | CommandError.

Inductive result (A : Type) : Type :=
  | Ok (a : A)
  | Raise (e : exn).
Arguments Ok {A} a.
Arguments Raise {A} e.

Definition bind {A B} (r : result A) (k : A -> result B) : result B :=
  match r with
  | Ok a => k a
  | Raise e => Raise e
  end.

Definition is_ok {A} (r : result A) : bool :=
  match r with Ok _ => true | Raise _ => false end.

Declare Scope py_scope.
Delimit Scope py_scope with py.
Notation "x <- m ;; k" := (bind m (fun x => k))
  (at level 20, m at level 99, k at level 200, only parsing) : py_scope.
Notation "' p <- m ;; k" := (bind m (fun x => match x with p => k end))
  (at level 20, p pattern, m at level 99, k at level 200, only parsing) : py_scope.

(** *** Characters *)

Definition ord (c : ascii) : N := N_of_ascii c.

Definition between (lo hi n : N) : bool := ((lo <=? n) && (n <=? hi))%N.

(** [str.isdecimal] on one character: general category Nd.  Below
    U+0100 these are the ASCII digits. *)
Definition isdecimal_char (c : ascii) : bool := between 48 57 (ord c).

(** [str.isdigit] on one character: Numeric_Type Digit or Decimal.
    Below U+0100 these are the ASCII digits and the superscripts
    U+00B2, U+00B3 and U+00B9. *)
Definition isdigit_char (c : ascii) : bool :=
  isdecimal_char c
  || (ord c =? 178)%N || (ord c =? 179)%N || (ord c =? 185)%N.

(** [str.isspace] on one character; also the class [\s] of [re]. *)
Definition isspace_char (c : ascii) : bool :=
  between 9 13 (ord c) || between 28 32 (ord c)
  || (ord c =? 133)%N || (ord c =? 160)%N.

(** The blanks that [int()] and [float()] skip around a literal: the C
    [isspace] set, and the Unicode spaces outside ASCII. *)
Definition isblank_num (c : ascii) : bool :=
  between 9 13 (ord c) || (ord c =? 32)%N
  || (ord c =? 133)%N || (ord c =? 160)%N.

Definition is_char (n : N) (c : ascii) : bool := (ord c =? n)%N.

(** ASCII lower-casing of one character (used on keywords only). *)
Definition ascii_lower (c : ascii) : ascii :=
  if between 65 90 (ord c) then ascii_of_N (ord c + 32) else c.

(** [str.upper] on one ASCII character. *)
Definition ascii_upper (c : ascii) : ascii :=
  if between 97 122 (ord c) then ascii_of_N (ord c - 32) else c.

(** *** Strings *)

(** Truth value of a string: non-empty. *)
Definition truthy (s : string) : bool :=
  match s with EmptyString => false | String _ _ => true end.

Fixpoint all_chars (p : ascii -> bool) (s : string) : bool :=
  match s with
  | EmptyString => true
  | String c s' => p c && all_chars p s'
  end.

(** [s.isdigit()]: at least one character and all of them digits. *)
Definition isdigit (s : string) : bool := truthy s && all_chars isdigit_char s.

Definition isdecimal (s : string) : bool :=
  truthy s && all_chars isdecimal_char s.

Fixpoint lstrip_with (p : ascii -> bool) (s : string) : string :=
  match s with
  | EmptyString => EmptyString
  | String c s' => if p c then lstrip_with p s' else s
  end.

Fixpoint rstrip_with (p : ascii -> bool) (s : string) : string :=
  match s with
  | EmptyString => EmptyString
  | String c s' =>
      let t := rstrip_with p s' in
      if p c && negb (truthy t) then EmptyString else String c t
  end.

Definition strip_with (p : ascii -> bool) (s : string) : string :=
  rstrip_with p (lstrip_with p s).

(** [s.strip()] *)
Definition strip (s : string) : string := strip_with isspace_char s.

(** [s.replace(c, '', 1)] for a one-character [c]. *)
Fixpoint remove_first (p : ascii -> bool) (s : string) : string :=
  match s with
  | EmptyString => EmptyString
  | String c s' => if p c then s' else String c (remove_first p s')
  end.

Fixpoint remove_all (p : ascii -> bool) (s : string) : string :=
  match s with
  | EmptyString => EmptyString
  | String c s' =>
      if p c then remove_all p s' else String c (remove_all p s')
  end.

(** [s.split(c, 1)]: the text before the first [c], and the text after
    it when there is a [c]. *)
Fixpoint split_once (p : ascii -> bool) (s : string)
  : string * option string :=
  match s with
  | EmptyString => (EmptyString, None)
  | String c s' =>
      if p c then (EmptyString, Some s')
      else let '(a, b) := split_once p s' in (String c a, b)
  end.

(** [s.split(c)[0]] *)
Definition split_head (p : ascii -> bool) (s : string) : string :=
  fst (split_once p s).

(** [b.startswith(a)] *)
Fixpoint starts_with (b a : string) : bool :=
  match a, b with
  | EmptyString, _ => true
  | String _ _, EmptyString => false
  | String c a', String d b' =>
      if ascii_dec c d then starts_with b' a' else false
  end.

(** [a in b] on strings: [a] occurs in [b] as a contiguous block. *)
Fixpoint contains (b a : string) : bool :=
  starts_with b a
  || match b with
     | EmptyString => false
     | String _ b' => contains b' a
     end.

Fixpoint map_chars (f : ascii -> ascii) (s : string) : string :=
  match s with
  | EmptyString => EmptyString
  | String c s' => String (f c) (map_chars f s')
  end.

(** [s.upper()] for a string of ASCII characters; other characters
    are left as they are. *)
Definition upper_ascii (s : string) : string := map_chars ascii_upper s.

(** *** int() *)

Definition digit_val (c : ascii) : Z := Z.of_N (ord c) - 48.

(** Value of a string of ASCII digits, most significant first. *)
Fixpoint digits_value (acc : Z) (s : string) : Z :=
  match s with
  | EmptyString => acc
  | String c s' => digits_value (10 * acc + digit_val c) s'
  end.

(** Underscores of a numeric literal stand between two digits. *)
Fixpoint underscores_ok (prev : option ascii) (s : string) : bool :=
  match s with
  | EmptyString =>
      match prev with Some p => negb (is_char 95 p) | None => true end
  | String c s' =>
      (if is_char 95 c
       then match prev with Some p => isdecimal_char p | None => false end
       else match prev with
            | Some p => if is_char 95 p then isdecimal_char c else true
            | None => true
            end)
      && underscores_ok (Some c) s'
  end.

(** An optional sign: [true] for minus. *)
Definition split_sign (s : string) : bool * string :=
  match s with
  | String c s' =>
      if is_char 45 c then (true, s')
      else if is_char 43 c then (false, s')
      else (false, s)
  | EmptyString => (false, s)
  end.

(** [sys.int_info.default_max_str_digits] *)
Definition int_max_str_digits : nat := 4300.

(** [int(s)] for a string [s]. *)
Definition int (s : string) : result Z :=
  let '(neg, body) := split_sign (strip_with isblank_num s) in
  let digits := remove_all (is_char 95) body in
  if underscores_ok None body && isdecimal digits then
    if (int_max_str_digits <? String.length digits)%nat then Raise ValueError
    else
      let v := digits_value 0 digits in
      Ok (if neg then - v else v)
  else Raise ValueError.

(** *** float() *)

(** A binary64 value: not-a-number, an infinity, or [m * 2^e] with a
    sign, where [0 <= m <= 2^53 - 1] and [-1074 <= e <= 971]. *)
Inductive pyfloat : Set :=
  | FNaN
  | FInf (neg : bool)
  | FFin (neg : bool) (m : Z) (e : Z).

(** The quotient [n / (d * 2^e)], rounded down, and what is left. *)
Definition scaled_div (n d e : Z) : Z * Z * Z :=
  let num := if 0 <=? e then n else n * 2 ^ (- e) in
  let den := if 0 <=? e then d * 2 ^ e else d in
  (num / den, num mod den, den).

(** The binary64 nearest to [n / d] (ties to even), for [0 < n] and
    [0 < d]; [None] when the result overflows. *)
Definition round_ratio (n d : Z) : option (Z * Z) :=
  let e0 := Z.log2 n - Z.log2 d - 52 in
  let '(q0, _, _) := scaled_div n d e0 in
  let e1 := if q0 <? 2 ^ 52 then e0 - 1 else e0 in
  let e := Z.max e1 (-1074) in
  let '(q, r, den) := scaled_div n d e in
  let m :=
    if 2 * r <? den then q
    else if den <? 2 * r then q + 1
    else if Z.even q then q else q + 1 in
  let '(m, e) := if m =? 2 ^ 53 then (2 ^ 52, e + 1) else (m, e) in
  if 971 <? e then None else Some (m, e).

(** The float nearest to [n * 10^k]. *)
Definition float_of_decimal (neg : bool) (n k : Z) : pyfloat :=
  if n =? 0 then FFin neg 0 (-1074)
  else
    let r := if 0 <=? k then round_ratio (n * 10 ^ k) 1
             else round_ratio n (10 ^ (- k)) in
    match r with
    | Some (m, e) => FFin neg m e
    | None => FInf neg
    end.

(** An exponent part [e[+-]ddd]; the string starts after the [e]. *)
Definition parse_exponent (s : string) : option Z :=
  let '(neg, ds) := split_sign s in
  if isdecimal ds
  then Some (if neg then - digits_value 0 ds else digits_value 0 ds)
  else None.

Definition is_e (c : ascii) : bool := is_char 101 c || is_char 69 c.

(** [float(s)] for a string [s]. *)
Definition float (s : string) : result pyfloat :=
  let t := strip_with isblank_num s in
  if negb (underscores_ok None t) then Raise ValueError
  else
    let '(neg, body) := split_sign (remove_all (is_char 95) t) in
    let low := map_chars ascii_lower body in
    if (low =? "inf")%string || (low =? "infinity")%string then Ok (FInf neg)
    else if (low =? "nan")%string then Ok FNaN
    else
      let '(mant, ex) := split_once is_e body in
      let '(ip, fp) := split_once (is_char 46) mant in
      let fp := match fp with Some f => f | None => EmptyString end in
      let ds := (ip ++ fp)%string in
      if all_chars isdecimal_char ip && all_chars isdecimal_char fp
         && truthy ds
      then
        match ex with
        | None =>
            Ok (float_of_decimal neg (digits_value 0 ds)
                  (- Z.of_nat (String.length fp)))
        | Some es =>
            match parse_exponent es with
            | Some k =>
                Ok (float_of_decimal neg (digits_value 0 ds)
                      (k - Z.of_nat (String.length fp)))
            | None => Raise ValueError
            end
        end
      else Raise ValueError.

(** [int(x)] for a float [x]: truncation towards zero. *)
Definition int_of_float (x : pyfloat) : result Z :=
  match x with
  | FNaN => Raise ValueError
  | FInf _ => Raise OverflowError
  | FFin neg m e =>
      let v := if 0 <=? e then m * 2 ^ e else m / 2 ^ (- e) in
      Ok (if neg then - v else v)
  end.

(** *** datetime.strptime(s, '%b %d, %Y').date() *)

Record date : Set := mkdate { year : Z; month : Z; day : Z }.

(** Abbreviated month names of the C locale, lower-cased as [_strptime]
    keeps them; the match ignores case. *)
Definition month_abbr : list string :=
  ["jan"; "feb"; "mar"; "apr"; "may"; "jun";
   "jul"; "aug"; "sep"; "oct"; "nov"; "dec"].

Fixpoint index_of (x : string) (l : list string) (i : Z) : option Z :=
  match l with
  | [] => None
  | y :: l' => if (x =? y)%string then Some i else index_of x l' (i + 1)
  end.

Definition is_leap (y : Z) : bool :=
  (y mod 4 =? 0) && (negb (y mod 100 =? 0) || (y mod 400 =? 0)).

Definition days_in_month (y m : Z) : Z :=
  if m =? 2 then (if is_leap y then 29 else 28)
  else if (m =? 4) || (m =? 6) || (m =? 9) || (m =? 11) then 30
  else 31.

(** The day field [%d]: one or two digits naming a day from 1 to 31. *)
Definition day_field (s : string) : option Z :=
  if isdecimal s && (String.length s <=? 2)%nat
     && (1 <=? digits_value 0 s) && (digits_value 0 s <=? 31)
  then Some (digits_value 0 s) else None.

(** The year field [%Y]: exactly four digits. *)
Definition year_field (s : string) : option Z :=
  if isdecimal s && (String.length s =? 4)%nat
  then Some (digits_value 0 s) else None.

(** At least one blank, then the rest. *)
Definition skip_blanks (s : string) : option string :=
  match s with
  | String c s' => if isspace_char c then Some (lstrip_with isspace_char s')
                   else None
  | EmptyString => None
  end.

Definition strptime_date (s : string) : result date :=
  match s with
  | String a (String b (String c rest)) =>
      let name := map_chars ascii_lower (String a (String b (String c ""))) in
      match index_of name month_abbr 1, skip_blanks rest with
      | Some mo, Some r1 =>
          match split_once (is_char 44) r1 with
          | (dtxt, Some r2) =>
              match day_field dtxt, skip_blanks r2 with
              | Some d, Some r3 =>
                  match year_field r3 with
                  | Some y =>
                      if (1 <=? y) && (d <=? days_in_month y mo)
                      then Ok (mkdate y mo d)
                      else Raise ValueError
                  | None => Raise ValueError
                  end
              | _, _ => Raise ValueError
              end
          | (_, None) => Raise ValueError
          end
      | _, _ => Raise ValueError
      end
  | _ => Raise ValueError
  end.

End Py.

(** ** Data frames *)

Module Frame.

(** One line of the customer file, with the columns the commands read. *)
Record Row : Set := mkRow {
  ConsumerNumber : string;
  ConsumerName : string;
  FatherName : string;
  MotherName : string;
  Rationcardno : string;
  BlueBookNumber : string;
  LPGId : string;
  KYCDone : string;
  Category : string;
  ConsumerTypeIdDesc : string;
  SvNumber : string;
  SvDateInt : string;
  ProdCode : string;
  NoOfCylinder : string;
  NoOfDpr : string;
  InDocTypeIdDesc : string;
  HistCodeDescription : string;
  Address : string;
  HouseNo : string;
  MobileNumber : string;
  AreaCodeDesc : string
}.

Definition DataFrame : Set := list Row.

(** [key in seen] for a Python set of strings. *)
Definition mem (k : string) (seen : gset string) : bool :=
  bool_decide (k ∈ seen).

(** [df.drop_duplicates(subset=[key], keep='first')], scanning with the
    set of the keys met so far. *)
Fixpoint drop_duplicates_from {A : Type} (key : A -> string)
    (seen : gset string) (l : list A) : list A :=
  match l with
  | [] => []
  | r :: l' =>
      if mem (key r) seen then drop_duplicates_from key seen l'
      else r :: drop_duplicates_from key ({[key r]} ∪ seen) l'
  end.

Definition drop_duplicates {A : Type} (key : A -> string) (l : list A)
  : list A :=
  drop_duplicates_from key ∅ l.

(** [df[df[col] == v]] *)
Definition where_eq {A : Type} (col : A -> string) (v : string) (df : list A)
  : list A :=
  filter (fun r => col r = v) df.

(** [df[df[col] != '']] *)
Definition where_nonblank {A : Type} (col : A -> string) (df : list A)
  : list A :=
  filter (fun r => col r ≠ "") df.

(** [df[df[col].isin(keys)]] *)
Definition where_in {A : Type} (col : A -> string) (keys : list string)
    (df : list A) : list A :=
  filter (fun r => col r ∈ keys) df.

(** Order of Python strings: by code point, then by length. *)
Definition str_le (a b : string) : Prop := String.leb a b = true.

Global Instance str_le_dec a b : Decision (str_le a b).
Proof. unfold str_le. apply _. Defined.

(** The group keys of [df.groupby(key)]: each key once, sorted. *)
Definition group_keys {A : Type} (key : A -> string) (df : list A)
  : list string :=
  merge_sort str_le (drop_duplicates id (map key df)).

(** [series.nunique()]: how many different values. *)
Definition nunique (vals : list string) : nat :=
  length (drop_duplicates id vals).

(** [df.groupby(key)[col].nunique()]: for each group key, the number of
    different values of [col] among its rows. *)
Definition groupby_nunique {A : Type} (key col : A -> string) (df : list A)
  : list (string * nat) :=
  map (fun k => (k, nunique (map col (where_eq key k df))))
      (group_keys key df).

(** How often [v] occurs. *)
Definition occurrences (v : string) (vals : list string) : nat :=
  length (filter (fun x => x = v) vals).

(** Larger count first. *)
Definition count_ge (a b : string * nat) : Prop := (snd b <= snd a)%nat.

Global Instance count_ge_dec a b : Decision (count_ge a b).
Proof. unfold count_ge. apply _. Defined.

(** [series.value_counts()]: each value with the number of its
    occurrences, sorted by that number, largest first (pandas' default
    [ascending=False]).  pandas does not fix the order among equal
    counts. *)
Definition value_counts (vals : list string) : list (string * nat) :=
  merge_sort count_ge
    (map (fun v => (v, occurrences v vals)) (drop_duplicates id vals)).

(** [series.sort_values(ascending=True)] on such a table of counts. *)
Definition count_le (a b : string * nat) : Prop := (snd a <= snd b)%nat.

Global Instance count_le_dec a b : Decision (count_le a b).
Proof. unfold count_le. apply _. Defined.

Definition sort_values_ascending (t : list (string * nat))
  : list (string * nat) :=
  merge_sort count_le t.

(** [series[series > 1]] *)
Definition more_than_one (t : list (string * nat)) : list (string * nat) :=
  filter (fun kv => (1 < snd kv)%nat) t.

(** The row [df.loc[df[col] == v, out].iloc[0]]: the cell [out] of the
    first row whose [col] is [v]; [IndexError] when there is none. *)
Definition first_where (col out : Row -> string) (v : string)
    (df : DataFrame) : Py.result string :=
  match where_eq col v df with
  | r :: _ => Py.Ok (out r)
  | [] => Py.Raise Py.IndexError
  end.

(** The rows with their labels [0, 1, ...]. *)
Definition iterrows (df : DataFrame) : list (nat * Row) :=
  imap (fun i r => (i, r)) df.

End Frame.

(** ** The relational store *)

Module Models.

(** A row of a flat name-keyed registry ([ConsumerCategory],
    [ConsumerType], [ConnectionType], [Product], and [Unit], whose key
    is its [short_name]). *)
Record Lookup : Set := mkLookup { lookup_id : Z; name : string }.

(** [consumers.models.Consumer], with the columns the import sets; the
    other columns keep their defaults.  A foreign key holds the id of
    the row it points to. *)
Record Consumer : Set := mkConsumer {
  consumer_number : string;
  consumer_name : string;
  father_name : string;
  mother_name : string;
  ration_card_num : option string;
  lpg_id : option Z;
  blue_book : option Z;
  is_kyc_done : bool;
  category : option Z;
  consumer_type : option Z
}.

Record Address : Set := mkAddress {
  address_content_type : Z;
  address_object_id : Z;
  address_text : string
}.

Record Contact : Set := mkContact {
  contact_content_type : Z;
  contact_object_id : Z;
  mobile_number : string
}.

Inductive VariantType : Set := DOMESTIC | COMMERCIAL.

(** The text of [f"{variant_type_str.title()} Cylinder {variant_size}kg"]
    is fixed by its two holes, which are kept as they are. *)
Record VariantName : Set := mkVariantName {
  name_type_title : string;
  name_size : Py.pyfloat
}.

Record ProductVariant : Set := mkProductVariant {
  product_code : string;
  variant_name : VariantName;
  product : option Z;
  variant_unit : option Z;
  size : Py.pyfloat;
  variant_type : VariantType
}.

Record ConnectionDetails : Set := mkConnectionDetails {
  consumer_id : Z;
  sv_number : string;
  sv_date : option Py.date;
  connection_type : option Z;
  hist_code_description : string;
  num_of_regulators : Z;
  connection_product : option Z
}.

Record Route : Set := mkRoute {
  area_code : string;
  area_code_description : string
}.

Record RouteArea : Set := mkRouteArea {
  area_route_id : Z;
  area_name : string
}.

(** [consumers.models.ConsumerRouteAssignment]; the consumer is the
    primary key. *)
Record ConsumerRouteAssignment : Set := mkAssignment {
  assignment_consumer_id : Z;
  assignment_route_id : Z
}.

(** A table is the list of its rows with their ids, in the order
    [objects.all()] yields them. *)
Definition Table (A : Type) : Type := list (Z * A).

Record Store : Type := mkStore {
  categories : list Lookup;
  consumer_types : list Lookup;
  connection_types : list Lookup;
  products : list Lookup;
  units : list Lookup;
  consumers : Table Consumer;
  addresses : Table Address;
  contacts : Table Contact;
  variants : Table ProductVariant;
  connections : Table ConnectionDetails;
  routes : Table Route;
  route_areas : Table RouteArea;
  assignments : list ConsumerRouteAssignment;
  consumer_content_type : Z
}.

(** Column checks of the database engine that the model declarations do
    not show (lengths of character columns, ranges of integer columns,
    nullability of columns declared outside the files at hand). *)
Class Backend : Type := mkBackend {
  consumer_ok : Consumer -> bool;
  address_ok : Address -> bool;
  contact_ok : Contact -> bool;
  variant_ok : ProductVariant -> bool;
  connection_ok : ConnectionDetails -> bool
}.

(** An engine without further checks. *)
Definition permissive : Backend :=
  {| consumer_ok := fun _ => true;
     address_ok := fun _ => true;
     contact_ok := fun _ => true;
     variant_ok := fun _ => true;
     connection_ok := fun _ => true |}.

(** [{key(x): x for x in rows}]: a later row replaces an earlier one
    with the same key. *)
Definition dict_by {A : Type} (key : A -> string) (rows : list A)
  : gmap string A :=
  foldl (fun m x => <[key x := x]> m) ∅ rows.

(** [set(Model.objects.values_list(col, flat=True))] *)
Definition value_set {A : Type} (col : A -> string) (t : Table A)
  : gset string :=
  list_to_set (map (fun r => col (snd r)) t).

Definition id_set {A : Type} (col : A -> Z) (rows : list A) : gset Z :=
  list_to_set (map col rows).

(** The id the table gives to its next row. *)
Definition next_id {A : Type} (t : Table A) : Z :=
  1 + foldr (fun r acc => Z.max (fst r) acc) 0 t.

(** New rows get consecutive ids. *)
Fixpoint with_ids {A : Type} (first : Z) (objs : list A) : Table A :=
  match objs with
  | [] => []
  | o :: objs' => (first, o) :: with_ids (first + 1) objs'
  end.

Definition append_rows {A : Type} (t : Table A) (objs : list A) : Table A :=
  (t ++ with_ids (next_id t) objs)%list.

(** No value twice. *)
Definition distinct {K : Type} `{EqDecision K} (l : list K) : bool :=
  bool_decide (NoDup l).

(** The values of an optional column that are present; a unique index
    ignores the absent ones. *)
Definition present {A K : Type} (col : A -> option K) (t : list A) : list K :=
  omap col t.

(** Constraints of the [Consumer] table ([consumers/models.py]):
    [consumer_number] is unique, [lpg_id] is unique where present,
    [category] and [consumer_type] are not null. *)
Definition consumers_valid (t : list Consumer) : bool :=
  distinct (map consumer_number t)
  && distinct (present lpg_id t)
  && forallb (fun c => bool_decide (is_Some (category c))
                       && bool_decide (is_Some (consumer_type c))) t.

(** Modelled from the spec: [products/models.py] is not at hand; the
    data model gives [ProductVariant] a unique [product_code]. *)
Definition variants_valid (t : list ProductVariant) : bool :=
  distinct (map product_code t).

(** Modelled from the spec: [connections/models.py] is not at hand; the
    data model gives [ConnectionDetails] a unique [sv_number] and asks
    that it reference a resolvable [Consumer]. *)
Definition connections_valid (cons : Table Consumer)
    (t : list ConnectionDetails) : bool :=
  distinct (map sv_number t)
  && forallb (fun c => bool_decide (consumer_id c ∈ map fst cons)) t.

(** The consumer is the primary key of an assignment, and the consumer
    and the route it names exist. *)
Definition assignments_valid (s : Store)
    (t : list ConsumerRouteAssignment) : bool :=
  distinct (map assignment_consumer_id t)
  && forallb (fun a =>
       bool_decide (assignment_consumer_id a ∈ map fst (consumers s))
       && bool_decide (assignment_route_id a ∈ map fst (routes s))) t.

End Models.

(** ** Talking to the database *)

Module Db.
Import Py Models.

(** A command step: it reads and writes the store, and returns or
    raises.  When it raises, the store is left as the step made it. *)
Definition db (A : Type) : Type := Store -> result A * Store.

Definition ret {A} (a : A) : db A := fun s => (Ok a, s).

Definition bind {A B} (m : db A) (k : A -> db B) : db B :=
  fun s =>
    match m s with
    | (Ok a, s') => k a s'
    | (Raise e, s') => (Raise e, s')
    end.

(** A computation that does not touch the store. *)
Definition lift {A} (r : result A) : db A := fun s => (r, s).

(** A read-only query. *)
Definition query {A} (f : Store -> A) : db A := fun s => (Ok (f s), s).

Declare Scope db_scope.
Delimit Scope db_scope with db.
Notation "x <- m ;; k" := (bind m (fun x => k))
  (at level 20, m at level 99, k at level 200, only parsing) : db_scope.
Notation "' p <- m ;; k" := (bind m (fun x => match x with p => k end))
  (at level 20, p pattern, m at level 99, k at level 200, only parsing) : db_scope.
Notation "m ;; k" := (bind m (fun _ => k))
  (at level 100, k at level 200, right associativity, only parsing) : db_scope.

(** [@transaction.atomic]: when the body raises, everything it wrote
    is rolled back and the exception goes on. *)
Definition atomic {A} (body : db A) : db A :=
  fun s =>
    match body s with
    | (Ok a, s') => (Ok a, s')
    | (Raise e, _) => (Raise e, s)
    end.

(** The batches of [bulk_create(objs, batch_size=n)]. *)
Fixpoint chunks_fuel {A} (fuel n : nat) (l : list A) : list (list A) :=
  match fuel, l with
  | O, _ => []
  | _, [] => []
  | S fuel', _ => take n l :: chunks_fuel fuel' n (drop n l)
  end.

Definition chunks {A} (n : nat) (l : list A) : list (list A) :=
  chunks_fuel (length l) n l.

Fixpoint for_each {A} (f : A -> db unit) (l : list A) : db unit :=
  match l with
  | [] => ret tt
  | x :: l' => (f x ;; for_each f l')%db
  end.

(** [Model.objects.bulk_create(objs, batch_size=n)]: one INSERT per
    batch, in order. *)
Definition bulk_create {A} (insert : list A -> db unit) (objs : list A)
    (batch_size : nat) : db unit :=
  for_each insert (chunks batch_size objs).

Definition set_consumers (t : Table Consumer) (s : Store) : Store :=
  mkStore (categories s) (consumer_types s) (connection_types s)
    (products s) (units s) t (addresses s) (contacts s) (variants s)
    (connections s) (routes s) (route_areas s) (assignments s)
    (consumer_content_type s).

Definition set_addresses (t : Table Address) (s : Store) : Store :=
  mkStore (categories s) (consumer_types s) (connection_types s)
    (products s) (units s) (consumers s) t (contacts s) (variants s)
    (connections s) (routes s) (route_areas s) (assignments s)
    (consumer_content_type s).

Definition set_contacts (t : Table Contact) (s : Store) : Store :=
  mkStore (categories s) (consumer_types s) (connection_types s)
    (products s) (units s) (consumers s) (addresses s) t (variants s)
    (connections s) (routes s) (route_areas s) (assignments s)
    (consumer_content_type s).

Definition set_variants (t : Table ProductVariant) (s : Store) : Store :=
  mkStore (categories s) (consumer_types s) (connection_types s)
    (products s) (units s) (consumers s) (addresses s) (contacts s) t
    (connections s) (routes s) (route_areas s) (assignments s)
    (consumer_content_type s).

Definition set_connections (t : Table ConnectionDetails) (s : Store)
  : Store :=
  mkStore (categories s) (consumer_types s) (connection_types s)
    (products s) (units s) (consumers s) (addresses s) (contacts s)
    (variants s) t (routes s) (route_areas s) (assignments s)
    (consumer_content_type s).

Definition set_assignments (t : list ConsumerRouteAssignment) (s : Store)
  : Store :=
  mkStore (categories s) (consumer_types s) (connection_types s)
    (products s) (units s) (consumers s) (addresses s) (contacts s)
    (variants s) (connections s) (routes s) (route_areas s) t
    (consumer_content_type s).

Section Inserts.
Context {B : Backend}.

(** One INSERT statement: the engine takes all its rows or none.  A
    row that breaks a column check gives [DataError], a broken table
    constraint gives [IntegrityError]. *)
Definition insert_checked {A} (row_ok : A -> bool) (table_ok : bool)
    (write : Store -> Store) (rows : list A) : db unit :=
  fun s =>
    if negb (forallb row_ok rows) then (Raise DataError, s)
    else if table_ok then (Ok tt, write s)
    else (Raise IntegrityError, s).

Definition insert_consumers (rows : list Consumer) : db unit :=
  fun s =>
    insert_checked consumer_ok
      (consumers_valid (map snd (consumers s) ++ rows)%list)
      (set_consumers (append_rows (consumers s) rows)) rows s.

Definition insert_addresses (rows : list Address) : db unit :=
  fun s =>
    insert_checked address_ok true
      (set_addresses (append_rows (addresses s) rows)) rows s.

Definition insert_contacts (rows : list Contact) : db unit :=
  fun s =>
    insert_checked contact_ok true
      (set_contacts (append_rows (contacts s) rows)) rows s.

Definition insert_variants (rows : list ProductVariant) : db unit :=
  fun s =>
    insert_checked variant_ok
      (variants_valid (map snd (variants s) ++ rows)%list)
      (set_variants (append_rows (variants s) rows)) rows s.

Definition insert_connections (rows : list ConnectionDetails) : db unit :=
  fun s =>
    insert_checked connection_ok
      (connections_valid (consumers s)
         (map snd (connections s) ++ rows)%list)
      (set_connections (append_rows (connections s) rows)) rows s.

Definition insert_assignments (rows : list ConsumerRouteAssignment)
  : db unit :=
  fun s =>
    insert_checked (fun _ => true)
      (assignments_valid s (assignments s ++ rows)%list)
      (set_assignments (assignments s ++ rows)%list) rows s.

End Inserts.

End Db.

(** ** populate_consumers *)

Module PopulateConsumers.
Import Py Frame Models Db.

(** Step 1 of [handle]: the registries by name and the natural keys
    the store already holds. *)
Record Prefetched : Type := mkPrefetched {
  categories : gmap string Lookup;
  consumer_types : gmap string Lookup;
  connection_types : gmap string Lookup;
  products : gmap string Lookup;
  units : gmap string Lookup;
  existing_consumer_nums : gset string;
  existing_connection_nums : gset string;
  existing_variant_codes : gset string;
  consumer_content_type : Z
}.

Definition prefetch (s : Store) : Prefetched :=
  {| categories := dict_by name (Models.categories s);
     consumer_types := dict_by name (Models.consumer_types s);
     connection_types := dict_by name (Models.connection_types s);
     products := dict_by name (Models.products s);
     units := dict_by name (Models.units s);
     existing_consumer_nums := value_set consumer_number (consumers s);
     existing_connection_nums := value_set sv_number (connections s);
     existing_variant_codes := value_set product_code (variants s);
     consumer_content_type := Models.consumer_content_type s |}.

(** [int(float(v)) if v and v.replace('.','',1).isdigit() else None] *)
Definition coerce_lpg_id (v : string) : result (option Z) :=
  if truthy v && isdigit (remove_first (is_char 46) v)
  then (x <- float v ;; z <- int_of_float x ;; Ok (Some z))%py
  else Ok None.

(** [int(v) if v and v.isdigit() else None] *)
Definition coerce_blue_book (v : string) : result (option Z) :=
  if truthy v && isdigit v
  then (z <- int v ;; Ok (Some z))%py
  else Ok None.

(** The [Consumer(...)] of step 2, built from one row. *)
Definition new_consumer (pre : Prefetched) (row : Row) : result Consumer :=
  (lpg <- coerce_lpg_id (LPGId row) ;;
   bb <- coerce_blue_book (BlueBookNumber row) ;;
   Ok {| consumer_number := ConsumerNumber row;
         consumer_name := ConsumerName row;
         father_name := FatherName row;
         mother_name := MotherName row;
         ration_card_num :=
           if truthy (Rationcardno row) then Some (Rationcardno row)
           else None;
         lpg_id := lpg;
         blue_book := bb;
         is_kyc_done := bool_decide (KYCDone row = "KYC Done");
         category := lookup_id <$> categories pre !! Category row;
         consumer_type :=
           lookup_id <$> consumer_types pre !! ConsumerTypeIdDesc row |})%py.

(** The loop of step 2 over [unique_consumer_df], with its two
    accumulators. *)
Fixpoint stage_consumers (pre : Prefetched) (rows : list Row)
    (consumers_to_create : list Consumer)
    (new_consumer_numbers : gset string)
  : result (list Consumer * gset string) :=
  match rows with
  | [] => Ok (consumers_to_create, new_consumer_numbers)
  | row :: rows' =>
      if mem (ConsumerNumber row) (existing_consumer_nums pre)
      then stage_consumers pre rows' consumers_to_create
             new_consumer_numbers
      else
        (c <- new_consumer pre row ;;
         stage_consumers pre rows' (consumers_to_create ++ [c])%list
           ({[ConsumerNumber row]} ∪ new_consumer_numbers))%py
  end.

(** The accumulators of step 5. *)
Record Batch : Type := mkBatch {
  addresses_to_create : list Address;
  contacts_to_create : list Contact;
  variants_to_create : list (string * ProductVariant);
  connections_to_create : list ConnectionDetails;
  sv_numbers_in_batch : gset string;
  new_consumer_numbers : gset string
}.

Definition has_key {V : Type} (k : string) (d : list (string * V)) : bool :=
  bool_decide (k ∈ map fst d).

(** The address and the contact of a consumer created in this run, at
    the first row that names it. *)
Definition prepare_children (pre : Prefetched) (consumer_obj : Z * Consumer)
    (row : Row) (b : Batch) : Batch :=
  if mem (consumer_number (snd consumer_obj)) (new_consumer_numbers b)
  then
    mkBatch
      (addresses_to_create b ++
       [mkAddress (consumer_content_type pre) (fst consumer_obj)
          (Frame.Address row)])%list
      (contacts_to_create b ++
       [mkContact (consumer_content_type pre) (fst consumer_obj)
          (MobileNumber row)])%list
      (variants_to_create b) (connections_to_create b)
      (sv_numbers_in_batch b)
      (new_consumer_numbers b ∖ {[consumer_number (snd consumer_obj)]})
  else b.

(** The variant of a product code met for the first time. *)
Definition prepare_variant (pre : Prefetched) (row : Row) (b : Batch)
  : result Batch :=
  let prod_code := ProdCode row in
  if truthy prod_code
     && negb (mem prod_code (existing_variant_codes pre))
     && negb (has_key prod_code (variants_to_create b))
  then
    (variant_size <- float (NoOfCylinder row) ;;
     let ct := consumer_types pre !! ConsumerTypeIdDesc row in
     let variant_type_str :=
       match ct with
       | Some ct => if bool_decide (name ct = "Domestic") then DOMESTIC
                    else COMMERCIAL
       | None => COMMERCIAL
       end in
     let title :=
       match variant_type_str with
       | DOMESTIC => "Domestic"
       | COMMERCIAL => "Commercial"
       end in
     Ok (mkBatch (addresses_to_create b) (contacts_to_create b)
           (variants_to_create b ++
            [(prod_code,
              mkProductVariant prod_code (mkVariantName title variant_size)
                (lookup_id <$> products pre !! "LPG Cylinder")
                (lookup_id <$> units pre !! "kg")
                variant_size variant_type_str)])%list
           (connections_to_create b) (sv_numbers_in_batch b)
           (new_consumer_numbers b)))%py
  else Ok b.

(** The connection of a connection number met for the first time; its
    product link is filled in later. *)
Definition prepare_connection (pre : Prefetched) (consumer_obj : Z * Consumer)
    (row : Row) (b : Batch) : result Batch :=
  let sv_number := SvNumber row in
  if negb (mem sv_number (existing_connection_nums pre))
     && negb (mem sv_number (sv_numbers_in_batch b))
  then
    (sv_date <- (if truthy (SvDateInt row)
                 then (d <- strptime_date (SvDateInt row) ;; Ok (Some d))
                 else Ok None) ;;
     regulators <- int (NoOfDpr row) ;;
     Ok (mkBatch (addresses_to_create b) (contacts_to_create b)
           (variants_to_create b)
           (connections_to_create b ++
            [mkConnectionDetails (fst consumer_obj) sv_number sv_date
               (lookup_id <$> connection_types pre !! InDocTypeIdDesc row)
               (HistCodeDescription row) regulators None])%list
           ({[sv_number]} ∪ sv_numbers_in_batch b)
           (new_consumer_numbers b)))%py
  else Ok b.

(** The body of the loop of step 5 for one row. *)
Definition prepare_row (pre : Prefetched)
    (consumer_map : gmap string (Z * Consumer)) (row : Row) (b : Batch)
  : result Batch :=
  match consumer_map !! ConsumerNumber row with
  | None => Ok b
  | Some consumer_obj =>
      (b <- prepare_variant pre row (prepare_children pre consumer_obj row b) ;;
       prepare_connection pre consumer_obj row b)%py
  end.

Fixpoint prepare_rows (pre : Prefetched)
    (consumer_map : gmap string (Z * Consumer)) (rows : list Row) (b : Batch)
  : result Batch :=
  match rows with
  | [] => Ok b
  | row :: rows' =>
      (b <- prepare_row pre consumer_map row b ;;
       prepare_rows pre consumer_map rows' b)%py
  end.

(** [conn.product = variant_map.get(prod_code)], where [prod_code] is
    read from the first row of the frame with the connection's number. *)
Definition link_product (df : DataFrame)
    (variant_map : gmap string (Z * ProductVariant))
    (conn : ConnectionDetails) : result ConnectionDetails :=
  (prod_code <- first_where SvNumber ProdCode (sv_number conn) df ;;
   Ok (mkConnectionDetails (consumer_id conn) (sv_number conn)
         (sv_date conn) (connection_type conn)
         (hist_code_description conn) (num_of_regulators conn)
         (fst <$> variant_map !! prod_code)))%py.

Fixpoint link_products (df : DataFrame)
    (variant_map : gmap string (Z * ProductVariant))
    (conns : list ConnectionDetails) : result (list ConnectionDetails) :=
  match conns with
  | [] => Ok []
  | conn :: conns' =>
      (c <- link_product df variant_map conn ;;
       cs <- link_products df variant_map conns' ;;
       Ok (c :: cs))%py
  end.

(** What one run has staged and written: the lists of the command at
    its last line. *)
Record Staged : Type := mkStaged {
  staged_consumers : list Consumer;
  staged_addresses : list Address;
  staged_contacts : list Contact;
  staged_variants : list ProductVariant;
  staged_connections : list ConnectionDetails
}.

Definition batch_size : nat := 2000.

Section Command.
Context {B : Backend}.

(** [bulk_create] guarded by [if objs:]. *)
Definition bulk_create_if {A} (insert : list A -> db unit) (objs : list A)
  : db unit :=
  match objs with
  | [] => ret tt
  | _ => bulk_create insert objs batch_size
  end.

(** The body of [handle], steps 1 to 6. *)
Definition handle_body (df : DataFrame) : db Staged :=
  (pre <- query prefetch ;;
   ' (consumers_to_create, new_numbers) <-
     lift (stage_consumers pre (drop_duplicates ConsumerNumber df) [] ∅) ;;
   bulk_create insert_consumers consumers_to_create batch_size ;;
   consumer_map <-
     query (fun s => dict_by (fun c => consumer_number (snd c))
                       (consumers s)) ;;
   b <- lift (prepare_rows pre consumer_map df
                (mkBatch [] [] [] [] ∅ new_numbers)) ;;
   bulk_create_if insert_variants (map snd (variants_to_create b)) ;;
   variant_map <-
     query (fun s => dict_by (fun v => product_code (snd v)) (variants s)) ;;
   conns <- lift (link_products df variant_map (connections_to_create b)) ;;
   bulk_create_if insert_addresses (addresses_to_create b) ;;
   bulk_create_if insert_contacts (contacts_to_create b) ;;
   bulk_create_if insert_connections conns ;;
   ret (mkStaged consumers_to_create (addresses_to_create b)
          (contacts_to_create b) (map snd (variants_to_create b)) conns))%db.

(** [handle], under [@transaction.atomic]. *)
Definition handle (df : DataFrame) : db Staged := atomic (handle_body df).

End Command.

End PopulateConsumers.

(** ** populate_consumers_route *)

Module PopulateConsumersRoute.
Import Py Frame Models Db.

(** The accumulators of the loop of step 2. *)
Record Progress : Type := mkProgress {
  assignments_to_create : list ConsumerRouteAssignment;
  processed_consumer_ids_in_batch : gset Z;
  skipped_already_assigned : nat;
  skipped_missing_data : nat
}.

Definition skip_missing (p : Progress) : Progress :=
  mkProgress (assignments_to_create p) (processed_consumer_ids_in_batch p)
    (skipped_already_assigned p) (S (skipped_missing_data p)).

Definition skip_assigned (p : Progress) : Progress :=
  mkProgress (assignments_to_create p) (processed_consumer_ids_in_batch p)
    (S (skipped_already_assigned p)) (skipped_missing_data p).

Definition stage (consumer_obj : Z * Consumer) (route_obj : Z * Route)
    (p : Progress) : Progress :=
  mkProgress
    (assignments_to_create p ++
     [mkAssignment (fst consumer_obj) (fst route_obj)])%list
    ({[fst consumer_obj]} ∪ processed_consumer_ids_in_batch p)
    (skipped_already_assigned p) (skipped_missing_data p).

(** [area_code_desc.split('-')[0].strip()] *)
Definition area_code_of (area_code_desc : string) : string :=
  strip (split_head (is_char 45) area_code_desc).

(** The body of the loop for one row. *)
Definition stage_row (consumer_map : gmap string (Z * Consumer))
    (route_map : gmap string (Z * Route)) (assigned_consumer_ids : gset Z)
    (row : Row) (p : Progress) : Progress :=
  let consumer_number := ConsumerNumber row in
  let area_code_desc := AreaCodeDesc row in
  if negb (truthy consumer_number) || negb (truthy area_code_desc)
  then skip_missing p
  else
    match consumer_map !! consumer_number,
          route_map !! area_code_of area_code_desc with
    | Some consumer_obj, Some route_obj =>
        if bool_decide (fst consumer_obj ∈ assigned_consumer_ids)
           || bool_decide
                (fst consumer_obj ∈ processed_consumer_ids_in_batch p)
        then skip_assigned p
        else stage consumer_obj route_obj p
    | _, _ => skip_missing p
    end.

Definition stage_rows (consumer_map : gmap string (Z * Consumer))
    (route_map : gmap string (Z * Route)) (assigned_consumer_ids : gset Z)
    (df : DataFrame) (p : Progress) : Progress :=
  foldl (fun p row =>
           stage_row consumer_map route_map assigned_consumer_ids row p)
        p df.

(** Step 1: the maps and the set the loop consults. *)
Definition consumer_map_of (s : Store) : gmap string (Z * Consumer) :=
  dict_by (fun c => consumer_number (snd c)) (consumers s).

Definition route_map_of (s : Store) : gmap string (Z * Route) :=
  dict_by (fun r => area_code (snd r)) (routes s).

Definition assigned_ids_of (s : Store) : gset Z :=
  id_set assignment_consumer_id (assignments s).

(** Steps 1 and 2 on a store: what the run stages and counts. *)
Definition staged (df : DataFrame) (s : Store) : Progress :=
  stage_rows (consumer_map_of s) (route_map_of s) (assigned_ids_of s) df
    (mkProgress [] ∅ 0%nat 0%nat).

(** The summary printed at the end of the run. *)
Record Summary : Type := mkSummary {
  rows_processed : nat;
  assignments_created : nat;
  rows_already_assigned : nat;
  rows_missing_data : nat
}.

Definition batch_size : nat := 2000.

Section Command.
Context {B : Backend}.

(** Step 3.  The [except] around [bulk_create] swallows the error; the
    transaction is then marked for rollback, and as nothing else was
    written the store is the one the run started with. *)
Definition try_bulk_create (objs : list ConsumerRouteAssignment) : db unit :=
  fun s =>
    match bulk_create insert_assignments objs batch_size s with
    | (Ok _, s') => (Ok tt, s')
    | (Raise _, _) => (Ok tt, s)
    end.

Definition handle (df : DataFrame) : db Summary :=
  atomic
    (p <- query (staged df) ;;
     match assignments_to_create p with
     | [] => ret tt
     | objs => try_bulk_create objs
     end ;;
     ret (mkSummary (length df) (length (assignments_to_create p))
            (skipped_already_assigned p) (skipped_missing_data p)))%db.

End Command.

End PopulateConsumersRoute.

(** ** find_duplicate_ration_cards *)

Module FindDuplicateRationCards.
Import Py Frame.

(** [grouped[grouped > 1]]: the ration cards (blank ones left out) with
    more than one consumer number. *)
Definition true_duplicates (df : DataFrame) : list (string * nat) :=
  more_than_one
    (groupby_nunique Rationcardno ConsumerNumber
       (where_nonblank Rationcardno df)).

(** One block of the report: the ration card, the number of different
    consumers, and one line per consumer with its row label. *)
Record Finding : Set := mkFinding {
  ration_card_num : string;
  unique_consumer_count : nat;
  unique_consumer_rows : list (nat * Row)
}.

Inductive Report : Set :=
  | NoneShared
  | Findings (blocks : list Finding).

Definition finding_of (rows : list (nat * Row)) (ration_card : string)
  : Finding :=
  let group_df := where_eq (fun r => Rationcardno (snd r)) ration_card rows in
  mkFinding ration_card
    (nunique (map (fun r => ConsumerNumber (snd r)) group_df))
    (drop_duplicates (fun r => ConsumerNumber (snd r)) group_df).

(** [handle], from the frame to what it prints. *)
Definition handle (df : DataFrame) : Report :=
  match true_duplicates df with
  | [] => NoneShared
  | dups =>
      let all_offending_rows :=
        where_in (fun r => Rationcardno (snd r)) (map fst dups)
          (iterrows df) in
      Findings
        (map (finding_of all_offending_rows)
           (group_keys (fun r => Rationcardno (snd r)) all_offending_rows))
  end.

(** The ration cards the report lists. *)
Definition reported (df : DataFrame) : list string :=
  match handle df with
  | NoneShared => []
  | Findings blocks => map ration_card_num blocks
  end.

End FindDuplicateRationCards.

(** ** shared_bluebook and generate_bluebook_reports *)

Module SharedBluebook.
Import Py Frame.

(** Steps 1 and 2: one row per consumer, blank blue books left out,
    then the count of each blue-book number. *)
Definition blue_book_counts (df : DataFrame) : list (string * nat) :=
  value_counts
    (map BlueBookNumber
       (where_nonblank BlueBookNumber (drop_duplicates ConsumerNumber df))).

(** Step 3: [blue_book_counts[blue_book_counts > 1]]. *)
Definition duplicate_counts (df : DataFrame) : list (string * nat) :=
  more_than_one (blue_book_counts df).

Inductive Report : Set :=
  | NoneShared
  | Listing (lines : list (string * nat)).

(** [handle] of [shared_bluebook]: the table is printed in the order
    [value_counts] left it in. *)
Definition handle (df : DataFrame) : Report :=
  match duplicate_counts df with
  | [] => NoneShared
  | lines => Listing lines
  end.

Definition listed (df : DataFrame) : list (string * nat) :=
  match handle df with
  | NoneShared => []
  | Listing lines => lines
  end.

(** Step 3 of [generate_bluebook_reports]: the same counts, put in
    ascending order by an explicit [sort_values(ascending=True)]. *)
Definition sorted_shared_blue_books (df : DataFrame) : list (string * nat) :=
  sort_values_ascending (duplicate_counts df).

End SharedBluebook.

(** ** validate_consumer_addresses *)

Module ValidateConsumerAddresses.
Import Py Frame Models Db.

(** An insertion-ordered dictionary with string keys. *)
Definition odict (V : Type) : Type := list (string * V).

Definition od_has {V} (k : string) (d : odict V) : bool :=
  bool_decide (k ∈ map fst d).

(** [d[k] = v] for a key that is not in [d] yet. *)
Definition od_add {V} (k : string) (v : V) (d : odict V) : odict V :=
  (d ++ [(k, v)])%list.

(** [d[k]] on a [defaultdict]: the value, after the entry is made when
    it is missing; [change] is then applied to the value. *)
Fixpoint od_touch {V} (k : string) (default : V) (change : V -> V)
    (d : odict V) : odict V :=
  match d with
  | [] => [(k, change default)]
  | (k', v) :: d' =>
      if bool_decide (k' = k) then (k', change v) :: d'
      else (k', v) :: od_touch k default change d'
  end.

(** The body of the loop of [process_csv] for one row. *)
Definition process_row (area_code_desc_filter : string) (row : Row)
    (consumers_by_area : odict (odict string)) : odict (odict string) :=
  let consumer_number := strip (ConsumerNumber row) in
  let area_code_desc := strip (AreaCodeDesc row) in
  let address := strip (Frame.Address row) in
  if negb (truthy consumer_number) || negb (truthy area_code_desc)
     || negb (truthy address)
  then consumers_by_area
  else if negb (bool_decide (area_code_desc = area_code_desc_filter))
  then consumers_by_area
  else
    od_touch area_code_desc []
      (fun consumer_dict =>
         if od_has consumer_number consumer_dict then consumer_dict
         else od_add consumer_number address consumer_dict)
      consumers_by_area.

(** The loop of [process_csv] over the rows of a file that was read:
    for each kept area, its consumers with their addresses, first
    occurrence of each consumer number. *)
Definition process_csv (df : DataFrame) (area_code_desc_filter : string)
  : odict (list (string * string)) :=
  foldl (fun d row => process_row area_code_desc_filter row d) [] df.

(** What [open] and [csv.DictReader] make of the file at the path.  A
    file that cannot be opened or decoded, or that has no header row,
    is [Unreadable].  Otherwise the reader has its field names, as the
    sniffed delimiter cuts the header, and its rows; a row too short to
    have the three cells is [None], as the reader gives [None] for a
    missing cell. *)
Inductive CsvFile : Set :=
  | Unreadable
  | Sheet (fieldnames : list string) (rows : list (option Row)).

Definition required_cols : list string :=
  ["ConsumerNumber"; "AreaCodeDesc"; "Address"].

(** The rows [process_csv] gets to loop over, [None] when it raises
    before it returns: the file is unreadable, a required column is
    missing ([CommandError]), or a row is short ([.strip()] on [None]
    raises [AttributeError]). *)
Definition read_rows (file : CsvFile) : option DataFrame :=
  match file with
  | Unreadable => None
  | Sheet fieldnames rows =>
      if forallb (fun col => bool_decide (col ∈ fieldnames)) required_cols
      then mapM id rows
      else None
  end.

(** [process_csv] from the file on; [None] when it raises. *)
Definition process_csv_file (file : CsvFile) (area_code_desc_filter : string)
  : option (odict (list (string * string))) :=
  match read_rows file with
  | Some df => Some (process_csv df area_code_desc_filter)
  | None => None
  end.

(** [parse_area_code_desc] *)
Definition parse_area_code_desc (area_code_desc : string)
  : result (string * string) :=
  match split_once (is_char 45) area_code_desc with
  | (code, Some description) => Ok (strip code, strip description)
  | (_, None) => Raise CommandError
  end.

(** The row with the smallest id, as [.first()] orders by primary key. *)
Fixpoint first_by_pk {A} (best : Z * A) (t : Table A) : Z * A :=
  match t with
  | [] => best
  | r :: t' => first_by_pk (if fst r <? fst best then r else best) t'
  end.

(** [find_route] *)
Definition find_route (area_code_ area_description : string)
  : db (option (Z * Route)) :=
  query (fun s =>
    match filter (fun r => area_code (snd r) = area_code_
                           ∧ area_code_description (snd r) = area_description)
                 (routes s) with
    | [] => None
    | r :: rs => Some (first_by_pk r rs)
    end).

Section Upper.

(** [str.upper], which the model leaves open: the full case mapping
    leads out of U+0000..U+00FF. *)
Variable upper : string -> string.

(** [get_route_areas] *)
Definition get_route_areas (route : Z * Route) : db (list string) :=
  query (fun s =>
    map (fun a => upper (area_name (snd a)))
      (filter (fun a => area_route_id (snd a) = fst route) (route_areas s))).

(** [any(area in address_upper for area in route_areas)] *)
Definition area_found (address : string) (route_areas : list string) : bool :=
  existsb (fun area => contains (upper address) area) route_areas.

(** [validate_consumers] *)
Definition validate_consumers (consumers : list (string * string))
    (route_areas : list string) : list (string * string) :=
  filter (fun c => area_found (snd c) route_areas = false) consumers.

Inductive Report : Set :=
  | NoData
  | Results (all_invalid_consumers : list (string * string))
            (total_consumers : nat).

(** One turn of the loop of step 2. *)
Definition validate_area (item : string * list (string * string))
    (all_invalid_consumers : list (string * string))
  : db (list (string * string)) :=
  (' (code, description) <- lift (parse_area_code_desc (fst item)) ;;
   route <- find_route code description ;;
   match route with
   | None => ret all_invalid_consumers
   | Some route =>
       route_areas <- get_route_areas route ;;
       match route_areas with
       | [] => ret all_invalid_consumers
       | _ =>
           ret (all_invalid_consumers
                ++ validate_consumers (snd item) route_areas)%list
       end
   end)%db.

Fixpoint validate_areas (items : odict (list (string * string)))
    (all_invalid_consumers : list (string * string))
  : db (list (string * string)) :=
  match items with
  | [] => ret all_invalid_consumers
  | item :: items' =>
      (acc <- validate_area item all_invalid_consumers ;;
       validate_areas items' acc)%db
  end.

(** [except Exception as e: raise CommandError(...)] *)
Definition as_command_error {A} (m : db A) : db A :=
  fun s =>
    match m s with
    | (Ok a, s') => (Ok a, s')
    | (Raise _, s') => (Raise CommandError, s')
    end.

(** [handle] on the rows of a file that was read. *)
Definition handle (df : DataFrame) (area_code_desc_filter : string)
  : db Report :=
  as_command_error
    (let consumers_by_area := process_csv df area_code_desc_filter in
     match consumers_by_area with
     | [] => ret NoData
     | _ =>
         (all_invalid_consumers <- validate_areas consumers_by_area [] ;;
          ret (Results all_invalid_consumers
                 (foldr (fun item n => (length (snd item) + n)%nat) 0%nat
                    consumers_by_area)))%db
     end).

(** [handle] from the file on: what [process_csv] raises leaves the
    command as [CommandError] too, by the [except] clauses that close
    [handle]. *)
Definition handle_file (file : CsvFile) (area_code_desc_filter : string)
  : db Report :=
  fun s =>
    match read_rows file with
    | Some df => handle df area_code_desc_filter s
    | None => (Raise CommandError, s)
    end.

End Upper.

End ValidateConsumerAddresses.

(** ** Sample data *)

Module Samples.
Import Py Frame Models.

(** U+00B2, SUPERSCRIPT TWO, as a one-character string. *)
Definition superscript_two : string := String (ascii_of_N 178) "".

(** A customer line; the columns not given are blank. *)
Definition customer (number name category ctype sv_number sv_date prod_code
    cylinders regulators : string) : Row :=
  {| ConsumerNumber := number; ConsumerName := name;
     FatherName := ""; MotherName := ""; Rationcardno := "";
     BlueBookNumber := ""; LPGId := ""; KYCDone := "KYC Done";
     Category := category; ConsumerTypeIdDesc := ctype;
     SvNumber := sv_number; SvDateInt := sv_date; ProdCode := prod_code;
     NoOfCylinder := cylinders; NoOfDpr := regulators;
     InDocTypeIdDesc := "New Connection"; HistCodeDescription := "";
     Frame.Address := "12 Main Road"; HouseNo := "12";
     MobileNumber := "9000000000"; AreaCodeDesc := "" |}.

Definition with_blue_book (v : string) (r : Row) : Row :=
  mkRow (ConsumerNumber r) (ConsumerName r) (FatherName r) (MotherName r)
    (Rationcardno r) v (LPGId r) (KYCDone r) (Category r)
    (ConsumerTypeIdDesc r) (SvNumber r) (SvDateInt r) (ProdCode r)
    (NoOfCylinder r) (NoOfDpr r) (InDocTypeIdDesc r) (HistCodeDescription r)
    (Frame.Address r) (HouseNo r) (MobileNumber r) (AreaCodeDesc r).

Definition with_lpg_id (v : string) (r : Row) : Row :=
  mkRow (ConsumerNumber r) (ConsumerName r) (FatherName r) (MotherName r)
    (Rationcardno r) (BlueBookNumber r) v (KYCDone r) (Category r)
    (ConsumerTypeIdDesc r) (SvNumber r) (SvDateInt r) (ProdCode r)
    (NoOfCylinder r) (NoOfDpr r) (InDocTypeIdDesc r) (HistCodeDescription r)
    (Frame.Address r) (HouseNo r) (MobileNumber r) (AreaCodeDesc r).

Definition with_ration_card (v : string) (r : Row) : Row :=
  mkRow (ConsumerNumber r) (ConsumerName r) (FatherName r) (MotherName r)
    v (BlueBookNumber r) (LPGId r) (KYCDone r) (Category r)
    (ConsumerTypeIdDesc r) (SvNumber r) (SvDateInt r) (ProdCode r)
    (NoOfCylinder r) (NoOfDpr r) (InDocTypeIdDesc r) (HistCodeDescription r)
    (Frame.Address r) (HouseNo r) (MobileNumber r) (AreaCodeDesc r).

Definition with_area (area address : string) (r : Row) : Row :=
  mkRow (ConsumerNumber r) (ConsumerName r) (FatherName r) (MotherName r)
    (Rationcardno r) (BlueBookNumber r) (LPGId r) (KYCDone r) (Category r)
    (ConsumerTypeIdDesc r) (SvNumber r) (SvDateInt r) (ProdCode r)
    (NoOfCylinder r) (NoOfDpr r) (InDocTypeIdDesc r) (HistCodeDescription r)
    address (HouseNo r) (MobileNumber r) area.

(** A store after [populate_lookups] and [populate_routes], without
    consumers. *)
Definition fresh_store : Store :=
  {| categories := [mkLookup 1 "General"];
     consumer_types := [mkLookup 1 "Domestic"; mkLookup 2 "Commercial"];
     connection_types := [mkLookup 1 "New Connection"];
     products := [mkLookup 1 "LPG Cylinder"; mkLookup 2 "Appliance"];
     units := [mkLookup 1 "kg"; mkLookup 2 "pcs"; mkLookup 3 "mtr"];
     consumers := []; addresses := []; contacts := []; variants := [];
     connections := [];
     routes := [(1, mkRoute "R001" "North Zone");
                (2, mkRoute "R002" "South Zone")];
     route_areas := [(1, mkRouteArea 1 "Jagtial");
                     (2, mkRouteArea 1 "Korutla");
                     (3, mkRouteArea 1 "Metpally")];
     assignments := [];
     consumer_content_type := 7 |}.

(** Two consumers; the first has two connections, and the second line
    repeats its consumer number. *)
Definition three_lines : DataFrame :=
  [customer "C001" "Asha" "General" "Domestic" "SV1" "Jan 05, 2020"
     "P14" "14.2" "1";
   customer "C001" "Asha again" "General" "Domestic" "SV2" "Mar 10, 2021"
     "P19" "19" "2";
   customer "C002" "Ravi" "General" "Commercial" "SV3" "Feb 29, 2020"
     "P19" "19" "1"].

(** A string of [n] digits 1. *)
Definition ones (n : nat) : string :=
  string_of_list_ascii (repeat "1"%char n).

Definition plain_consumer (number : string) : Consumer :=
  mkConsumer number "Asha" "" "" None None None true (Some 1) (Some 1).

(** A store where consumer C001 already has a route. *)
Definition assigned_store : Store :=
  mkStore (categories fresh_store) (consumer_types fresh_store)
    (connection_types fresh_store) (products fresh_store)
    (units fresh_store) [(1, plain_consumer "C001")] [] [] [] []
    (routes fresh_store) (route_areas fresh_store) [mkAssignment 1 1]
    (consumer_content_type fresh_store).

(** A store with two consumers and no route assignment. *)
Definition unassigned_store : Store :=
  mkStore (categories fresh_store) (consumer_types fresh_store)
    (connection_types fresh_store) (products fresh_store)
    (units fresh_store)
    [(1, plain_consumer "C001"); (2, plain_consumer "C002")] [] [] [] []
    (routes fresh_store) (route_areas fresh_store) []
    (consumer_content_type fresh_store).

Definition in_area (number area : string) : Row :=
  with_area area "12 Main Road" (customer number "" "" "" "" "" "" "" "").

Definition sample_variant (code : string) : ProductVariant :=
  mkProductVariant code (mkVariantName "Domestic" (FFin false 1 0))
    (Some 1) (Some 1) (FFin false 1 0) DOMESTIC.

(** Two lines with the same connection number and different product
    codes, then a line with a product code no variant has. *)
Definition repeated_connection : DataFrame :=
  [customer "C001" "Asha" "General" "Domestic" "SV1" "" "P14" "14.2" "1";
   customer "C001" "Asha" "General" "Domestic" "SV1" "" "P19" "19" "1";
   customer "C002" "Ravi" "General" "Domestic" "SV2" "" "" "" "1"].

(** A store that holds consumer C001 with its connection SV1 and the
    variant P14. *)
Definition settled_store : Store :=
  mkStore (categories fresh_store) (consumer_types fresh_store)
    (connection_types fresh_store) (products fresh_store)
    (units fresh_store) [(1, plain_consumer "C001")] [] []
    [(1, sample_variant "P14")]
    [(1, mkConnectionDetails 1 "SV1" None (Some 1) "" 1 (Some 1))]
    (routes fresh_store) (route_areas fresh_store) []
    (consumer_content_type fresh_store).

(** A line of that consumer, with a category and a consumer type no
    registry has. *)
Definition unknown_lookups_line : DataFrame :=
  [customer "C001" "Asha" "Platinum" "Industrial" "SV1" "Jan 05, 2020"
     "P14" "14.2" "1"].

(** A line of a new consumer with a category no registry has. *)
Definition unknown_category_line : DataFrame :=
  [customer "C009" "Lata" "Platinum" "Domestic" "SV9" "" "" "" "1"].

(** A line whose cylinder size is blank, for a product code the store
    does not hold. *)
Definition blank_size_line : DataFrame :=
  [customer "C001" "Asha" "General" "Domestic" "SV1" "Jan 05, 2020"
     "P14" "" "1"].

Definition on_card (card number : string) : Row :=
  with_ration_card card (customer number "Asha" "" "" "" "" "" "" "").

(** Five consumers: two share the blue book 111, three share 222. *)
Definition blue_book_lines : DataFrame :=
  [with_blue_book "111" (customer "C001" "Asha" "" "" "" "" "" "" "");
   with_blue_book "111" (customer "C002" "Ravi" "" "" "" "" "" "" "");
   with_blue_book "222" (customer "C003" "Mina" "" "" "" "" "" "" "");
   with_blue_book "222" (customer "C004" "Hari" "" "" "" "" "" "" "");
   with_blue_book "222" (customer "C005" "Sita" "" "" "" "" "" "" "")].

End Samples.

(** ** Notions the statements below are written with *)

Module Spec.
Import Py Frame Models.

(** [b] has the block [a] inside: [b = p ++ a ++ q]. *)
Definition occurs_in (a b : string) : Prop :=
  ∃ p q : string, b = (p ++ a ++ q)%string.

(** The different consumer numbers on the rows of one ration card. *)
Definition consumers_of_card (card : string) (df : DataFrame) : gset string :=
  list_to_set (map ConsumerNumber (where_eq Rationcardno card df)).

(** The first row of the frame, in file order, with the given value in
    the given column. *)
Definition first_row (col : Row -> string) (v : string) (df : DataFrame)
  : option Row :=
  head (where_eq col v df).

(** The consumers, one row each, that hold a given blue-book number. *)
Definition holders (blue_book : string) (df : DataFrame) : list Row :=
  where_eq BlueBookNumber blue_book (drop_duplicates ConsumerNumber df).

(** What [process_csv] keeps of a row: the consumer number and the
    address, stripped, when no cell of the three is blank and the area
    is the one asked for. *)
Definition matching_pair (area_code_desc_filter : string) (row : Row)
  : option (string * string) :=
  if truthy (strip (ConsumerNumber row)) && truthy (strip (AreaCodeDesc row))
     && truthy (strip (Frame.Address row))
     && bool_decide (strip (AreaCodeDesc row) = area_code_desc_filter)
  then Some (strip (ConsumerNumber row), strip (Frame.Address row))
  else None.

(** The (consumer, address) pairs of the filtered area, one per
    consumer number, the first of each. *)
Definition deduplicated (area_code_desc_filter : string) (df : DataFrame)
  : list (string * string) :=
  drop_duplicates fst (omap (matching_pair area_code_desc_filter) df).

(** The names of the sub-areas of a route, as the store holds them. *)
Definition sub_area_names (route : Z * Route) (s : Store) : list string :=
  map (fun a => area_name (snd a))
    (filter (fun a => area_route_id (snd a) = fst route) (route_areas s)).

(** What the loop of [populate_consumers_route] keeps true of its
    accumulators: the set of processed ids is the set of the staged
    consumers, no consumer is staged twice, none of them has a route in
    the store. *)
Definition consistent (assigned : gset Z)
    (p : PopulateConsumersRoute.Progress) : Prop :=
  PopulateConsumersRoute.processed_consumer_ids_in_batch p
    = list_to_set (map assignment_consumer_id
                     (PopulateConsumersRoute.assignments_to_create p))
  ∧ NoDup (map assignment_consumer_id
             (PopulateConsumersRoute.assignments_to_create p))
  ∧ ∀ a, a ∈ PopulateConsumersRoute.assignments_to_create p →
         assignment_consumer_id a ∉ assigned.

(** The rows the loop has dealt with: staged or counted. *)
Definition handled (p : PopulateConsumersRoute.Progress) : nat :=
  (length (PopulateConsumersRoute.assignments_to_create p)
   + PopulateConsumersRoute.skipped_already_assigned p
   + PopulateConsumersRoute.skipped_missing_data p)%nat.

(** A connection with its product link set. *)
Definition with_product (conn : ConnectionDetails) (link : option Z)
  : ConnectionDetails :=
  mkConnectionDetails (consumer_id conn) (sv_number conn) (sv_date conn)
    (connection_type conn) (hist_code_description conn)
    (num_of_regulators conn) link.

(** The product link the import gives a connection, for a table of
    variants: the id of the variant whose code is the product code of
    the first row of the file with the connection's number. *)
Definition linked (df : DataFrame) (t : Table ProductVariant)
    (conn conn' : ConnectionDetails) : Prop :=
  ∃ row,
    first_row SvNumber (sv_number conn) df = Some row
    ∧ conn' = with_product conn
                (fst <$> dict_by (fun v => product_code (snd v)) t
                           !! ProdCode row)
    ∧ (∀ vid, connection_product conn' = Some vid →
              ∃ v, (vid, v) ∈ t ∧ product_code v = ProdCode row)
    ∧ (ProdCode row ∉ map (fun v => product_code (snd v)) t →
       connection_product conn' = None).

(** What the loop of step 5 keeps true of its accumulators: the set of
    connection numbers of the batch is the set of the staged
    connections, and every staged variant sits under its own code. *)
Definition batch_consistent (b : PopulateConsumers.Batch) : Prop :=
  PopulateConsumers.sv_numbers_in_batch b
    = list_to_set (map sv_number (PopulateConsumers.connections_to_create b))
  ∧ Forall (fun kv => product_code (snd kv) = fst kv)
      (PopulateConsumers.variants_to_create b).

(** A row is covered when its product code, if it has one, and its
    connection number are in the store or staged. *)
Definition covered (pre : PopulateConsumers.Prefetched)
    (b : PopulateConsumers.Batch) (row : Row) : Prop :=
  (ProdCode row = ""
   ∨ ProdCode row ∈ PopulateConsumers.existing_variant_codes pre
   ∨ ProdCode row ∈ map fst (PopulateConsumers.variants_to_create b))
  ∧ (SvNumber row ∈ PopulateConsumers.existing_connection_nums pre
     ∨ SvNumber row
         ∈ map sv_number (PopulateConsumers.connections_to_create b)).

(** What is staged stays staged. *)
Definition grows (b b' : PopulateConsumers.Batch) : Prop :=
  (∀ k, k ∈ map fst (PopulateConsumers.variants_to_create b) →
        k ∈ map fst (PopulateConsumers.variants_to_create b'))
  ∧ (∀ k, k ∈ map sv_number (PopulateConsumers.connections_to_create b) →
          k ∈ map sv_number (PopulateConsumers.connections_to_create b')).

(** A run that staged nothing. *)
Definition nothing_staged : PopulateConsumers.Staged :=
  PopulateConsumers.mkStaged [] [] [] [] [].

(** The rows of a frame that name a consumer the store does not hold. *)
Definition unknown_consumers (existing : gset string) (rows : list Row)
  : list Row :=
  filter (fun row => ConsumerNumber row ∉ existing) rows.

End Spec.

(** ** generate_bluebook_reports *)

Module GenerateBluebookReports.
Import Py Frame.

(** Step 1: one row per consumer, the blank blue books left out. *)
Definition consumers_with_blue_book (df : DataFrame) : list Row :=
  where_nonblank BlueBookNumber (drop_duplicates ConsumerNumber df).

(** Step 2: [blue_book_counts[blue_book_counts > 1]]. *)
Definition shared_blue_books (df : DataFrame) : list (string * nat) :=
  more_than_one
    (value_counts (map BlueBookNumber (consumers_with_blue_book df))).

(** Step 3: [shared_blue_books.sort_values(ascending=True)].  pandas
    does not fix the order among equal counts. *)
Definition sorted_shared_blue_books (df : DataFrame) : list (string * nat) :=
  sort_values_ascending (shared_blue_books df).

(** Step 4: the consumers of each shared blue book, book after book
    in the sorted order, put together by [pd.concat]. *)
Definition final_report_rows (df : DataFrame) : list Row :=
  concat
    (map (fun kv =>
            where_eq BlueBookNumber (fst kv) (consumers_with_blue_book df))
       (sorted_shared_blue_books df)).

(** Step 5: the columns of the report. *)
Definition output_columns (r : Row) : list string :=
  [BlueBookNumber r; ConsumerNumber r; ConsumerName r; HouseNo r;
   MobileNumber r].

Inductive Report : Set :=
  | NoneShared
  | Written (final_report_df : list (list string)).

(** [handle], from the frame to the lines it writes. *)
Definition handle (df : DataFrame) : Report :=
  match shared_blue_books df with
  | [] => NoneShared
  | _ => Written (map output_columns (final_report_rows df))
  end.

End GenerateBluebookReports.

(** ** find_duplicate_sv_numbers *)

Module FindDuplicateSvNumbers.
Import Py Frame.

(** [df[df.duplicated(subset=[col], keep=False)]]: the rows whose cell
    is the cell of another row too, all of them. *)
Definition duplicated_all {A : Type} (col : A -> string) (df : list A)
  : list A :=
  filter (fun r => (1 < occurrences (col r) (map col df))%nat) df.

(** [df.sort_values(by=col)].  pandas does not fix the order among
    rows with equal cells. *)
Definition sort_values {A : Type} (col : A -> string) (df : list A)
  : list A :=
  merge_sort (fun a b => str_le (col a) (col b)) df.

(** One block of the report: a connection number and the rows that
    carry it, with their labels. *)
Record Group : Set := mkGroup {
  sv_num : string;
  group_df : list (nat * Row)
}.

Inductive Report : Set :=
  | NoDuplicates
  | Groups (count : nat) (blocks : list Group).

(** [handle], from the frame to what it prints. *)
Definition handle (df : DataFrame) : Report :=
  match duplicated_all (fun r => SvNumber (snd r)) (iterrows df) with
  | [] => NoDuplicates
  | rows =>
      let duplicate_sv_rows := sort_values (fun r => SvNumber (snd r)) rows in
      Groups
        (nunique (map (fun r => SvNumber (snd r)) duplicate_sv_rows))
        (map (fun k =>
                mkGroup k
                  (where_eq (fun r => SvNumber (snd r)) k duplicate_sv_rows))
           (group_keys (fun r => SvNumber (snd r)) duplicate_sv_rows))
  end.

End FindDuplicateSvNumbers.

(** ** Notions for the further properties *)

Module Notions.
Import Py Frame Models.

(** No hyphen in the string. *)
Definition hyphen_free (s : string) : bool :=
  all_chars (fun c => negb (is_char 45 c)) s.

(** The route carries the given code and description. *)
Definition route_matches (code description : string) (r : Z * Route) : Prop :=
  area_code (snd r) = code ∧ area_code_description (snd r) = description.

(** What a row of the route file resolves to in a store: the ids of
    its consumer and of its route, when both cells are filled and both
    are known. *)
Definition resolves (s : Store) (row : Row) : option (Z * Z) :=
  if truthy (ConsumerNumber row) && truthy (AreaCodeDesc row) then
    match PopulateConsumersRoute.consumer_map_of s !! ConsumerNumber row,
          PopulateConsumersRoute.route_map_of s
            !! PopulateConsumersRoute.area_code_of (AreaCodeDesc row) with
    | Some consumer_obj, Some route_obj =>
        Some (fst consumer_obj, fst route_obj)
    | _, _ => None
    end
  else None.

(** The first pair a file resolves to for a consumer. *)
Definition first_resolved (s : Store) (df : DataFrame) (consumer : Z)
  : option (Z * Z) :=
  head (filter (fun pr => fst pr = consumer) (omap (resolves s) df)).

(** The summary [populate_consumers_route] prints for a file and the
    accumulators of its loop. *)
Definition summary_of (df : DataFrame) (p : PopulateConsumersRoute.Progress)
  : PopulateConsumersRoute.Summary :=
  PopulateConsumersRoute.mkSummary (length df)
    (length (PopulateConsumersRoute.assignments_to_create p))
    (PopulateConsumersRoute.skipped_already_assigned p)
    (PopulateConsumersRoute.skipped_missing_data p).

(** How the accumulators of a second run of [populate_consumers_route]
    stand to those of the first at the same row: nothing is staged,
    the rows the first run staged are counted as already assigned, and
    the rows with missing data are counted as before. *)
Definition counted_again (p p' : PopulateConsumersRoute.Progress) : Prop :=
  PopulateConsumersRoute.assignments_to_create p' = []
  ∧ PopulateConsumersRoute.processed_consumer_ids_in_batch p' = ∅
  ∧ PopulateConsumersRoute.skipped_missing_data p'
    = PopulateConsumersRoute.skipped_missing_data p
  ∧ PopulateConsumersRoute.skipped_already_assigned p'
    = (PopulateConsumersRoute.skipped_already_assigned p
       + length (PopulateConsumersRoute.assignments_to_create p))%nat.

(** The rows of a file that bring a new key: for each value of the
    column that the store does not hold, the first row with it, in
    file order. *)
Definition first_rows (col : Row -> string) (known : gset string)
    (df : list Row) : list Row :=
  drop_duplicates col (filter (fun r => col r ∉ known) df).

(** The address [populate_consumers] gives the consumer of a row: the
    address cell of that row, attached to the consumer of the table
    with the row's number. *)
Definition address_from_row (s : Store) (t : Table Consumer) (row : Row)
    (a : Address) : Prop :=
  address_text a = Frame.Address row
  ∧ address_content_type a = consumer_content_type s
  ∧ ∃ c, (address_object_id a, c) ∈ t
         ∧ consumer_number c = ConsumerNumber row.

(** The contact of the consumer of a row, likewise. *)
Definition contact_from_row (s : Store) (t : Table Consumer) (row : Row)
    (k : Contact) : Prop :=
  mobile_number k = MobileNumber row
  ∧ contact_content_type k = consumer_content_type s
  ∧ ∃ c, (contact_object_id k, c) ∈ t
         ∧ consumer_number c = ConsumerNumber row.

(** The product variant [populate_consumers] builds from a row: the
    size is the cylinder cell read as a float; the variant is domestic
    when the consumer type of the row is a registered type called
    Domestic, and commercial in every other case. *)
Definition variant_from_row (s : Store) (row : Row) (v : ProductVariant)
  : Prop :=
  product_code v = ProdCode row
  ∧ float (NoOfCylinder row) = Ok (size v)
  ∧ (variant_type v = DOMESTIC
     ↔ ConsumerTypeIdDesc row = "Domestic"
       ∧ "Domestic" ∈ map name (consumer_types s))
  ∧ variant_name v
    = mkVariantName
        (match variant_type v with
         | DOMESTIC => "Domestic"
         | COMMERCIAL => "Commercial"
         end) (size v)
  ∧ product v
    = lookup_id <$> PopulateConsumers.products (PopulateConsumers.prefetch s)
                      !! "LPG Cylinder"
  ∧ variant_unit v
    = lookup_id <$> PopulateConsumers.units (PopulateConsumers.prefetch s)
                      !! "kg".

(** The connection [populate_consumers] builds from a row, for the
    consumer of the table with the row's number. *)
Definition connection_from_row (s : Store) (t : Table Consumer) (row : Row)
    (conn : ConnectionDetails) : Prop :=
  sv_number conn = SvNumber row
  ∧ (∃ c, (consumer_id conn, c) ∈ t
          ∧ consumer_number c = ConsumerNumber row)
  ∧ (if truthy (SvDateInt row)
     then ∃ d, strptime_date (SvDateInt row) = Ok d ∧ sv_date conn = Some d
     else sv_date conn = None)
  ∧ int (NoOfDpr row) = Ok (num_of_regulators conn)
  ∧ connection_type conn
    = lookup_id <$> PopulateConsumers.connection_types
                      (PopulateConsumers.prefetch s) !! InDocTypeIdDesc row
  ∧ hist_code_description conn = HistCodeDescription row.

(** The rows of a file that carry a ration card, with their labels. *)
Definition card_rows (card : string) (df : DataFrame) : list (nat * Row) :=
  where_eq (fun r => Rationcardno (snd r)) card (iterrows df).

(** How many consumers hold the blue book of a row. *)
Definition holders_of (df : DataFrame) (r : Row) : nat :=
  length (Spec.holders (BlueBookNumber r) df).

End Notions.

(** ** Further sample data *)

Module Cases.
Import Py Frame Models.

(** The sample of the usage notes of [validate_consumer_addresses]:
    three consumers of one area, the first of them on two lines. *)
Definition usage_lines : DataFrame :=
  [Samples.with_area "R001-North Zone" "123 Jagtial Road, Telangana"
     (Samples.customer "C001" "" "" "" "" "" "" "" "");
   Samples.with_area "R001-North Zone" "456 Main Street, Hyderabad"
     (Samples.customer "C002" "" "" "" "" "" "" "" "");
   Samples.with_area "R001-North Zone" "789 Korutla Lane"
     (Samples.customer "C003" "" "" "" "" "" "" "" "");
   Samples.with_area "R001-North Zone" "Duplicate entry"
     (Samples.customer "C001" "" "" "" "" "" "" "" "")].

(** Two consumers of the area of route R002, which has no sub-area
    in [Samples.fresh_store]. *)
Definition south_lines : DataFrame :=
  [Samples.with_area "R002-South Zone" "1 Lake View"
     (Samples.customer "C010" "" "" "" "" "" "" "" "");
   Samples.with_area "R002-South Zone" "2 Hill Road"
     (Samples.customer "C011" "" "" "" "" "" "" "" "")].

(** The two samples as files with the three columns and full rows. *)
Definition usage_file : ValidateConsumerAddresses.CsvFile :=
  ValidateConsumerAddresses.Sheet
    ["ConsumerNumber"; "AreaCodeDesc"; "Address"] (map Some usage_lines).

Definition south_file : ValidateConsumerAddresses.CsvFile :=
  ValidateConsumerAddresses.Sheet
    ["ConsumerNumber"; "AreaCodeDesc"; "Address"] (map Some south_lines).

(** The usage sample with a short row at its end, and with a header
    that the reader did not cut at the semicolons. *)
Definition short_row_file : ValidateConsumerAddresses.CsvFile :=
  ValidateConsumerAddresses.Sheet
    ["ConsumerNumber"; "AreaCodeDesc"; "Address"]
    (map Some usage_lines ++ [None]).

Definition uncut_header_file : ValidateConsumerAddresses.CsvFile :=
  ValidateConsumerAddresses.Sheet
    ["ConsumerNumber;AreaCodeDesc;Address"] (map Some usage_lines).

(** Two lines for consumer C001, in two areas, and one for C002. *)
Definition route_lines : DataFrame :=
  [Samples.in_area "C001" "R001-North Zone";
   Samples.in_area "C001" "R002-South Zone";
   Samples.in_area "C002" "R002-South Zone"].

(** A card on three lines of two consumers. *)
Definition card_lines : DataFrame :=
  [Samples.on_card "R1" "C1"; Samples.on_card "R1" "C2";
   Samples.on_card "R1" "C1"].

(** Two consumers on one connection number, two lines without a
    connection number, and a line of its own. *)
Definition sv_lines : DataFrame :=
  [Samples.customer "C001" "Asha" "" "" "SV7" "" "" "" "";
   Samples.customer "C002" "Ravi" "" "" "" "" "" "" "";
   Samples.customer "C003" "Mina" "" "" "SV7" "" "" "" "";
   Samples.customer "C004" "Hari" "" "" "" "" "" "" "";
   Samples.customer "C005" "Sita" "" "" "SV9" "" "" "" ""].

End Cases.

(** ** process_areas *)

Module ProcessAreas.
Import Py.

(** A row of the area file as [csv.DictReader] gives it: the cells of
    the two columns the command reads. *)
Record Line : Set := mkLine {
  AreaId : string;
  AreaCodeDesc : string
}.

(** [areas_dict[area_code_desc].add(area_id)] on a
    [defaultdict(set)]. *)
Definition add_area (area_code_desc area_id : string)
    (areas_dict : gmap string (gset string)) : gmap string (gset string) :=
  <[area_code_desc :=
      {[area_id]} ∪ default ∅ (areas_dict !! area_code_desc)]> areas_dict.

(** The body of the loop of [process_csv] for one row. *)
Definition process_row (row : Line)
    (areas_dict : gmap string (gset string)) : gmap string (gset string) :=
  let area_id := strip (AreaId row) in
  let area_code_desc := strip (AreaCodeDesc row) in
  if negb (truthy area_id) || negb (truthy area_code_desc)
  then areas_dict
  else add_area area_code_desc area_id areas_dict.

(** [process_csv] on the rows of a file that was read: the
    descriptions in ascending order, each with its area ids in
    ascending order.  [sorted(areas_dict.items())] compares
    the keys only, as no two items have the same key. *)
Definition process_csv (rows : list Line) : list (string * list string) :=
  let areas_dict := foldl (fun d row => process_row row d) ∅ rows in
  map (fun item => (fst item, merge_sort Frame.str_le (elements (snd item))))
    (merge_sort (fun a b => Frame.str_le (fst a) (fst b))
       (map_to_list areas_dict)).

(** What [open] and [csv.DictReader] make of the file at the path.  A
    file that cannot be opened or decoded, or that has no header row,
    is [Unreadable].  Otherwise the reader has its field names, as the
    sniffed delimiter cuts the header, and its rows; a row too short to
    have the two cells is [None], as the reader gives [None] for a
    missing cell. *)
Inductive CsvFile : Set :=
  | Unreadable
  | Sheet (fieldnames : list string) (rows : list (option Line)).

(** The rows [process_csv] gets to loop over, [None] when it raises
    before it returns: the file is unreadable, one of the two columns
    is missing ([CommandError]), or a row is short ([.strip()] on
    [None] raises [AttributeError]). *)
Definition read_rows (file : CsvFile) : option (list Line) :=
  match file with
  | Unreadable => None
  | Sheet fieldnames rows =>
      if negb (bool_decide ("AreaId" ∈ fieldnames))
         || negb (bool_decide ("AreaCodeDesc" ∈ fieldnames))
      then None
      else mapM id rows
  end.

(** The loop of [max(items, key=...)]: a later item replaces the best
    one when its key is larger. *)
Fixpoint max_from {A : Type} (key : A -> nat) (best : A) (items : list A)
  : A :=
  match items with
  | [] => best
  | item :: items' =>
      max_from key (if (key best <? key item)%nat then item else best) items'
  end.

(** [max(items, key=...)]; [ValueError] on an empty sequence. *)
Definition max_by {A : Type} (key : A -> nat) (items : list A) : result A :=
  match items with
  | [] => Raise ValueError
  | item :: items' => Ok (max_from key item items')
  end.

(** The loop of [min(items, key=...)]. *)
Fixpoint min_from {A : Type} (key : A -> nat) (best : A) (items : list A)
  : A :=
  match items with
  | [] => best
  | item :: items' =>
      min_from key (if (key item <? key best)%nat then item else best) items'
  end.

(** [min(items, key=...)]; [ValueError] on an empty sequence. *)
Definition min_by {A : Type} (key : A -> nat) (items : list A) : result A :=
  match items with
  | [] => Raise ValueError
  | item :: items' => Ok (min_from key item items')
  end.

(** What [display_summary] works out; the average it prints is the
    quotient of the two totals. *)
Record Summary : Set := mkSummary {
  total_descriptions : nat;
  total_unique_ids : nat;
  max_area : string * list string;
  min_area : string * list string
}.

(** [display_summary] *)
Definition display_summary (areas_dict : list (string * list string))
  : result Summary :=
  let total_descriptions := length areas_dict in
  let total_unique_ids :=
    foldr (fun item n => (length (snd item) + n)%nat) 0%nat areas_dict in
  (max_area <- max_by (fun x => length (snd x)) areas_dict ;;
   min_area <- min_by (fun x => length (snd x)) areas_dict ;;
   Ok (mkSummary total_descriptions total_unique_ids max_area min_area))%py.

Record Report : Set := mkReport {
  areas : list (string * list string);
  summary : Summary
}.

(** [handle] on the rows of a file that was read; the output format
    selects how [areas_dict] is printed and nothing else.  Every
    exception leaves as [CommandError]. *)
Definition handle (rows : list Line) : result Report :=
  match
    (let areas_dict := process_csv rows in
     summary <- display_summary areas_dict ;;
     Ok (mkReport areas_dict summary))%py
  with
  | Ok report => Ok report
  | Raise _ => Raise CommandError
  end.

(** [handle] from the file on: what [process_csv] raises leaves the
    command as [CommandError] too. *)
Definition handle_file (file : CsvFile) : result Report :=
  match read_rows file with
  | Some rows => handle rows
  | None => Raise CommandError
  end.

End ProcessAreas.

(** ** Notions for the area report *)

Module AreaNotions.
Import Py ProcessAreas.

(** What a row of the area file adds to the report: its description
    and its area id, without the blanks around them, when neither is
    empty. *)
Definition kept (row : Line) : option (string * string) :=
  let area_id := strip (AreaId row) in
  let area_code_desc := strip (AreaCodeDesc row) in
  if truthy area_id && truthy area_code_desc
  then Some (area_code_desc, area_id)
  else None.

(** The dictionary of the loop against the pairs the rows add: every
    key has the area ids of its pairs, and at least one. *)
Definition agrees (d : gmap string (gset string))
    (pairs : list (string * string)) : Prop :=
  ∀ desc,
    match d !! desc with
    | Some ids => ids ≠ ∅ ∧ ∀ id, id ∈ ids ↔ (desc, id) ∈ pairs
    | None => ∀ id, (desc, id) ∉ pairs
    end.

(** The sample of the usage notes of [process_areas]. *)
Definition usage_rows : list Line :=
  [mkLine "A001" "North Zone"; mkLine "A002" "North Zone";
   mkLine "A003" "South Zone"; mkLine "A001" "North Zone";
   mkLine "A004" "South Zone"].

(** The report the usage notes show for it. *)
Definition usage_report : Report :=
  mkReport
    [("North Zone", ["A001"; "A002"]); ("South Zone", ["A003"; "A004"])]
    (mkSummary 2 4 ("North Zone", ["A001"; "A002"])
       ("North Zone", ["A001"; "A002"])).

Definition usage_file : CsvFile :=
  Sheet ["AreaId"; "AreaCodeDesc"] (map Some usage_rows).

(** One area id under two descriptions. *)
Definition border_rows : list Line :=
  [mkLine "A001" "North Zone"; mkLine "A001" "South Zone"].

End AreaNotions.

(** * Properties *)

(** ** Strings and frames *)

Module Facts.
Import Py Frame Spec.

Lemma append_cons c (a q : string) :
  (String c a ++ q)%string = String c (a ++ q)%string.
Proof. reflexivity. Qed.

Lemma append_empty (q : string) : ("" ++ q)%string = q.
Proof. reflexivity. Qed.

Lemma starts_with_split (a b : string) :
  starts_with b a = true ↔ ∃ q : string, b = (a ++ q)%string.
Proof.
  revert b. induction a as [|c a IH]; intros b.
  - split; [intros _; by exists b | by destruct b].
  - destruct b as [|d b]; simpl.
    + split; [done | intros [q Hq]; by rewrite append_cons in Hq].
    + destruct (ascii_dec c d) as [->|Hne].
      * rewrite IH. split; intros [q Hq]; exists q.
        -- rewrite append_cons. by f_equal.
        -- rewrite append_cons in Hq. congruence.
      * split; [done | intros [q Hq]; rewrite append_cons in Hq; congruence].
Qed.

Lemma contains_occurs (b a : string) : contains b a = true ↔ occurs_in a b.
Proof.
  induction b as [|d b IH].
  - cbn [contains]. rewrite orb_false_r, starts_with_split. split.
    + intros [q Hq]. by exists ""%string, q.
    + intros [p [q Hq]]. destruct p as [|c p].
      * by exists q.
      * by rewrite append_cons in Hq.
  - cbn [contains]. rewrite orb_true_iff, IH, starts_with_split. split.
    + intros [[q Hq] | [p [q Hq]]].
      * by exists ""%string, q.
      * exists (String d p), q. rewrite append_cons. by rewrite Hq.
    + intros [p [q Hq]]. destruct p as [|d' p].
      * left. by exists q.
      * right. exists p, q. rewrite append_cons in Hq. congruence.
Qed.

Lemma mem_true k (seen : gset string) : mem k seen = true ↔ k ∈ seen.
Proof. unfold mem. apply bool_decide_eq_true. Qed.

Lemma mem_false k (seen : gset string) : mem k seen = false ↔ k ∉ seen.
Proof. unfold mem. apply bool_decide_eq_false. Qed.

Section Dedup.
Context {A : Type} (key : A -> string).

(** The rows with a given key that survive [drop_duplicates]: the first
    of them, unless the key was met before. *)
Lemma where_eq_drop_duplicates_from (n : string) seen (l : list A) :
  where_eq key n (drop_duplicates_from key seen l) =
  if mem n seen then [] else take 1 (where_eq key n l).
Proof.
  unfold where_eq. revert seen.
  induction l as [|r l IH]; intros seen; simpl.
  - by destruct (mem n seen).
  - destruct (mem (key r) seen) eqn:Hr.
    + rewrite IH. destruct (mem n seen) eqn:Hn; [done|].
      rewrite filter_cons_False; [done|].
      intros <-. congruence.
    + rewrite filter_cons. rewrite (filter_cons _ r l).
      destruct (decide (key r = n)) as [<-|Hne].
      * rewrite Hr. simpl. f_equal. rewrite IH.
        replace (mem (key r) ({[key r]} ∪ seen)) with true; [done|].
        symmetry. apply mem_true. set_solver.
      * rewrite IH.
        replace (mem n ({[key r]} ∪ seen)) with (mem n seen); [done|].
        unfold mem. apply bool_decide_ext. set_solver.
Qed.

Lemma where_eq_drop_duplicates (n : string) (l : list A) :
  where_eq key n (drop_duplicates key l) = take 1 (where_eq key n l).
Proof. apply where_eq_drop_duplicates_from. Qed.

Lemma elem_of_drop_duplicates_from seen (l : list A) x :
  x ∈ drop_duplicates_from key seen l → x ∈ l ∧ key x ∉ seen.
Proof.
  revert seen. induction l as [|r l IH]; intros seen; simpl.
  - by intros ?%elem_of_nil.
  - destruct (mem (key r) seen) eqn:Hr.
    + intros [? ?]%IH. split; [by right | done].
    + intros [->|Hx]%elem_of_cons.
      * split; [by left | by apply mem_false].
      * apply IH in Hx as [? ?]. split; [by right | set_solver].
Qed.

Lemma keys_drop_duplicates_from seen (l : list A) k :
  k ∈ map key (drop_duplicates_from key seen l) ↔ k ∈ map key l ∧ k ∉ seen.
Proof.
  revert seen. induction l as [|r l IH]; intros seen; simpl.
  - split; [by intros ?%elem_of_nil | by intros [?%elem_of_nil _]].
  - destruct (mem (key r) seen) eqn:Hr.
    + rewrite IH, elem_of_cons. apply mem_true in Hr.
      split; [tauto|]. intros [[->|?] ?]; tauto.
    + simpl. rewrite !elem_of_cons, IH. apply mem_false in Hr.
      split.
      * intros [->|[? ?]]; [tauto|]. split; [tauto | set_solver].
      * intros [[->|?] ?]; [tauto|].
        destruct (decide (k = key r)) as [->|?]; [tauto|].
        right. split; [done | set_solver].
Qed.

Lemma NoDup_drop_duplicates_from seen (l : list A) :
  NoDup (map key (drop_duplicates_from key seen l)).
Proof.
  revert seen. induction l as [|r l IH]; intros seen; simpl.
  - constructor.
  - destruct (mem (key r) seen) eqn:Hr; [apply IH|].
    simpl. constructor; [|apply IH].
    rewrite keys_drop_duplicates_from. set_solver.
Qed.

Lemma keys_drop_duplicates (l : list A) k :
  k ∈ map key (drop_duplicates key l) ↔ k ∈ map key l.
Proof. unfold drop_duplicates. rewrite keys_drop_duplicates_from. set_solver. Qed.

Lemma NoDup_drop_duplicates (l : list A) :
  NoDup (map key (drop_duplicates key l)).
Proof. apply NoDup_drop_duplicates_from. Qed.

End Dedup.

Lemma drop_duplicates_from_snoc {A} (key : A -> string) seen (l : list A) x :
  drop_duplicates_from key seen (l ++ [x])
  = (drop_duplicates_from key seen l
     ++ if bool_decide (key x ∈ seen ∨ key x ∈ map key l) then [] else [x])%list.
Proof.
  revert seen. induction l as [|r l IH]; intros seen; simpl.
  - destruct (mem (key x) seen) eqn:Hm.
    + apply mem_true in Hm. rewrite bool_decide_eq_true_2; [done | by left].
    + apply mem_false in Hm. rewrite bool_decide_eq_false_2; [done|].
      intros [?|?%elem_of_nil]; done.
  - destruct (mem (key r) seen) eqn:Hm.
    + rewrite IH. f_equal. apply mem_true in Hm.
      rewrite (bool_decide_ext (key x ∈ seen ∨ key x ∈ key r :: map key l)
                 (key x ∈ seen ∨ key x ∈ map key l)); [done|].
      rewrite elem_of_cons. split; [|tauto]. intros [?|[->|?]]; tauto.
    + rewrite IH. simpl. f_equal. f_equal.
      rewrite (bool_decide_ext (key x ∈ seen ∨ key x ∈ key r :: map key l)
                 (key x ∈ {[key r]} ∪ seen ∨ key x ∈ map key l)); [done|].
      rewrite elem_of_cons. set_solver.
Qed.

Lemma drop_duplicates_snoc {A} (key : A -> string) (l : list A) x :
  drop_duplicates key (l ++ [x])
  = (drop_duplicates key l
     ++ if bool_decide (key x ∈ map key l) then [] else [x])%list.
Proof.
  unfold drop_duplicates. rewrite drop_duplicates_from_snoc. f_equal.
  rewrite (bool_decide_ext (key x ∈ (∅ : gset string) ∨ key x ∈ map key l)
             (key x ∈ map key l)); [done | set_solver].
Qed.

(** [nunique] counts the set of the values. *)
Lemma nunique_size (vals : list string) :
  nunique vals = size (list_to_set vals : gset string).
Proof.
  unfold nunique.
  pose proof (NoDup_drop_duplicates id vals) as Hnd.
  rewrite map_id in Hnd.
  rewrite <- (size_list_to_set (C:=gset string) _ Hnd).
  f_equal. apply set_eq. intros x. rewrite !elem_of_list_to_set.
  pose proof (keys_drop_duplicates id vals x) as H.
  by rewrite !map_id in H.
Qed.

Lemma group_keys_elem {A} (key : A -> string) (df : list A) k :
  k ∈ group_keys key df ↔ k ∈ map key df.
Proof.
  unfold group_keys. rewrite merge_sort_Permutation.
  pose proof (keys_drop_duplicates id (map key df) k) as H.
  by rewrite !map_id in H.
Qed.

Lemma NoDup_group_keys {A} (key : A -> string) (df : list A) :
  NoDup (group_keys key df).
Proof.
  unfold group_keys. rewrite merge_sort_Permutation.
  pose proof (NoDup_drop_duplicates id (map key df)) as H.
  by rewrite map_id in H.
Qed.

End Facts.

(** ** find_duplicate_ration_cards *)

Module RationCardFacts.
Import Py Frame Spec Facts FindDuplicateRationCards.

Lemma snd_iterrows (df : DataFrame) : map snd (iterrows df) = df.
Proof.
  unfold iterrows.
  assert (∀ (f : nat → Row → nat * Row) (l : list Row),
            (∀ i r, snd (f i r) = r) → map snd (imap f l) = l) as Hgen.
  { intros f l. revert f. induction l as [|r l IH]; intros f Hf; [done|].
    rewrite imap_cons. simpl. rewrite Hf. f_equal. apply IH.
    intros i r'. apply Hf. }
  by apply Hgen.
Qed.

Lemma elem_of_more_than_one (keys : list string) (f : string -> nat) k :
  k ∈ map fst (more_than_one (map (fun k => (k, f k)) keys))
  ↔ k ∈ keys ∧ (1 < f k)%nat.
Proof.
  unfold more_than_one. rewrite list_elem_of_fmap. split.
  - intros [[k' n] [-> [Hn Hin]%list_elem_of_filter]].
    apply list_elem_of_fmap in Hin as [k'' [[= -> ->] Hk]]. done.
  - intros [Hk Hn]. exists (k, f k). split; [done|].
    apply list_elem_of_filter. split; [done|].
    apply list_elem_of_fmap. by exists k.
Qed.

Lemma where_eq_nonblank (col : Row -> string) (v : string) (df : DataFrame) :
  v ≠ "" → where_eq col v (where_nonblank col df) = where_eq col v df.
Proof.
  intros Hv. unfold where_eq, where_nonblank.
  rewrite list_filter_filter. apply list_filter_iff. intros r.
  split; [tauto|]. intros <-. done.
Qed.

(** The ration cards kept by [grouped[grouped > 1]]. *)
Lemma true_duplicates_elem (df : DataFrame) card :
  card ∈ map fst (true_duplicates df)
  ↔ card ≠ "" ∧ (1 < size (consumers_of_card card df))%nat.
Proof.
  unfold true_duplicates, groupby_nunique.
  rewrite elem_of_more_than_one, group_keys_elem.
  unfold where_nonblank at 1. rewrite list_elem_of_fmap.
  split.
  - intros [[row [-> [Hnb _]%list_elem_of_filter]] Hn]. split; [done|].
    rewrite where_eq_nonblank in Hn by done.
    by rewrite nunique_size in Hn.
  - intros [Hnb Hn].
    assert (1 < nunique (map ConsumerNumber (where_eq Rationcardno card df)))%nat
      as Hn' by (by rewrite nunique_size).
    split; [|by rewrite where_eq_nonblank].
    unfold nunique in Hn'.
    destruct (where_eq Rationcardno card df) as [|row rows] eqn:Hw;
      [simpl in Hn'; lia|].
    assert (row ∈ where_eq Rationcardno card df) as Hin
      by (rewrite Hw; by left).
    apply list_elem_of_filter in Hin as [<- Hin].
    exists row. split; [done|]. apply list_elem_of_filter. done.
Qed.

Lemma reported_elem (df : DataFrame) card :
  card ∈ reported df
  ↔ card ∈ map fst (true_duplicates df) ∧ card ∈ map Rationcardno df.
Proof.
  unfold reported, handle.
  destruct (true_duplicates df) as [|d dups] eqn:Hd.
  - split; [by intros ?%elem_of_nil | by intros [?%elem_of_nil _]].
  - rewrite <- Hd. clear Hd d dups.
    rewrite <- list_fmap_compose.
    change (map (ration_card_num ∘ finding_of ?rows) ?l) with (map id l).
    rewrite map_id, group_keys_elem.
    unfold where_in. rewrite !list_elem_of_fmap. split.
    + intros [[i row] [-> [Hk Hin]%list_elem_of_filter]]. simpl in *.
      split; [by apply list_elem_of_fmap in Hk|].
      exists row. split; [done|]. rewrite <- (snd_iterrows df).
      apply list_elem_of_fmap. by exists (i, row).
    + intros [Hk [row [-> Hin]]].
      rewrite <- (snd_iterrows df) in Hin.
      apply list_elem_of_fmap in Hin as [[i row'] [-> Hin]].
      exists (i, row'). split; [done|]. apply list_elem_of_filter.
      split; [|done]. simpl. by apply list_elem_of_fmap.
Qed.

Lemma reported_shared (df : DataFrame) (card : string) :
  card ∈ reported df
  ↔ card ≠ "" ∧ (1 < size (consumers_of_card card df))%nat.
Proof.
  rewrite reported_elem, true_duplicates_elem. split; [tauto|].
  intros [Hnb Hn]. split; [done|].
  unfold consumers_of_card in Hn.
  destruct (where_eq Rationcardno card df) as [|row rows] eqn:Hw.
  - change (map ConsumerNumber []) with (@nil string) in Hn.
    rewrite list_to_set_nil, size_empty in Hn. lia.
  - assert (row ∈ where_eq Rationcardno card df) as Hin
      by (rewrite Hw; by left).
    apply list_elem_of_filter in Hin as [<- Hin].
    apply list_elem_of_fmap. by exists row.
Qed.

(** C2.  A ration card is listed by the duplicate report exactly when it
    is not blank and its rows carry more than one different consumer
    number; a card whose rows all carry the same consumer number has
    one, so it is not listed however often the row repeats. *)
Theorem reported_iff_shared (df : DataFrame) (card : string) :
  card ∈ reported df
  ↔ card ≠ "" ∧ (1 < size (consumers_of_card card df))%nat.
Proof. apply reported_shared. Qed.

(** A card whose rows all name one consumer is never listed. *)
Lemma same_consumer_not_reported (df : DataFrame) (card consumer : string) :
  (∀ row, row ∈ df → Rationcardno row = card →
          ConsumerNumber row = consumer) →
  card ∉ reported df.
Proof.
  intros Hsame [Hnb Hn]%reported_shared.
  assert (consumers_of_card card df ⊆ {[consumer]}) as Hsub.
  { intros c. unfold consumers_of_card.
    rewrite elem_of_list_to_set, list_elem_of_fmap.
    intros [row [-> [Hc Hin]%list_elem_of_filter]].
    apply elem_of_singleton. by apply Hsame. }
  apply subseteq_size in Hsub. rewrite size_singleton in Hsub. lia.
Qed.

(** The two scenarios of the report: a card on the rows of two
    consumers is listed with its two consumers; a card on two rows of
    one consumer is not. *)
Lemma shared_card_reported :
  handle [Samples.on_card "R1" "C1"; Samples.on_card "R1" "C2"]
  = Findings
      [mkFinding "R1" 2
         [(0%nat, Samples.on_card "R1" "C1");
          (1%nat, Samples.on_card "R1" "C2")]]
  ∧ handle [Samples.on_card "R1" "C1"; Samples.on_card "R1" "C1"]
    = NoneShared.
Proof. split; vm_compute; reflexivity. Qed.

End RationCardFacts.

(** ** shared_bluebook *)

Module BlueBookFacts.
Import Py Frame Spec Facts SharedBluebook.

Global Instance count_ge_transitive : Transitive count_ge.
Proof. intros a b c. unfold count_ge. lia. Qed.

Global Instance count_ge_total : Total count_ge.
Proof. intros a b. unfold count_ge. lia. Qed.

Lemma StronglySorted_filter_keep {A} (R : relation A) (P : A -> Prop)
    `{∀ x, Decision (P x)} (l : list A) :
  StronglySorted R l → StronglySorted R (filter P l).
Proof.
  induction 1 as [|x l Hl IH Hx]; [constructor|].
  rewrite filter_cons. destruct (decide (P x)); [|done].
  constructor; [done|].
  apply Forall_forall. intros y [_ Hy]%list_elem_of_filter.
  by eapply Forall_forall in Hx.
Qed.

Lemma occurrences_map {A} (f : A -> string) (v : string) (l : list A) :
  occurrences v (map f l) = length (where_eq f v l).
Proof.
  unfold occurrences, where_eq. induction l as [|r l IH]; [done|].
  simpl. rewrite !filter_cons.
  destruct (decide (f r = v)); simpl; by rewrite IH.
Qed.

Lemma listed_duplicate_counts (df : DataFrame) :
  listed df = duplicate_counts df.
Proof. unfold listed, handle. by destruct (duplicate_counts df). Qed.

(** The lines of [value_counts]: every value once, with the number of
    its occurrences. *)
Lemma value_counts_elem (vals : list string) v n :
  (v, n) ∈ value_counts vals ↔ v ∈ vals ∧ n = occurrences v vals.
Proof.
  unfold value_counts. rewrite merge_sort_Permutation, list_elem_of_fmap.
  pose proof (keys_drop_duplicates id vals) as Hk.
  split.
  - intros [v' [[= -> ->] Hin]]. split; [|done].
    specialize (Hk v'). rewrite !map_id in Hk. by apply Hk.
  - intros [Hin ->]. exists v. split; [done|].
    specialize (Hk v). rewrite !map_id in Hk. by apply Hk.
Qed.

(** On the sample, the report lists the book shared by three consumers
    before the book shared by two: the counts do not ascend. *)
Lemma listed_largest_first :
  listed Samples.blue_book_lines = [("222", 3%nat); ("111", 2%nat)]
  ∧ ¬ Sorted (fun a b => (snd a <= snd b)%nat) (listed Samples.blue_book_lines).
Proof.
  assert (listed Samples.blue_book_lines = [("222", 3%nat); ("111", 2%nat)])
    as Heq by (vm_compute; reflexivity).
  split; [done|]. rewrite Heq. intros Hs.
  inversion Hs as [|? ? _ Hhd]; subst.
  inversion Hhd as [|? ? Hle]; subst. simpl in Hle. lia.
Qed.

(** C9, as the code has it.  The report lists exactly the non-blank
    blue-book numbers held by more than one consumer, each with the
    number of its holders, and the lines come with the larger count
    first: the counts never increase down the list. *)
Theorem listed_descending (df : DataFrame) :
  StronglySorted count_ge (listed df)
  ∧ ∀ blue_book n,
      (blue_book, n) ∈ listed df
      ↔ blue_book ≠ "" ∧ n = length (holders blue_book df) ∧ (1 < n)%nat.
Proof.
  rewrite listed_duplicate_counts.
  unfold duplicate_counts, more_than_one, blue_book_counts. split.
  - apply StronglySorted_filter_keep, StronglySorted_merge_sort; apply _.
  - intros b n. rewrite list_elem_of_filter, value_counts_elem. simpl.
    rewrite occurrences_map, list_elem_of_fmap. unfold holders.
    set (rows := drop_duplicates ConsumerNumber df).
    split.
    + intros [Hn [[row [-> [Hnb _]%list_elem_of_filter]] ->]].
      rewrite RationCardFacts.where_eq_nonblank in Hn |- * by done. done.
    + intros [Hnb [-> Hn]].
      rewrite RationCardFacts.where_eq_nonblank by done.
      split; [done|]. split; [|done].
      destruct (where_eq BlueBookNumber b rows) as [|row rest] eqn:Hw;
        [simpl in Hn; lia|].
      assert (row ∈ where_eq BlueBookNumber b rows) as Hin
        by (rewrite Hw; by left).
      apply list_elem_of_filter in Hin as [<- Hin].
      exists row. split; [done|]. by apply list_elem_of_filter.
Qed.

(** The sibling report [generate_bluebook_reports] sorts the same
    counts in ascending order. *)
Lemma sorted_shared_blue_books_ascending (df : DataFrame) :
  Sorted count_le (sorted_shared_blue_books df).
Proof.
  unfold sorted_shared_blue_books, sort_values_ascending.
  apply Sorted_merge_sort. intros a b. unfold count_le. lia.
Qed.

End BlueBookFacts.

(** ** validate_consumer_addresses *)

Module AddressFacts.
Import Py Frame Models Db Spec Facts ValidateConsumerAddresses.

(** [process_csv] keeps the rows of the filtered area with their cells
    stripped, one per consumer number, the first of each. *)
Lemma process_csv_deduplicated (df : DataFrame) (filter : string) :
  process_csv df filter
  = match deduplicated filter df with
    | [] => []
    | pairs => [(filter, pairs)]
    end.
Proof.
  unfold process_csv, deduplicated.
  induction df as [|row df IH] using rev_ind; [done|].
  rewrite foldl_app. simpl. rewrite IH. clear IH.
  rewrite omap_app. simpl. unfold process_row, matching_pair.
  destruct (truthy (strip (ConsumerNumber row))); simpl;
    [|by rewrite app_nil_r].
  destruct (truthy (strip (AreaCodeDesc row))); simpl;
    [|by rewrite app_nil_r].
  destruct (truthy (strip (Frame.Address row))); simpl;
    [|by rewrite app_nil_r].
  destruct (decide (strip (AreaCodeDesc row) = filter)) as [Heq|Hne].
  2:{ rewrite (bool_decide_eq_false_2 _ Hne). simpl. by rewrite app_nil_r. }
  rewrite (bool_decide_eq_true_2 _ Heq). simpl. rewrite Heq.
  rewrite drop_duplicates_snoc. simpl.
  set (pairs := omap _ df).
  pose proof (keys_drop_duplicates fst pairs (strip (ConsumerNumber row)))
    as Hkeys.
  destruct (drop_duplicates fst pairs) as [|p ps] eqn:Hdd.
  - simpl in *. rewrite bool_decide_eq_false_2; [done|].
    intros Hin. apply Hkeys in Hin. by apply elem_of_nil in Hin.
  - cbn [od_touch]. rewrite bool_decide_eq_true_2 by done.
    unfold od_has, od_add.
    rewrite (bool_decide_ext _ _ Hkeys).
    by destruct (bool_decide _); simpl; rewrite ?app_nil_r.
Qed.

Section Upper.
Variable upper : string -> string.

Lemma get_route_areas_eq (route : Z * Route) (s : Store) :
  get_route_areas upper route s = (Ok (map upper (sub_area_names route s)), s).
Proof.
  unfold get_route_areas, query, sub_area_names.
  by rewrite <- list_fmap_compose.
Qed.

Lemma area_found_iff (address : string) (route_areas : list string) :
  area_found upper address route_areas = true
  ↔ ∃ area, area ∈ route_areas ∧ occurs_in area (upper address).
Proof.
  unfold area_found. rewrite existsb_exists. split.
  - intros [area [Hin Hc]]. exists area.
    split; [by apply list_elem_of_In | by apply contains_occurs].
  - intros [area [Hin Hc]]. exists area.
    split; [by apply list_elem_of_In | by apply contains_occurs].
Qed.

(** No step of the validator writes to the store. *)
Lemma validate_area_reads item acc (s : Store) :
  snd (validate_area upper item acc s) = s.
Proof.
  unfold validate_area, bind, lift, find_route, get_route_areas, query, ret.
  repeat case_match; by simplify_eq.
Qed.

Lemma validate_areas_reads items acc (s : Store) :
  snd (validate_areas upper items acc s) = s.
Proof.
  revert acc. induction items as [|item items IH]; intros acc; [done|].
  simpl. unfold bind.
  pose proof (validate_area_reads item acc s) as Hs.
  destruct (validate_area upper item acc s) as [[acc'|e] s']; simpl in Hs;
    subst s'; [apply IH | done].
Qed.

Lemma handle_reads (df : DataFrame) (area_code_desc_filter : string)
    (s : Store) :
  snd (handle upper df area_code_desc_filter s) = s.
Proof.
  unfold handle, as_command_error.
  destruct (process_csv df area_code_desc_filter) as [|item items]; [done|].
  unfold bind.
  pose proof (validate_areas_reads (item :: items) [] s) as Hs.
  destruct (validate_areas upper (item :: items) [] s) as [[acc|e] s'];
    simpl in Hs; by subst s'.
Qed.

(** The command on a file with rows of the filtered area, a route
    found and at least one sub-area: it reports the flagged consumers
    among the deduplicated ones, and their number. *)
Lemma handle_results (df : DataFrame) (filter code description : string)
    (route : Z * Route) (s : Store) :
  deduplicated filter df ≠ [] →
  parse_area_code_desc filter = Ok (code, description) →
  find_route code description s = (Ok (Some route), s) →
  sub_area_names route s ≠ [] →
  handle upper df filter s
  = (Ok (Results
           (validate_consumers upper (deduplicated filter df)
              (map upper (sub_area_names route s)))
           (length (deduplicated filter df))), s).
Proof.
  intros Hne Hparse Hroute Hareas. unfold handle, as_command_error.
  rewrite process_csv_deduplicated.
  destruct (deduplicated filter df) as [|p ps] eqn:Hd; [done|].
  unfold Db.bind. simpl validate_areas. unfold Db.bind.
  unfold validate_area, Db.bind, lift. simpl fst. rewrite Hparse, Hroute.
  rewrite get_route_areas_eq.
  destruct (sub_area_names route s) as [|a l]; [done|].
  simpl. unfold ret. by rewrite Nat.add_0_r.
Qed.

Lemma validate_consumers_elem (consumers : list (string * string))
    (names : list string) (c : string * string) :
  c ∈ validate_consumers upper consumers (map upper names)
  ↔ c ∈ consumers
    ∧ ∀ area, area ∈ names → ¬ occurs_in (upper area) (upper (snd c)).
Proof.
  unfold validate_consumers. rewrite list_elem_of_filter.
  rewrite <- not_true_iff_false, area_found_iff. split.
  - intros [Hno Hc]. split; [done|]. intros area Ha Hocc. apply Hno.
    exists (upper area). split; [|done]. apply list_elem_of_fmap. by exists area.
  - intros [Hc Hno]. split; [|done].
    intros [a [[area [-> Ha]]%list_elem_of_fmap Hocc]]. by eapply Hno.
Qed.

(** The command on a file that was read is the command on its rows. *)
Lemma handle_file_read (file : CsvFile) (df : DataFrame) (filter : string)
    (s : Store) :
  read_rows file = Some df →
  handle_file upper file filter s = handle upper df filter s.
Proof. intros Hread. unfold handle_file. by rewrite Hread. Qed.

Lemma handle_file_reads (file : CsvFile) (filter : string) (s : Store) :
  snd (handle_file upper file filter s) = s.
Proof.
  unfold handle_file. destruct (read_rows file) as [df|]; [|done].
  apply handle_reads.
Qed.

(** C8, as the code has it.  On a file that was read and that has rows
    of the filtered area, when the route of the filter is found and
    has at least one sub-area, the command reports the deduplicated
    consumers of the area as its records and flags exactly those of
    them whose upper-cased address holds no upper-cased sub-area name
    of the route as a block.  The sub-area names are read from the
    store and upper-cased, and the command does not change the store,
    whatever the file. *)
Theorem flagged_iff_no_sub_area (file : CsvFile) (filter : string)
    (s : Store) :
  (∀ df code description route,
     read_rows file = Some df →
     deduplicated filter df ≠ [] →
     parse_area_code_desc filter = Ok (code, description) →
     find_route code description s = (Ok (Some route), s) →
     sub_area_names route s ≠ [] →
     ∃ flagged,
       handle_file upper file filter s
       = (Ok (Results flagged (length (deduplicated filter df))), s)
       ∧ ∀ c, c ∈ flagged
              ↔ c ∈ deduplicated filter df
                ∧ ∀ area, area ∈ sub_area_names route s →
                          ¬ occurs_in (upper area) (upper (snd c)))
  ∧ (∀ route,
       get_route_areas upper route s
       = (Ok (map upper (sub_area_names route s)), s))
  ∧ snd (handle_file upper file filter s) = s.
Proof.
  split; [|split; [intros route; apply get_route_areas_eq
                  |apply handle_file_reads]].
  intros df code description route Hread Hne Hparse Hroute Hareas.
  exists (validate_consumers upper (deduplicated filter df)
            (map upper (sub_area_names route s))).
  split.
  - rewrite (handle_file_read _ _ _ _ Hread).
    by apply (handle_results df filter code description route s).
  - intros c. apply validate_consumers_elem.
Qed.

End Upper.

(** Route R002 is in the store and has no sub-area.  No sub-area name
    of the route occurs in the address of either consumer of its area,
    so [validate_consumers] would flag both; the command does not call
    it for such a route and flags neither. *)
Lemma route_without_sub_area_flags_nobody :
  find_route "R002" "South Zone" Samples.fresh_store
  = (Ok (Some (2, mkRoute "R002" "South Zone")), Samples.fresh_store)
  ∧ sub_area_names (2, mkRoute "R002" "South Zone") Samples.fresh_store = []
  ∧ deduplicated "R002-South Zone" Cases.south_lines
    = [("C010", "1 Lake View"); ("C011", "2 Hill Road")]
  ∧ validate_consumers upper_ascii
      (deduplicated "R002-South Zone" Cases.south_lines)
      (map upper_ascii
         (sub_area_names (2, mkRoute "R002" "South Zone")
            Samples.fresh_store))
    = [("C010", "1 Lake View"); ("C011", "2 Hill Road")]
  ∧ handle_file upper_ascii Cases.south_file "R002-South Zone"
      Samples.fresh_store
    = (Ok (Results [] 2), Samples.fresh_store).
Proof. repeat split; vm_compute; reflexivity. Qed.

(** The theorem on the sample of the usage notes: route R001 is found
    and has sub-areas, and of its three consumers the command flags
    the one in Hyderabad. *)
Lemma usage_sample_flagged :
  read_rows Cases.usage_file = Some Cases.usage_lines
  ∧ ∃ flagged,
      handle_file upper_ascii Cases.usage_file "R001-North Zone"
        Samples.fresh_store
      = (Ok (Results flagged
               (length (deduplicated "R001-North Zone" Cases.usage_lines))),
         Samples.fresh_store)
      ∧ ∀ c, c ∈ flagged
             ↔ c ∈ deduplicated "R001-North Zone" Cases.usage_lines
               ∧ ∀ area,
                   area ∈ sub_area_names (1, mkRoute "R001" "North Zone")
                            Samples.fresh_store →
                   ¬ occurs_in (upper_ascii area) (upper_ascii (snd c)).
Proof.
  assert (Hread : read_rows Cases.usage_file = Some Cases.usage_lines)
    by (vm_compute; reflexivity).
  split; [exact Hread|].
  destruct (flagged_iff_no_sub_area upper_ascii Cases.usage_file
              "R001-North Zone" Samples.fresh_store) as [Hflag _].
  apply (Hflag Cases.usage_lines "R001" "North Zone"
           (1, mkRoute "R001" "North Zone") Hread).
  - vm_compute. discriminate.
  - vm_compute. reflexivity.
  - vm_compute. reflexivity.
  - vm_compute. discriminate.
Defined.

(** The address ["123 jagtial road"] matches the sub-area ["JAGTIAL"],
    and the sub-area ["Jagtial"] as the store may spell it. *)
Lemma jagtial_matches :
  validate_consumers upper_ascii [("C001", "123 jagtial road")]
    (map upper_ascii ["JAGTIAL"]) = []
  ∧ validate_consumers upper_ascii [("C001", "123 jagtial road")]
      (map upper_ascii ["Jagtial"; "Korutla"]) = []
  ∧ validate_consumers upper_ascii [("C002", "456 Main Street, Hyderabad")]
      (map upper_ascii ["Jagtial"; "Korutla"])
    = [("C002", "456 Main Street, Hyderabad")].
Proof. repeat split; vm_compute; reflexivity. Qed.

(** The command on the sample of its usage notes: of three consumers of
    route R001 only the one in Hyderabad is flagged, and the repeated
    line of C001 is dropped. *)
Lemma handle_usage_sample :
  handle upper_ascii
    [Samples.with_area "R001-North Zone" "123 Jagtial Road, Telangana"
       (Samples.customer "C001" "" "" "" "" "" "" "" "");
     Samples.with_area "R001-North Zone" "456 Main Street, Hyderabad"
       (Samples.customer "C002" "" "" "" "" "" "" "" "");
     Samples.with_area "R001-North Zone" "789 Korutla Lane"
       (Samples.customer "C003" "" "" "" "" "" "" "" "");
     Samples.with_area "R001-North Zone" "Duplicate entry"
       (Samples.customer "C001" "" "" "" "" "" "" "" "")]
    "R001-North Zone" Samples.fresh_store
  = (Ok (Results [("C002", "456 Main Street, Hyderabad")] 3),
     Samples.fresh_store).
Proof. vm_compute. reflexivity. Qed.

End AddressFacts.

(** ** populate_consumers_route *)

Module RouteFacts.
Import Py Frame Models Db Spec Facts PopulateConsumersRoute.

Section Loop.
Variables (consumer_map : gmap string (Z * Consumer))
          (route_map : gmap string (Z * Route))
          (assigned : gset Z).

Abbreviation step := (stage_row consumer_map route_map assigned).
Abbreviation run := (stage_rows consumer_map route_map assigned).

Lemma step_consistent row p :
  consistent assigned p → consistent assigned (step row p).
Proof.
  intros (Hset & Hnd & Hfresh). unfold stage_row.
  destruct (negb (truthy (ConsumerNumber row))
            || negb (truthy (AreaCodeDesc row))); [done|].
  destruct (consumer_map !! ConsumerNumber row) as [c|]; [|done].
  destruct (route_map !! area_code_of (AreaCodeDesc row)) as [r|]; [|done].
  destruct (bool_decide (fst c ∈ assigned)) eqn:Ha; [done|].
  destruct (bool_decide (fst c ∈ processed_consumer_ids_in_batch p)) eqn:Hp;
    [done|].
  apply bool_decide_eq_false in Ha, Hp. simpl.
  unfold consistent, stage. simpl. rewrite !map_app. simpl.
  split; [|split].
  - rewrite list_to_set_app_L, Hset. simpl. set_solver.
  - apply NoDup_app. split; [done|]. split; [|apply NoDup_singleton].
    intros x Hx ->%list_elem_of_singleton. apply Hp. rewrite Hset.
    by apply elem_of_list_to_set.
  - intros a [Hin | ->%list_elem_of_singleton]%elem_of_app; [by apply Hfresh|].
    done.
Qed.

Lemma step_handled row p : handled (step row p) = S (handled p).
Proof.
  unfold stage_row, handled.
  repeat case_match; simpl; rewrite ?length_app; simpl; lia.
Qed.

Lemma run_consistent df p :
  consistent assigned p → consistent assigned (run df p).
Proof.
  unfold stage_rows. revert p.
  induction df as [|row df IH]; intros p Hp; [done|].
  simpl. apply IH. by apply step_consistent.
Qed.

Lemma run_handled df p : handled (run df p) = (length df + handled p)%nat.
Proof.
  unfold stage_rows. revert p.
  induction df as [|row df IH]; intros p; [done|].
  simpl. rewrite IH, step_handled. lia.
Qed.

Lemma run_snoc df row p : run (df ++ [row])%list p = step row (run df p).
Proof. unfold stage_rows. by rewrite foldl_app. Qed.

End Loop.

(** A row of a consumer who already has a route, but whose area code
    names no route, is counted as missing data, not as already
    assigned. *)
Lemma assigned_consumer_counted_missing :
  let p := staged [Samples.in_area "C001" "R999-Nowhere"]
             Samples.assigned_store in
  consumer_map_of Samples.assigned_store !! "C001"
    = Some (1, Samples.plain_consumer "C001")
  ∧ 1 ∈ assigned_ids_of Samples.assigned_store
  ∧ assignments_to_create p = []
  ∧ skipped_already_assigned p = 0%nat
  ∧ skipped_missing_data p = 1%nat.
Proof. repeat split; vm_compute; reflexivity. Qed.

(** Two rows for one consumer, with two different valid areas: the
    first stages the assignment, the second is counted as already
    assigned. *)
Lemma two_areas_one_assignment :
  let p := staged [Samples.in_area "C001" "R001-North Zone";
                   Samples.in_area "C001" "R002-South Zone"]
             Samples.unassigned_store in
  assignments_to_create p = [mkAssignment 1 1]
  ∧ skipped_already_assigned p = 1%nat
  ∧ skipped_missing_data p = 0%nat.
Proof. repeat split; vm_compute; reflexivity. Qed.

(** C6, as the code has it.  The run stages at most one assignment per
    consumer and none for a consumer who has one in the store; every
    row is staged or counted once; and a row whose consumer and route
    both resolve, and whose consumer has an assignment in the store or
    one staged by an earlier row, stages nothing and adds one to the
    already-assigned count.  A row with an empty cell, or whose
    consumer number or area code the store does not know, stages
    nothing and adds one to the missing-data count, whatever
    assignments its consumer has. *)
Theorem one_assignment_per_consumer (df : DataFrame) (s : Store) :
  NoDup (map assignment_consumer_id (assignments_to_create (staged df s)))
  ∧ (∀ a, a ∈ assignments_to_create (staged df s) →
          assignment_consumer_id a ∉ assigned_ids_of s)
  ∧ (length (assignments_to_create (staged df s))
     + skipped_already_assigned (staged df s)
     + skipped_missing_data (staged df s) = length df)%nat
  ∧ (∀ before row after consumer_obj route_obj,
       df = (before ++ row :: after)%list →
       ConsumerNumber row ≠ "" → AreaCodeDesc row ≠ "" →
       consumer_map_of s !! ConsumerNumber row = Some consumer_obj →
       route_map_of s !! area_code_of (AreaCodeDesc row) = Some route_obj →
       fst consumer_obj ∈ assigned_ids_of s
       ∨ fst consumer_obj
           ∈ map assignment_consumer_id
               (assignments_to_create (staged before s)) →
       staged (before ++ [row])%list s = skip_assigned (staged before s))
  ∧ (∀ before row after,
       df = (before ++ row :: after)%list →
       ConsumerNumber row = "" ∨ AreaCodeDesc row = ""
       ∨ consumer_map_of s !! ConsumerNumber row = None
       ∨ route_map_of s !! area_code_of (AreaCodeDesc row) = None →
       staged (before ++ [row])%list s = skip_missing (staged before s)).
Proof.
  assert (∀ l, consistent (assigned_ids_of s) (staged l s)) as Hinv.
  { intros l. apply run_consistent. repeat split; [constructor|].
    by intros a ?%elem_of_nil. }
  destruct (Hinv df) as (_ & Hnd & Hfresh).
  split; [done|]. split; [done|]. split; [|split].
  - pose proof (run_handled (consumer_map_of s) (route_map_of s)
                  (assigned_ids_of s) df (mkProgress [] ∅ 0%nat 0%nat)) as H.
    unfold handled in H. simpl in H. unfold staged. lia.
  - intros before row after c r _ Hcn Hacd Hc Hr Hseen.
    unfold staged. rewrite run_snoc. fold (staged before s).
    unfold stage_row. rewrite Hc, Hr.
    destruct (ConsumerNumber row); [done|].
    destruct (AreaCodeDesc row); [done|]. simpl.
    destruct (Hinv before) as (Hset & _ & _).
    destruct Hseen as [Ha | Hb].
    + by rewrite (bool_decide_eq_true_2 _ Ha).
    + rewrite (bool_decide_eq_true_2
                 (fst c ∈ processed_consumer_ids_in_batch (staged before s))).
      * by rewrite orb_true_r.
      * rewrite Hset. by apply elem_of_list_to_set.
  - intros before row after _ Hmiss.
    unfold staged. rewrite run_snoc. fold (staged before s).
    unfold stage_row.
    destruct (truthy (ConsumerNumber row)) eqn:Hcn; [|done].
    destruct (truthy (AreaCodeDesc row)) eqn:Hacd; [|done]. simpl.
    destruct Hmiss as [Hm|[Hm|[Hm|Hm]]].
    + by rewrite Hm in Hcn.
    + by rewrite Hm in Hacd.
    + by rewrite Hm.
    + rewrite Hm. by destruct (consumer_map_of s !! ConsumerNumber row).
Qed.

(** The theorem on the two rows of one consumer: the second row, whose
    consumer was staged by the first, adds one to the already-assigned
    count and stages nothing. *)
Lemma second_area_skipped :
  consumer_map_of Samples.unassigned_store !! "C001"
    = Some (1, Samples.plain_consumer "C001")
  ∧ route_map_of Samples.unassigned_store !! area_code_of "R002-South Zone"
    = Some (2, mkRoute "R002" "South Zone")
  ∧ staged ([Samples.in_area "C001" "R001-North Zone"]
            ++ [Samples.in_area "C001" "R002-South Zone"])%list
      Samples.unassigned_store
    = skip_assigned
        (staged [Samples.in_area "C001" "R001-North Zone"]
           Samples.unassigned_store).
Proof.
  split; [vm_compute; reflexivity|]. split; [vm_compute; reflexivity|].
  destruct (one_assignment_per_consumer
              [Samples.in_area "C001" "R001-North Zone";
               Samples.in_area "C001" "R002-South Zone"]
              Samples.unassigned_store) as (_ & _ & _ & Hrow & _).
  apply (Hrow [Samples.in_area "C001" "R001-North Zone"]
           (Samples.in_area "C001" "R002-South Zone") []
           (1, Samples.plain_consumer "C001")
           (2, mkRoute "R002" "South Zone")).
  - reflexivity.
  - discriminate.
  - discriminate.
  - vm_compute. reflexivity.
  - vm_compute. reflexivity.
  - right. vm_compute. left.
Defined.

End RouteFacts.

(** ** populate_consumers: the numeric coercions *)

Module CoercionFacts.
Import Py Frame Models Db Spec Facts PopulateConsumers.

Lemma all_chars_impl (p q : ascii -> bool) (s : string) :
  (∀ c, p c = true → q c = true) →
  all_chars p s = true → all_chars q s = true.
Proof.
  intros Hpq. induction s as [|c s IH]; [done|]. simpl.
  intros [Hc Hs]%andb_true_iff. by rewrite (Hpq c Hc), IH.
Qed.

(** A decimal digit is no blank, no sign and no underscore. *)
Lemma decimal_char_plain (c : ascii) :
  isdecimal_char c = true →
  isblank_num c = false ∧ is_char 45 c = false ∧ is_char 43 c = false
  ∧ is_char 95 c = false ∧ isdigit_char c = true.
Proof.
  destruct c as [[] [] [] [] [] [] [] []]; vm_compute;
    intros H; try discriminate H; by repeat split.
Qed.

Lemma rstrip_decimal (s : string) :
  all_chars isdecimal_char s = true → rstrip_with isblank_num s = s.
Proof.
  induction s as [|c s IH]; [done|]. simpl.
  intros [Hc Hs]%andb_true_iff. rewrite (IH Hs).
  destruct (decimal_char_plain c Hc) as (-> & _). done.
Qed.

Lemma strip_decimal (s : string) :
  all_chars isdecimal_char s = true → strip_with isblank_num s = s.
Proof.
  intros Hs. unfold strip_with.
  destruct s as [|c s]; [done|]. simpl.
  pose proof Hs as [Hc _]%andb_true_iff.
  destruct (decimal_char_plain c Hc) as (-> & _).
  by apply rstrip_decimal.
Qed.

Lemma remove_underscores_decimal (s : string) :
  all_chars isdecimal_char s = true → remove_all (is_char 95) s = s.
Proof.
  induction s as [|c s IH]; [done|]. simpl.
  intros [Hc Hs]%andb_true_iff.
  destruct (decimal_char_plain c Hc) as (_ & _ & _ & -> & _).
  by rewrite IH.
Qed.

Lemma underscores_ok_decimal (prev : option ascii) (s : string) :
  match prev with Some p => is_char 95 p = false | None => True end →
  all_chars isdecimal_char s = true → underscores_ok prev s = true.
Proof.
  revert prev. induction s as [|c s IH]; intros prev Hprev.
  - intros _. simpl. destruct prev as [p|]; [by rewrite Hprev | done].
  - simpl. intros [Hc Hs]%andb_true_iff.
    destruct (decimal_char_plain c Hc) as (_ & _ & _ & Hu & _).
    rewrite Hu. rewrite (IH (Some c) Hu Hs), andb_true_r.
    destruct prev as [p|]; [by rewrite Hprev | done].
Qed.

(** [int] on a string of ASCII digits within the length limit. *)
Lemma int_decimal (s : string) :
  isdecimal s = true →
  (String.length s <= int_max_str_digits)%nat →
  int s = Ok (digits_value 0 s).
Proof.
  intros [Ht Hs]%andb_true_iff Hlen. unfold int.
  rewrite (strip_decimal s Hs).
  destruct s as [|c s]; [done|].
  pose proof Hs as [Hc _]%andb_true_iff.
  destruct (decimal_char_plain c Hc) as (_ & Hm & Hp & _).
  unfold split_sign. rewrite Hm, Hp.
  rewrite (remove_underscores_decimal _ Hs).
  rewrite (underscores_ok_decimal None _ I Hs).
  unfold isdecimal. rewrite Hs. simpl truthy. simpl andb.
  destruct (int_max_str_digits <? String.length (String c s))%nat eqn:Hlt;
    [|done].
  apply Nat.ltb_lt in Hlt. lia.
Qed.

(** A string that is not all digits gives an absent blue book. *)
Lemma coerce_blue_book_rejects (v : string) :
  isdigit v = false → coerce_blue_book v = Ok None.
Proof. intros Hd. unfold coerce_blue_book. by rewrite Hd, andb_false_r. Qed.

(** A string of ASCII digits gives its value. *)
Lemma coerce_blue_book_decimal (v : string) :
  isdecimal v = true →
  (String.length v <= int_max_str_digits)%nat →
  coerce_blue_book v = Ok (Some (digits_value 0 v)).
Proof.
  intros Hd Hlen. unfold coerce_blue_book.
  pose proof Hd as [Ht Hs]%andb_true_iff.
  assert (isdigit v = true) as Hdig.
  { unfold isdigit. rewrite Ht. simpl.
    apply (all_chars_impl isdecimal_char); [|done].
    intros c Hc. by destruct (decimal_char_plain c Hc) as (_ & _ & _ & _ & ?). }
  by rewrite Ht, Hdig, (int_decimal v Hd Hlen).
Qed.

Lemma coerce_lpg_id_rejects (v : string) :
  isdigit (remove_first (is_char 46) v) = false → coerce_lpg_id v = Ok None.
Proof. intros Hd. unfold coerce_lpg_id. by rewrite Hd, andb_false_r. Qed.

(** The scenarios of the numeric coercions. *)
Lemma coercion_scenarios :
  coerce_blue_book "12.5" = Ok None
  ∧ coerce_blue_book "" = Ok None
  ∧ coerce_blue_book "007" = Ok (Some 7)
  ∧ coerce_lpg_id "12.5" = Ok (Some 12)
  ∧ coerce_lpg_id "1.2.3" = Ok None
  ∧ coerce_lpg_id "" = Ok None
  ∧ coerce_lpg_id "0.99999999999999999999" = Ok (Some 1).
Proof. repeat split; vm_compute; reflexivity. Qed.

(** C7 meets U+00B2.  The one-character string SUPERSCRIPT TWO passes
    the guard [isdigit], and [int] then rejects it: the coercion of the
    blue book raises [ValueError], and so does the construction of the
    consumer of any row with that blue-book cell. *)
Theorem superscript_blue_book_raises :
  isdigit Samples.superscript_two = true
  ∧ int Samples.superscript_two = Raise ValueError
  ∧ coerce_blue_book Samples.superscript_two = Raise ValueError
  ∧ ∀ pre row,
      BlueBookNumber row = Samples.superscript_two → LPGId row = "" →
      new_consumer pre row = Raise ValueError.
Proof.
  split; [by vm_compute|]. split; [by vm_compute|].
  assert (coerce_blue_book Samples.superscript_two = Raise ValueError) as H
    by (by vm_compute).
  split; [done|]. intros pre row Hb Hl. unfold new_consumer.
  rewrite Hl, Hb, H. reflexivity.
Qed.

(** The guard of [lpg_id] lets other raising values through as well: a
    superscript digit, and a digit string whose float is infinite. *)
Lemma lpg_id_raises :
  coerce_lpg_id Samples.superscript_two = Raise ValueError
  ∧ coerce_lpg_id (Samples.ones 400) = Raise OverflowError.
Proof. split; vm_compute; reflexivity. Qed.

(** The whole run on a line with that blue book: it raises, and the
    store is as before. *)
Lemma handle_superscript_blue_book :
  handle (B := permissive)
    [Samples.with_blue_book Samples.superscript_two
       (Samples.customer "C001" "Asha" "General" "Domestic" "SV1"
          "Jan 05, 2020" "P14" "14.2" "1")]
    Samples.fresh_store
  = (Raise ValueError, Samples.fresh_store).
Proof. vm_compute. reflexivity. Qed.

End CoercionFacts.

(** ** populate_consumers: staging the consumers *)

Module StagingFacts.
Import Py Frame Models Db Spec Facts PopulateConsumers.

Lemma new_consumer_number (pre : Prefetched) (row : Row) (c : Consumer) :
  new_consumer pre row = Ok c → consumer_number c = ConsumerNumber row.
Proof.
  unfold new_consumer, Py.bind.
  destruct (coerce_lpg_id (LPGId row)); [|done].
  destruct (coerce_blue_book (BlueBookNumber row)); [|done].
  by intros [= <-].
Qed.

(** The loop of step 2 builds one consumer from each row whose number
    the store does not hold, in order, after what it started with. *)
Lemma stage_consumers_shape (pre : Prefetched) (rows : list Row)
    (acc cands : list Consumer) (nums nums' : gset string) :
  stage_consumers pre rows acc nums = Ok (cands, nums') →
  ∃ cs, cands = (acc ++ cs)%list
        ∧ Forall2 (fun row c => new_consumer pre row = Ok c)
            (unknown_consumers (existing_consumer_nums pre) rows) cs
        ∧ nums' = list_to_set (map consumer_number cs) ∪ nums.
Proof.
  unfold unknown_consumers.
  revert acc nums. induction rows as [|row rows IH]; intros acc nums; simpl.
  - intros [= <- <-]. exists []. rewrite app_nil_r.
    split; [done|]. split; [constructor | set_solver].
  - rewrite filter_cons.
    destruct (mem (ConsumerNumber row) (existing_consumer_nums pre)) eqn:Hm.
    + apply mem_true in Hm. rewrite decide_False by tauto. apply IH.
    + apply mem_false in Hm. rewrite decide_True by done.
      destruct (new_consumer pre row) as [c|e] eqn:Hc; [|done]. simpl.
      intros (cs & -> & Hcs & ->)%IH. exists (c :: cs).
      rewrite <- app_assoc. split; [done|]. split; [by constructor|].
      simpl. rewrite (new_consumer_number _ _ _ Hc). set_solver.
Qed.

(** The loop completes when every consumer it has to build can be
    built. *)
Lemma stage_consumers_completes (pre : Prefetched) (rows : list Row)
    (acc : list Consumer) (nums : gset string) :
  Forall (fun row => is_ok (new_consumer pre row) = true)
    (unknown_consumers (existing_consumer_nums pre) rows) →
  is_ok (stage_consumers pre rows acc nums) = true.
Proof.
  unfold unknown_consumers.
  revert acc nums. induction rows as [|row rows IH]; intros acc nums; [done|].
  simpl. rewrite filter_cons.
  destruct (mem (ConsumerNumber row) (existing_consumer_nums pre)) eqn:Hm.
  - apply mem_true in Hm. rewrite decide_False by tauto. apply IH.
  - apply mem_false in Hm. rewrite decide_True by done.
    intros [Hrow Hrows]%Forall_cons.
    destruct (new_consumer pre row) as [c|e]; [|done]. simpl. by apply IH.
Qed.




End StagingFacts.

(** ** The database layer *)

Module DbFacts.
Import Py Frame Models Db Spec Facts.

Lemma bind_ok {A C} (m : db A) (k : A -> db C) s c s' :
  Db.bind m k s = (Ok c, s') →
  ∃ a s0, m s = (Ok a, s0) ∧ k a s0 = (Ok c, s').
Proof.
  unfold Db.bind. destruct (m s) as [[a|e] s0]; [|done].
  intros H. by exists a, s0.
Qed.

Lemma atomic_ok {A} (body : db A) s a s' :
  atomic body s = (Ok a, s') ↔ body s = (Ok a, s').
Proof.
  unfold atomic. destruct (body s) as [[a0|e] s0]; split; congruence.
Qed.

Lemma atomic_raise {A} (body : db A) s e s' :
  atomic body s = (Raise e, s') ↔ (∃ s0, body s = (Raise e, s0)) ∧ s' = s.
Proof.
  unfold atomic. destruct (body s) as [[a0|e0] s0]; split.
  - done.
  - by intros [[s1 ?] _].
  - intros [= -> ->]. eauto.
  - intros [[s1 [= -> ->]] ->]. done.
Qed.

Lemma map_snd_with_ids {A} (first : Z) (objs : list A) :
  map snd (with_ids first objs) = objs.
Proof.
  revert first. induction objs as [|o objs IH]; intros first; [done|].
  simpl. by rewrite IH.
Qed.

Lemma map_snd_append_rows {A} (t : Table A) (objs : list A) :
  map snd (append_rows t objs) = (map snd t ++ objs)%list.
Proof. unfold append_rows. by rewrite map_app, map_snd_with_ids. Qed.

Lemma chunks_fuel_concat {A} (fuel n : nat) (l : list A) :
  (0 < n)%nat → (length l <= fuel)%nat → concat (chunks_fuel fuel n l) = l.
Proof.
  intros Hn. revert l. induction fuel as [|fuel IH]; intros l Hl.
  - destruct l; [done | simpl in Hl; lia].
  - destruct l as [|x l]; [done|].
    change (chunks_fuel (S fuel) n (x :: l))
      with (take n (x :: l) :: chunks_fuel fuel n (drop n (x :: l))).
    simpl concat. rewrite IH.
    + apply take_drop.
    + rewrite length_drop. simpl in *. lia.
Qed.

Lemma chunks_concat {A} (n : nat) (l : list A) :
  (0 < n)%nat → concat (chunks n l) = l.
Proof. intros Hn. by apply chunks_fuel_concat. Qed.

Lemma chunks_fuel_cons {A} (fuel n : nat) (x : A) (l : list A) :
  chunks_fuel (S fuel) n (x :: l)
  = take n (x :: l) :: chunks_fuel fuel n (drop n (x :: l)).
Proof. reflexivity. Qed.

Lemma chunks_fuel_nil {A} (fuel n : nat) : chunks_fuel fuel n (@nil A) = [].
Proof. by destruct fuel. Qed.

Lemma bulk_create_nil {A} (insert : list A -> db unit) (n : nat) s :
  bulk_create insert [] n s = (Ok tt, s).
Proof. reflexivity. Qed.

Section Appending.
Context {A : Type} (proj : Store -> Table A)
        (set : Table A -> Store -> Store) (insert : list A -> db unit).
Hypothesis proj_set : ∀ t s, proj (set t s) = t.
Hypothesis set_set : ∀ t t' s, set t (set t' s) = set t s.
Hypothesis set_proj : ∀ s, set (proj s) s = s.
Hypothesis insert_shape : ∀ rows s,
  insert rows s = (Ok tt, set (append_rows (proj s) rows) s)
  ∨ ∃ e, insert rows s = (Raise e, s) ∧ (e = DataError ∨ e = IntegrityError).

(** Batch after batch: what was inserted is a prefix of the batches;
    on success all of them; an exception is a database error. *)
Lemma for_each_appends (batches : list (list A)) s r s' :
  for_each insert batches s = (r, s') →
  ∃ t, s' = set t s
       ∧ (∃ k, map snd t = (map snd (proj s) ++ concat (take k batches))%list)
       ∧ (r = Ok tt → map snd t = (map snd (proj s) ++ concat batches)%list)
       ∧ (∀ e, r = Raise e → e = DataError ∨ e = IntegrityError).
Proof.
  revert s. induction batches as [|rows batches IH]; intros s.
  - intros [= <- <-]. exists (proj s). rewrite set_proj.
    split; [done|]. split; [exists 0%nat; by rewrite app_nil_r|].
    split; [by rewrite app_nil_r | done].
  - simpl. unfold Db.bind.
    destruct (insert_shape rows s) as [Hok | (e & Hraise & He)].
    + rewrite Hok. intros (t & -> & (k & Hk) & Hall & Herr)%IH.
      rewrite proj_set, map_snd_append_rows in Hk, Hall.
      exists t. rewrite set_set. split; [done|]. split; [|split; [|done]].
      * exists (S k). simpl. by rewrite Hk, app_assoc.
      * intros Hr. by rewrite (Hall Hr), app_assoc.
    + rewrite Hraise. intros [= <- <-]. exists (proj s). rewrite set_proj.
      split; [done|]. split; [exists 0%nat; by rewrite app_nil_r|].
      split; [done|]. by intros e' [= <-].
Qed.

Lemma bulk_create_appends (objs : list A) (n : nat) s r s' :
  (0 < n)%nat →
  bulk_create insert objs n s = (r, s') →
  ∃ t, s' = set t s
       ∧ (r = Ok tt → map snd t = (map snd (proj s) ++ objs)%list)
       ∧ (∀ e, r = Raise e → e = DataError ∨ e = IntegrityError).
Proof.
  intros Hn (t & -> & _ & Hall & Herr)%for_each_appends.
  exists t. split; [done|]. split; [|done].
  intros Hr. by rewrite (Hall Hr), chunks_concat.
Qed.

End Appending.

Section Tables.
Context {B : Backend}.

Lemma insert_checked_shape {A} (row_ok : A -> bool) (table_ok : bool)
    (write : Store -> Store) (rows : list A) s :
  insert_checked row_ok table_ok write rows s = (Ok tt, write s)
  ∨ ∃ e, insert_checked row_ok table_ok write rows s = (Raise e, s)
         ∧ (e = DataError ∨ e = IntegrityError).
Proof.
  unfold insert_checked.
  destruct (forallb row_ok rows); simpl; [|right; eauto].
  destruct table_ok; [by left | right; eauto].
Qed.

Lemma bulk_create_consumers (objs : list Consumer) s r s' :
  bulk_create insert_consumers objs 2000 s = (r, s') →
  ∃ t, s' = set_consumers t s
       ∧ (r = Ok tt → map snd t = (map snd (consumers s) ++ objs)%list)
       ∧ (∀ e, r = Raise e → e = DataError ∨ e = IntegrityError).
Proof.
  apply (bulk_create_appends consumers set_consumers); try done; try lia.
  - by intros [].
  - intros rows s0. apply insert_checked_shape.
Qed.

Lemma bulk_create_variants (objs : list ProductVariant) s r s' :
  bulk_create insert_variants objs 2000 s = (r, s') →
  ∃ t, s' = set_variants t s
       ∧ (r = Ok tt → map snd t = (map snd (variants s) ++ objs)%list)
       ∧ (∀ e, r = Raise e → e = DataError ∨ e = IntegrityError).
Proof.
  apply (bulk_create_appends variants set_variants); try done; try lia.
  - by intros [].
  - intros rows s0. apply insert_checked_shape.
Qed.

Lemma bulk_create_connections (objs : list ConnectionDetails) s r s' :
  bulk_create insert_connections objs 2000 s = (r, s') →
  ∃ t, s' = set_connections t s
       ∧ (r = Ok tt → map snd t = (map snd (connections s) ++ objs)%list)
       ∧ (∀ e, r = Raise e → e = DataError ∨ e = IntegrityError).
Proof.
  apply (bulk_create_appends connections set_connections); try done; try lia.
  - by intros [].
  - intros rows s0. apply insert_checked_shape.
Qed.

Lemma bulk_create_addresses (objs : list Address) s r s' :
  bulk_create insert_addresses objs 2000 s = (r, s') →
  ∃ t, s' = set_addresses t s
       ∧ (r = Ok tt → map snd t = (map snd (addresses s) ++ objs)%list)
       ∧ (∀ e, r = Raise e → e = DataError ∨ e = IntegrityError).
Proof.
  apply (bulk_create_appends addresses set_addresses); try done; try lia.
  - by intros [].
  - intros rows s0. apply insert_checked_shape.
Qed.

Lemma bulk_create_contacts (objs : list Contact) s r s' :
  bulk_create insert_contacts objs 2000 s = (r, s') →
  ∃ t, s' = set_contacts t s
       ∧ (r = Ok tt → map snd t = (map snd (contacts s) ++ objs)%list)
       ∧ (∀ e, r = Raise e → e = DataError ∨ e = IntegrityError).
Proof.
  apply (bulk_create_appends contacts set_contacts); try done; try lia.
  - by intros [].
  - intros rows s0. apply insert_checked_shape.
Qed.

(** A batch of consumers that went in had every category and every
    consumer type. *)
Lemma insert_consumers_not_null (rows : list Consumer) s s' :
  insert_consumers rows s = (Ok tt, s') →
  Forall (fun c => is_Some (category c) ∧ is_Some (consumer_type c)) rows.
Proof.
  unfold insert_consumers, insert_checked.
  destruct (forallb consumer_ok rows); simpl; [|done].
  destruct (consumers_valid _) eqn:Hv; [|done]. intros _.
  unfold consumers_valid in Hv.
  apply andb_true_iff in Hv as [_ Hv].
  rewrite forallb_app in Hv. apply andb_true_iff in Hv as [_ Hv].
  apply Forall_forall. intros c Hc.
  rewrite forallb_forall in Hv. apply list_elem_of_In in Hc.
  specialize (Hv c Hc). apply andb_true_iff in Hv as [H1 H2].
  by apply bool_decide_eq_true in H1, H2.
Qed.

Lemma for_each_consumers_not_null (batches : list (list Consumer)) s s' :
  for_each insert_consumers batches s = (Ok tt, s') →
  Forall (fun c => is_Some (category c) ∧ is_Some (consumer_type c))
    (concat batches).
Proof.
  revert s. induction batches as [|rows batches IH]; intros s; [constructor|].
  simpl. intros (u & s0 & Hrows & Hrest)%bind_ok. destruct u.
  apply Forall_app. split; [by eapply insert_consumers_not_null | by eapply IH].
Qed.

Lemma bulk_create_consumers_not_null (objs : list Consumer) s s' :
  bulk_create insert_consumers objs 2000 s = (Ok tt, s') →
  Forall (fun c => is_Some (category c) ∧ is_Some (consumer_type c)) objs.
Proof.
  intros H%for_each_consumers_not_null.
  rewrite chunks_concat in H; [done | lia].
Qed.

End Tables.

(** [{key(x): x for x in rows}] *)
Section DictBy.
Context {A : Type} (key : A -> string).

Lemma dict_from_lookup (m : gmap string A) (rows : list A) k x :
  foldl (fun m x => <[key x := x]> m) m rows !! k = Some x →
  (x ∈ rows ∧ key x = k) ∨ m !! k = Some x.
Proof.
  revert m. induction rows as [|r rows IH]; intros m; simpl; [by right|].
  intros [[Hin Hk] | Hm]%IH.
  - left. split; [by right | done].
  - destruct (decide (key r = k)) as [<-|Hne].
    + rewrite lookup_insert_eq in Hm. injection Hm as <-.
      left. split; [by left | done].
    + rewrite lookup_insert_ne in Hm by done. by right.
Qed.

Lemma dict_from_is_Some (m : gmap string A) (rows : list A) k :
  k ∈ map key rows ∨ is_Some (m !! k) →
  is_Some (foldl (fun m x => <[key x := x]> m) m rows !! k).
Proof.
  revert m. induction rows as [|r rows IH]; intros m; simpl.
  - intros [?%elem_of_nil | ?]; done.
  - intros [[->|Hin]%elem_of_cons | Hm]; apply IH.
    + right. rewrite lookup_insert_eq. eauto.
    + by left.
    + right. destruct (decide (key r = k)) as [<-|Hne].
      * rewrite lookup_insert_eq. eauto.
      * by rewrite lookup_insert_ne.
Qed.

Lemma dict_by_lookup (rows : list A) k x :
  dict_by key rows !! k = Some x → x ∈ rows ∧ key x = k.
Proof.
  unfold dict_by. intros [H | H]%dict_from_lookup; [done|].
  by rewrite lookup_empty in H.
Qed.

Lemma dict_by_is_Some (rows : list A) k :
  k ∈ map key rows → is_Some (dict_by key rows !! k).
Proof. intros H. apply dict_from_is_Some. by left. Qed.

Lemma dict_by_None (rows : list A) k :
  k ∉ map key rows → dict_by key rows !! k = None.
Proof.
  intros Hk. destruct (dict_by key rows !! k) as [x|] eqn:Hx; [|done].
  apply dict_by_lookup in Hx as [Hin <-]. destruct Hk.
  apply list_elem_of_fmap. by exists x.
Qed.

End DictBy.

End DbFacts.

(** ** populate_consumers: the run *)

Module ImportFacts.
Import Py Frame Models Db Spec Facts DbFacts PopulateConsumers.

Section Run.
Context {B : Backend}.

Lemma bulk_create_if_eq {A} (insert : list A -> db unit) (objs : list A) s :
  bulk_create_if insert objs s = bulk_create insert objs batch_size s.
Proof. by destruct objs. Qed.

(** The steps of a run that completes. *)
Lemma handle_body_ok (df : DataFrame) s st s1 :
  handle_body df s = (Ok st, s1) →
  ∃ cands nums s_a b s_b conns s_c s_d,
    stage_consumers (prefetch s) (drop_duplicates ConsumerNumber df) [] ∅
      = Ok (cands, nums)
    ∧ bulk_create insert_consumers cands batch_size s = (Ok tt, s_a)
    ∧ prepare_rows (prefetch s)
        (dict_by (fun c => consumer_number (snd c)) (consumers s_a)) df
        (mkBatch [] [] [] [] ∅ nums) = Ok b
    ∧ bulk_create insert_variants (map snd (variants_to_create b))
        batch_size s_a = (Ok tt, s_b)
    ∧ link_products df
        (dict_by (fun v => product_code (snd v)) (variants s_b))
        (connections_to_create b) = Ok conns
    ∧ bulk_create insert_addresses (addresses_to_create b) batch_size s_b
      = (Ok tt, s_c)
    ∧ bulk_create insert_contacts (contacts_to_create b) batch_size s_c
      = (Ok tt, s_d)
    ∧ bulk_create insert_connections conns batch_size s_d = (Ok tt, s1)
    ∧ st = mkStaged cands (addresses_to_create b) (contacts_to_create b)
             (map snd (variants_to_create b)) conns.
Proof.
  unfold handle_body.
  intros (pre & s0 & [= <- <-] & H)%bind_ok.
  apply bind_ok in H as ([cands nums] & s0 & Hstage & H).
  unfold lift in Hstage. injection Hstage as Hstage <-.
  apply bind_ok in H as ([] & s_a & Hcons & H).
  apply bind_ok in H as (cm & s0 & [= <- <-] & H).
  apply bind_ok in H as (b & s0 & Hprep & H).
  unfold lift in Hprep. injection Hprep as Hprep <-.
  apply bind_ok in H as ([] & s_b & Hvar & H).
  apply bind_ok in H as (vm & s0 & [= <- <-] & H).
  apply bind_ok in H as (conns & s0 & Hlink & H).
  unfold lift in Hlink. injection Hlink as Hlink <-.
  apply bind_ok in H as ([] & s_c & Haddr & H).
  apply bind_ok in H as ([] & s_d & Hcont & H).
  apply bind_ok in H as ([] & s_e & Hconn & H).
  injection H as <- <-.
  rewrite bulk_create_if_eq in Hvar. rewrite bulk_create_if_eq in Haddr.
  rewrite bulk_create_if_eq in Hcont. rewrite bulk_create_if_eq in Hconn.
  exists cands, nums, s_a, b, s_b, conns, s_c, s_d. done.
Qed.

(** Batches are no transaction of their own: when a first batch of
    2000 consumers goes in and the second is refused, [bulk_create]
    raises and leaves the first batch in the store. *)
Lemma second_batch_fails (first second : list Consumer) s s1 e :
  length first = batch_size → second ≠ [] →
  (length second <= batch_size)%nat →
  insert_consumers first s = (Ok tt, s1) →
  insert_consumers second s1 = (Raise e, s1) →
  bulk_create insert_consumers (first ++ second)%list batch_size s
  = (Raise e, s1).
Proof.
  intros Hlen Hne Hle Hfirst Hsecond. unfold bulk_create, chunks.
  destruct first as [|c first]; [done|].
  destruct second as [|d second]; [done|].
  assert (take batch_size ((c :: first) ++ d :: second) = c :: first) as Ht.
  { rewrite <- Hlen. apply take_app_length. }
  assert (drop batch_size ((c :: first) ++ d :: second) = d :: second) as Hd.
  { rewrite <- Hlen. apply drop_app_length. }
  assert (take batch_size (d :: second) = d :: second) as Ht2.
  { apply take_ge. exact Hle. }
  assert (drop batch_size (d :: second) = []) as Hd2.
  { apply drop_ge. exact Hle. }
  rewrite length_app, Hlen.
  generalize dependent batch_size. intros n. intros.
  destruct n as [|n]; [simpl in Hlen; discriminate|].
  rewrite Nat.add_succ_l. cbn [app] in Ht, Hd. cbn [app].
  rewrite chunks_fuel_cons, Ht, Hd.
  rewrite length_cons, Nat.add_succ_r.
  rewrite chunks_fuel_cons, Ht2, Hd2, chunks_fuel_nil.
  cbn [for_each]. unfold Db.bind at 1. rewrite Hfirst.
  unfold Db.bind at 1. rewrite Hsecond. done.
Qed.

(** C4.  The import is all or nothing: when a run raises, at whatever
    step and after whatever batches went in, the store it leaves is the
    store it found. *)
Theorem handle_all_or_nothing (df : DataFrame) (s s' : Store) (e : exn) :
  handle df s = (Raise e, s') → s' = s.
Proof. unfold handle. by intros [_ ->]%atomic_raise. Qed.

(** A run that completes is the body as it went. *)
Lemma handle_ok (df : DataFrame) s st s' :
  handle df s = (Ok st, s') ↔ handle_body df s = (Ok st, s').
Proof. apply atomic_ok. Qed.

Lemma handle_raises (df : DataFrame) s e s0 :
  handle_body df s = (Raise e, s0) → handle df s = (Raise e, s).
Proof. intros H. apply atomic_raise. eauto. Qed.

End Run.

(** Without the transaction the body leaves what it wrote: the consumer
    of the line is in the store when the blank cylinder size raises. *)
Lemma body_leaves_partial_writes :
  ∃ s0, handle_body (B := permissive) Samples.blank_size_line
          Samples.fresh_store = (Raise ValueError, s0)
        ∧ map fst (consumers s0) = [1].
Proof. eexists. split; vm_compute; reflexivity. Qed.

(** The same run under the transaction. *)
Lemma blank_size_rolled_back :
  handle (B := permissive) Samples.blank_size_line Samples.fresh_store
  = (Raise ValueError, Samples.fresh_store)
  ∧ Samples.fresh_store = Samples.fresh_store.
Proof.
  assert (handle (B := permissive) Samples.blank_size_line
            Samples.fresh_store = (Raise ValueError, Samples.fresh_store))
    as Hrun by (vm_compute; reflexivity).
  split; [exact Hrun|].
  exact (handle_all_or_nothing (B := permissive) _ _ _ _ Hrun).
Defined.

End ImportFacts.

(** ** populate_consumers: the product link of a connection *)

Module ProductLinkFacts.
Import Py Frame Models Db Spec Facts DbFacts PopulateConsumers.

Lemma prepare_variant_connections pre row b b' :
  prepare_variant pre row b = Ok b' →
  connections_to_create b' = connections_to_create b.
Proof.
  unfold prepare_variant.
  destruct (_ && _); [|by intros [= <-]].
  unfold Py.bind. destruct (float (NoOfCylinder row)); [|done].
  by intros [= <-].
Qed.

Lemma prepare_children_connections pre c row b :
  connections_to_create (prepare_children pre c row b)
  = connections_to_create b.
Proof. unfold prepare_children. by destruct (mem _ _). Qed.

Lemma prepare_connection_connections pre c row b b' :
  prepare_connection pre c row b = Ok b' →
  connections_to_create b' = connections_to_create b
  ∨ ∃ conn, connections_to_create b' = (connections_to_create b ++ [conn])%list
            ∧ sv_number conn = SvNumber row
            ∧ consumer_id conn = fst c
            ∧ connection_product conn = None.
Proof.
  unfold prepare_connection.
  destruct (_ && _); [|intros [= <-]; by left].
  unfold Py.bind.
  destruct (if truthy (SvDateInt row) then _ else _) as [d|]; [|done].
  destruct (int (NoOfDpr row)) as [n|]; [|done].
  intros [= <-]. right. eexists. by split.
Qed.

(** Every staged connection carries the connection number of a row of
    the file. *)
Lemma prepare_rows_sv_numbers pre cm (rows : list Row) b b' :
  prepare_rows pre cm rows b = Ok b' →
  ∀ conn, conn ∈ connections_to_create b' →
          conn ∈ connections_to_create b
          ∨ sv_number conn ∈ map SvNumber rows.
Proof.
  revert b. induction rows as [|row rows IH]; intros b; simpl.
  - intros [= <-] conn Hc. by left.
  - unfold Py.bind at 1.
    destruct (prepare_row pre cm row b) as [b1|] eqn:Hrow; [|done].
    intros Hrest conn Hc.
    destruct (IH _ Hrest conn Hc) as [Hin | Hin]; [|right; by right].
    unfold prepare_row in Hrow.
    destruct (cm !! ConsumerNumber row) as [c|]; [|injection Hrow as <-; by left].
    unfold Py.bind in Hrow.
    destruct (prepare_variant pre row _) as [b2|] eqn:Hv; [|done].
    apply prepare_variant_connections in Hv.
    rewrite prepare_children_connections in Hv.
    apply prepare_connection_connections in Hrow
      as [Heq | (conn' & Heq & Hsv & _)]; rewrite Heq, Hv in Hin.
    + by left.
    + apply elem_of_app in Hin as [? | ->%list_elem_of_singleton];
        [by left | right; rewrite Hsv; by left].
Qed.

Lemma link_product_first_row (df : DataFrame) (t : Table ProductVariant)
    (conn : ConnectionDetails) :
  sv_number conn ∈ map SvNumber df →
  ∃ conn', link_product df (dict_by (fun v => product_code (snd v)) t) conn
           = Ok conn'
           ∧ linked df t conn conn'.
Proof.
  intros (row0 & Hsv & Hin)%list_elem_of_fmap.
  unfold link_product, first_where, linked, first_row.
  destruct (where_eq SvNumber (sv_number conn) df) as [|row rest] eqn:Hw.
  - assert (row0 ∈ where_eq SvNumber (sv_number conn) df) as H
      by (by apply list_elem_of_filter).
    rewrite Hw in H. by apply elem_of_nil in H.
  - simpl. eexists. split; [reflexivity|]. exists row.
    split; [done|]. split; [done|]. simpl. split.
    + intros vid Hvid.
      destruct (dict_by _ t !! ProdCode row) as [[vid' v]|] eqn:Hl; [|done].
      injection Hvid as ->. apply dict_by_lookup in Hl as [Hin' Hcode].
      by exists v.
    + intros Hno. by rewrite dict_by_None.
Qed.

Lemma link_products_first_row (df : DataFrame) (t : Table ProductVariant)
    (conns : list ConnectionDetails) :
  (∀ conn, conn ∈ conns → sv_number conn ∈ map SvNumber df) →
  ∃ conns', link_products df (dict_by (fun v => product_code (snd v)) t) conns
            = Ok conns'
            ∧ Forall2 (linked df t) conns conns'.
Proof.
  induction conns as [|conn conns IH]; intros Hsv.
  - exists []. split; [done | constructor].
  - destruct (link_product_first_row df t conn) as (conn' & Hc & Hl).
    { apply Hsv. by left. }
    destruct IH as (conns' & Hcs & Hls).
    { intros c Hc'. apply Hsv. by right. }
    exists (conn' :: conns'). simpl. rewrite Hc, Hcs.
    split; [done | by constructor].
Qed.

Lemma link_staged_connections (pre : Prefetched)
    (consumer_map : gmap string (Z * Consumer)) (df : DataFrame)
    (new_numbers : gset string) (b : Batch) (t : Table ProductVariant) :
  prepare_rows pre consumer_map df (mkBatch [] [] [] [] ∅ new_numbers) = Ok b →
  ∃ conns,
    link_products df (dict_by (fun v => product_code (snd v)) t)
      (connections_to_create b) = Ok conns
    ∧ Forall2 (linked df t) (connections_to_create b) conns.
Proof.
  intros Hprep. apply link_products_first_row. intros conn Hc.
  destruct (prepare_rows_sv_numbers _ _ _ _ _ Hprep conn Hc) as [H|H]; [|done].
  by apply elem_of_nil in H.
Qed.



Lemma product_link_values :
  (b <- prepare_rows (prefetch Samples.unassigned_store)
          (dict_by (fun c => consumer_number (snd c))
             (consumers Samples.unassigned_store))
          Samples.repeated_connection (mkBatch [] [] [] [] ∅ ∅) ;;
   conns <- link_products Samples.repeated_connection
              (dict_by (fun v => product_code (snd v))
                 [(1, Samples.sample_variant "P14");
                  (2, Samples.sample_variant "P19")])
              (connections_to_create b) ;;
   Ok (map (fun c => (sv_number c, connection_product c)) conns))%py
  = Ok [("SV1", Some 1); ("SV2", None)].
Proof. vm_compute. reflexivity. Qed.

Section Run.
Context {B : Backend}.

(** In a run that completes, the link of every connection it wrote is
    the one its first row gives, in the variant table the run leaves. *)
Lemma handle_links_products (df : DataFrame) s st s' :
  handle df s = (Ok st, s') →
  Forall (fun conn' =>
            ∃ row, first_row SvNumber (sv_number conn') df = Some row
                   ∧ connection_product conn'
                     = fst <$> dict_by (fun v => product_code (snd v))
                                 (variants s') !! ProdCode row)
    (staged_connections st).
Proof.
  intros H%ImportFacts.handle_ok.
  apply ImportFacts.handle_body_ok in H
    as (cands & nums & s_a & b & s_b & conns & s_c & s_d
        & _ & _ & Hprep & _ & Hlink & Ha & Hc & Hconn & ->).
  apply bulk_create_addresses in Ha as (ta & -> & _).
  apply bulk_create_contacts in Hc as (tc & -> & _).
  apply bulk_create_connections in Hconn as (tn & -> & _).
  simpl.
  destruct (link_staged_connections _ _ _ _ _ (variants s_b) Hprep)
    as (conns' & Hlink' & Hall).
  rewrite Hlink in Hlink'. injection Hlink' as <-.
  apply Forall_forall. intros conn' Hin.
  apply list_elem_of_lookup in Hin as [i Hi].
  destruct (Forall2_lookup_r _ _ _ _ _ Hall Hi) as (conn & _ & Hl).
  destruct Hl as (row & Hrow & -> & _). exists row. by split.
Qed.

End Run.

End ProductLinkFacts.

(** ** populate_consumers: missing lookups *)

Module LookupFacts.
Import Py Frame Models Db Spec Facts DbFacts PopulateConsumers.

Lemma new_consumer_is_ok (pre pre' : Prefetched) (row : Row) :
  is_ok (new_consumer pre row) = is_ok (new_consumer pre' row).
Proof.
  unfold new_consumer, Py.bind.
  destruct (coerce_lpg_id (LPGId row)); [|done].
  by destruct (coerce_blue_book (BlueBookNumber row)).
Qed.

Lemma new_consumer_lookups (pre : Prefetched) (row : Row) (c : Consumer) :
  new_consumer pre row = Ok c →
  category c = lookup_id <$> categories pre !! Category row
  ∧ consumer_type c
    = lookup_id <$> consumer_types pre !! ConsumerTypeIdDesc row.
Proof.
  unfold new_consumer, Py.bind.
  destruct (coerce_lpg_id (LPGId row)); [|done].
  destruct (coerce_blue_book (BlueBookNumber row)); [|done].
  by intros [= <-].
Qed.

Section Run.
Context {B : Backend}.

(** The import writes to five tables only. *)
Lemma handle_body_writes (df : DataFrame) s st s' :
  handle_body df s = (Ok st, s') →
  ∃ tc ta tk tv tn,
    s' = set_connections tn (set_contacts tk (set_addresses ta
           (set_variants tv (set_consumers tc s))))
    ∧ map snd tc = (map snd (consumers s) ++ staged_consumers st)%list
    ∧ map snd tv = (map snd (variants s) ++ staged_variants st)%list
    ∧ map snd tn = (map snd (connections s) ++ staged_connections st)%list.
Proof.
  intros (cands & nums & s_a & b & s_b & conns & s_c & s_d
          & _ & Hcons & _ & Hvar & _ & Ha & Hc & Hconn & ->)
    %ImportFacts.handle_body_ok.
  apply bulk_create_consumers in Hcons as (tc & -> & Htc & _).
  apply bulk_create_variants in Hvar as (tv & -> & Htv & _).
  apply bulk_create_addresses in Ha as (ta & -> & _).
  apply bulk_create_contacts in Hc as (tk & -> & _).
  apply bulk_create_connections in Hconn as (tn & -> & Htn & _).
  exists tc, ta, tk, tv, tn. simpl in *.
  split; [done|]. split; [by apply Htc|]. split; [by apply Htv | by apply Htn].
Qed.

Lemma handle_keeps_registries (df : DataFrame) s r s' :
  handle df s = (r, s') →
  Models.categories s' = Models.categories s
  ∧ Models.consumer_types s' = Models.consumer_types s.
Proof.
  destruct r as [st|e].
  - intros H%ImportFacts.handle_ok.
    apply handle_body_writes in H as (tc & ta & tk & tv & tn & -> & _). done.
  - unfold handle. by intros [_ ->]%atomic_raise.
Qed.

(** C3, as the code has it.  A category or consumer type that the
    registries do not hold is looked up with [dict.get]: the candidate
    is built with an absent reference, and whether a candidate can be
    built does not depend on the registries.  A run that has staged a
    candidate without category or consumer type is refused by the
    consumer table at the bulk insert, raises a database error and
    leaves the store as it was.  No run adds a row to the registries.
    A row whose consumer number the store holds stages no candidate:
    no candidate carries its number, so what its category and consumer
    type cells say is never written. *)
Theorem missing_lookup_is_absent (df : DataFrame) (s : Store) :
  (∀ row c,
     new_consumer (prefetch s) row = Ok c →
     (Category row ∉ map name (Models.categories s) → category c = None)
     ∧ (ConsumerTypeIdDesc row ∉ map name (Models.consumer_types s) →
        consumer_type c = None))
  ∧ (∀ pre row,
       is_ok (new_consumer pre row) = is_ok (new_consumer (prefetch s) row))
  ∧ (∀ cands nums c,
       stage_consumers (prefetch s) (drop_duplicates ConsumerNumber df) [] ∅
         = Ok (cands, nums) →
       c ∈ cands → category c = None ∨ consumer_type c = None →
       ∃ e, handle df s = (Raise e, s)
            ∧ (e = IntegrityError ∨ e = DataError))
  ∧ (∀ r s', handle df s = (r, s') →
             Models.categories s' = Models.categories s
             ∧ Models.consumer_types s' = Models.consumer_types s)
  ∧ (∀ cands nums row c,
       stage_consumers (prefetch s) (drop_duplicates ConsumerNumber df) [] ∅
         = Ok (cands, nums) →
       row ∈ df →
       ConsumerNumber row ∈ existing_consumer_nums (prefetch s) →
       c ∈ cands → consumer_number c ≠ ConsumerNumber row).
Proof.
  split; [|split; [|split; [|split]]].
  - intros row c [Hcat Hty]%new_consumer_lookups. split; intros Hno.
    + rewrite Hcat. simpl. by rewrite dict_by_None.
    + rewrite Hty. simpl. by rewrite dict_by_None.
  - intros pre row. apply new_consumer_is_ok.
  - intros cands nums c Hstage Hc Hnull.
    destruct (bulk_create insert_consumers cands batch_size s)
      as [[[]|e] s0] eqn:Hbulk.
    + apply bulk_create_consumers_not_null in Hbulk.
      eapply Forall_forall in Hbulk as [[x Hx] [y Hy]]; [|exact Hc].
      destruct Hnull; congruence.
    + pose proof Hbulk as (t & _ & _ & He)%bulk_create_consumers.
      exists e. split; [|destruct (He e eq_refl); [by right | by left]].
      apply (ImportFacts.handle_raises _ _ _ s0).
      unfold handle_body, Db.bind, query, lift. rewrite Hstage.
      by rewrite Hbulk.
  - apply handle_keeps_registries.
  - intros cands nums row c (cs & -> & Hcs & _)%StagingFacts.stage_consumers_shape
      _ Hstored Hc Heq.
    simpl in Hc. apply list_elem_of_lookup in Hc as [i Hi].
    destruct (Forall2_lookup_r _ _ _ _ _ Hcs Hi) as (row' & Hrow' & Hnew).
    apply StagingFacts.new_consumer_number in Hnew.
    apply list_elem_of_lookup_2 in Hrow'.
    apply list_elem_of_filter in Hrow' as [Hnot _].
    apply Hnot. by rewrite <- Hnew, Heq.
Qed.

End Run.

(** A line of a consumer the store already holds, with a category and a
    consumer type that no registry has: the run completes, raises
    nothing, stages nothing and leaves the store as it was. *)
Lemma unknown_lookups_pass :
  categories (prefetch Samples.settled_store) !! "Platinum" = None
  ∧ consumer_types (prefetch Samples.settled_store) !! "Industrial" = None
  ∧ handle (B := permissive) Samples.unknown_lookups_line
      Samples.settled_store
    = (Ok nothing_staged, Samples.settled_store).
Proof. repeat split; vm_compute; reflexivity. Qed.

(** A line of a new consumer with such a category: the candidate is
    staged with no category, and the run ends in the integrity error
    of the consumer table. *)
Lemma unknown_category_aborts :
  (' (cands, _) <- stage_consumers (prefetch Samples.fresh_store)
                     (drop_duplicates ConsumerNumber
                        Samples.unknown_category_line) [] ∅ ;;
   Ok (map category cands))%py = Ok [None]
  ∧ handle (B := permissive) Samples.unknown_category_line
      Samples.fresh_store
    = (Raise IntegrityError, Samples.fresh_store).
Proof. split; vm_compute; reflexivity. Qed.

(** The theorem on that line: the staged candidate has no category, so
    the run ends in a database error and the store is as before. *)
Lemma unknown_category_refused :
  stage_consumers (prefetch Samples.fresh_store)
    (drop_duplicates ConsumerNumber Samples.unknown_category_line) [] ∅
  = Ok ([mkConsumer "C009" "Lata" "" "" None None None true None (Some 1)],
        {["C009"]})
  ∧ ∃ e, handle (B := permissive) Samples.unknown_category_line
           Samples.fresh_store = (Raise e, Samples.fresh_store)
         ∧ (e = IntegrityError ∨ e = DataError).
Proof.
  assert (stage_consumers (prefetch Samples.fresh_store)
            (drop_duplicates ConsumerNumber Samples.unknown_category_line)
            [] ∅
          = Ok ([mkConsumer "C009" "Lata" "" "" None None None true None
                   (Some 1)], {["C009"]})) as Hstage
    by (vm_compute; reflexivity).
  split; [exact Hstage|].
  destruct (missing_lookup_is_absent (B := permissive)
              Samples.unknown_category_line Samples.fresh_store)
    as (_ & _ & Habort & _).
  apply (Habort _ _
           (mkConsumer "C009" "Lata" "" "" None None None true None (Some 1))
           Hstage).
  - left.
  - left. reflexivity.
Defined.

End LookupFacts.

(** ** populate_consumers: running the import again *)

Module RerunFacts.
Import Py Frame Models Db Spec Facts DbFacts PopulateConsumers.

Lemma elem_of_value_set {A} (col : A -> string) (t : Table A) k :
  k ∈ value_set col t ↔ k ∈ map col (map snd t).
Proof.
  unfold value_set. rewrite elem_of_list_to_set.
  by rewrite <- list_fmap_compose.
Qed.

(** Rows of consumers the store holds stage nothing. *)
Lemma stage_consumers_known (pre : Prefetched) (rows : list Row)
    (acc : list Consumer) (nums : gset string) :
  (∀ row, row ∈ rows → ConsumerNumber row ∈ existing_consumer_nums pre) →
  stage_consumers pre rows acc nums = Ok (acc, nums).
Proof.
  induction rows as [|row rows IH]; intros Hall; [done|].
  simpl. rewrite (proj2 (mem_true _ _)); [|apply Hall; by left].
  apply IH. intros r Hr. apply Hall. by right.
Qed.

Lemma grows_refl b : grows b b.
Proof. by split. Qed.

Lemma grows_trans b1 b2 b3 : grows b1 b2 → grows b2 b3 → grows b1 b3.
Proof. intros [H1 H2] [H3 H4]. split; intros k Hk; auto. Qed.

Lemma covered_grows pre b b' row : grows b b' → covered pre b row → covered pre b' row.
Proof.
  intros [Hv Hc] [Hcode Hsv]. split.
  - destruct Hcode as [?|[?|?]]; auto.
  - destruct Hsv as [?|?]; auto.
Qed.

Lemma prepare_children_same pre c row b :
  variants_to_create (prepare_children pre c row b) = variants_to_create b
  ∧ connections_to_create (prepare_children pre c row b)
    = connections_to_create b
  ∧ sv_numbers_in_batch (prepare_children pre c row b)
    = sv_numbers_in_batch b.
Proof. unfold prepare_children. by destruct (mem _ _). Qed.

Lemma prepare_variant_step pre row b b2 :
  batch_consistent b → prepare_variant pre row b = Ok b2 →
  batch_consistent b2 ∧ grows b b2
  ∧ (ProdCode row = "" ∨ ProdCode row ∈ existing_variant_codes pre
     ∨ ProdCode row ∈ map fst (variants_to_create b2)).
Proof.
  intros [Hsv Hkeys]. unfold prepare_variant.
  destruct (truthy (ProdCode row)) eqn:Ht; simpl.
  2:{ intros [= <-]. split; [done|]. split; [apply grows_refl|].
      left. by destruct (ProdCode row). }
  destruct (mem (ProdCode row) (existing_variant_codes pre)) eqn:He; simpl.
  { intros [= <-]. split; [done|]. split; [apply grows_refl|].
    right. left. by apply mem_true. }
  destruct (has_key (ProdCode row) (variants_to_create b)) eqn:Hk; simpl.
  { intros [= <-]. split; [done|]. split; [apply grows_refl|].
    right. right. by apply bool_decide_eq_true in Hk. }
  unfold Py.bind. destruct (float (NoOfCylinder row)) as [x|]; [|done].
  intros [= <-]. split; [|split].
  - split; [done|]. simpl. apply Forall_app. split; [done|].
    by repeat constructor.
  - split; simpl; [|done]. intros k Hk'. rewrite map_app.
    apply elem_of_app. by left.
  - right. right. simpl. rewrite map_app. apply elem_of_app. right.
    by left.
Qed.

Lemma prepare_connection_step pre c row b2 b' :
  batch_consistent b2 → prepare_connection pre c row b2 = Ok b' →
  batch_consistent b' ∧ grows b2 b'
  ∧ (SvNumber row ∈ existing_connection_nums pre
     ∨ SvNumber row ∈ map sv_number (connections_to_create b')).
Proof.
  intros [Hsv Hkeys]. unfold prepare_connection.
  destruct (mem (SvNumber row) (existing_connection_nums pre)) eqn:He; simpl.
  { intros [= <-]. split; [done|]. split; [apply grows_refl|].
    left. by apply mem_true. }
  destruct (mem (SvNumber row) (sv_numbers_in_batch b2)) eqn:Hb; simpl.
  { intros [= <-]. split; [done|]. split; [apply grows_refl|].
    right. apply mem_true in Hb. rewrite Hsv in Hb.
    by apply elem_of_list_to_set in Hb. }
  unfold Py.bind.
  destruct (if truthy (SvDateInt row) then _ else _) as [d|]; [|done].
  destruct (int (NoOfDpr row)) as [n|]; [|done].
  intros [= <-]. split; [|split].
  - split; [|done]. simpl. rewrite map_app, list_to_set_app_L, Hsv. simpl.
    set_solver.
  - split; simpl; [done|]. intros k Hk. rewrite map_app.
    apply elem_of_app. by left.
  - right. simpl. rewrite map_app. apply elem_of_app. right. by left.
Qed.

Lemma prepare_row_step pre cm row b b' :
  is_Some (cm !! ConsumerNumber row) → batch_consistent b →
  prepare_row pre cm row b = Ok b' →
  batch_consistent b' ∧ grows b b' ∧ covered pre b' row.
Proof.
  intros [c Hc] Hb. unfold prepare_row. rewrite Hc. unfold Py.bind.
  destruct (prepare_variant pre row (prepare_children pre c row b))
    as [b2|] eqn:Hv; [|done].
  intros Hconn.
  destruct (prepare_children_same pre c row b) as (Hcv & Hcc & Hcs).
  assert (batch_consistent (prepare_children pre c row b)) as Hb1.
  { destruct Hb as [H1 H2]. split; by rewrite ?Hcv, ?Hcc, ?Hcs. }
  assert (grows b (prepare_children pre c row b)) as Hg1.
  { split; intros k; by rewrite ?Hcv, ?Hcc. }
  destruct (prepare_variant_step _ _ _ _ Hb1 Hv) as (Hb2 & Hg2 & Hcode).
  destruct (prepare_connection_step _ _ _ _ _ Hb2 Hconn) as (Hb3 & Hg3 & Hsv).
  split; [done|]. split; [eauto using grows_trans|].
  split; [|done].
  destruct Hcode as [?|[?|Hin]]; [by left | by right; left |].
  right. right. by apply Hg3.
Qed.

(** After the loop of step 5, every row of the file is covered. *)
Lemma prepare_rows_cover pre cm (rows : list Row) b b' :
  (∀ row, row ∈ rows → is_Some (cm !! ConsumerNumber row)) →
  batch_consistent b →
  prepare_rows pre cm rows b = Ok b' →
  batch_consistent b' ∧ grows b b' ∧ ∀ row, row ∈ rows → covered pre b' row.
Proof.
  revert b. induction rows as [|row rows IH]; intros b Hall Hb; simpl.
  - intros [= <-]. split; [done|]. split; [apply grows_refl|].
    by intros row ?%elem_of_nil.
  - unfold Py.bind at 1.
    destruct (prepare_row pre cm row b) as [b1|] eqn:Hrow; [|done].
    intros Hrest.
    destruct (prepare_row_step pre cm row b b1) as (Hb1 & Hg1 & Hc1);
      [apply Hall; by left | done | done |].
    destruct (IH b1) as (Hb' & Hg' & Hc'); [|done|done|].
    { intros r Hr. apply Hall. by right. }
    split; [done|]. split; [eauto using grows_trans|].
    intros r [->|Hr]%elem_of_cons; [|by apply Hc'].
    by eapply covered_grows.
Qed.

(** Rows whose keys the store holds stage nothing in step 5. *)
Lemma prepare_rows_known pre cm (rows : list Row) b :
  (∀ row, row ∈ rows →
     (ProdCode row = "" ∨ ProdCode row ∈ existing_variant_codes pre)
     ∧ SvNumber row ∈ existing_connection_nums pre) →
  new_consumer_numbers b = ∅ →
  prepare_rows pre cm rows b = Ok b.
Proof.
  intros Hall Hnew. induction rows as [|row rows IH]; [done|]. simpl.
  assert (prepare_row pre cm row b = Ok b) as ->.
  { destruct (Hall row) as [Hcode Hsv]; [by left|].
    unfold prepare_row. destruct (cm !! ConsumerNumber row) as [c|]; [|done].
    assert (prepare_children pre c row b = b) as ->.
    { unfold prepare_children. rewrite Hnew.
      rewrite (proj2 (mem_false _ _)); [done | set_solver]. }
    assert (prepare_variant pre row b = Ok b) as ->.
    { unfold prepare_variant. destruct Hcode as [-> | Hin]; [done|].
      rewrite (proj2 (mem_true _ _) Hin). simpl. by rewrite andb_false_r. }
    simpl. unfold prepare_connection.
    by rewrite (proj2 (mem_true _ _) Hsv). }
  simpl. apply IH. intros r Hr. apply Hall. by right.
Qed.

Lemma link_products_sv_numbers df vm conns conns' :
  link_products df vm conns = Ok conns' →
  map sv_number conns' = map sv_number conns.
Proof.
  revert conns'. induction conns as [|conn conns IH]; intros conns'; simpl.
  - by intros [= <-].
  - unfold Py.bind at 1. unfold link_product at 1. unfold Py.bind at 1.
    destruct (first_where SvNumber ProdCode (sv_number conn) df); [|done].
    unfold Py.bind at 1.
    destruct (link_products df vm conns) as [cs|]; [|done].
    intros [= <-]. simpl. f_equal. by apply IH.
Qed.

Section Run.
Context {B : Backend}.

(** After a run that completed, the store holds the consumer number,
    the product code (when not blank) and the connection number of
    every row of the file. *)
Lemma handle_covers_file (df : DataFrame) s st s1 :
  handle df s = (Ok st, s1) →
  ∀ row, row ∈ df →
    ConsumerNumber row ∈ existing_consumer_nums (prefetch s1)
    ∧ (ProdCode row = "" ∨ ProdCode row ∈ existing_variant_codes (prefetch s1))
    ∧ SvNumber row ∈ existing_connection_nums (prefetch s1).
Proof.
  intros H%ImportFacts.handle_ok. pose proof H as Hbody.
  apply LookupFacts.handle_body_writes in H
    as (tc & ta & tk & tv & tn & -> & Htc & Htv & Htn).
  apply ImportFacts.handle_body_ok in Hbody
    as (cands & nums & s_a & b & s_b & conns & s_c & s_d
        & Hstage & Hcons & Hprep & _ & Hlink & _ & _ & _ & ->).
  simpl in Htc, Htv, Htn.
  apply bulk_create_consumers in Hcons as (tc' & -> & Htc' & _).
  simpl in Hprep. specialize (Htc' eq_refl).
  apply StagingFacts.stage_consumers_shape in Hstage as (cs & -> & Hcs & _).
  simpl in Htc, Htc'.
  assert (∀ row, row ∈ df →
            ConsumerNumber row ∈ map consumer_number (map snd tc')) as Hnum.
  { intros row Hrow. rewrite Htc', map_app. apply elem_of_app.
    destruct (decide (ConsumerNumber row ∈ existing_consumer_nums (prefetch s)))
      as [Hex | Hnew].
    - left. by apply elem_of_value_set in Hex.
    - right.
      assert (map consumer_number cs
              = map ConsumerNumber
                  (unknown_consumers (existing_consumer_nums (prefetch s))
                     (drop_duplicates ConsumerNumber df))) as ->.
      { clear -Hcs. induction Hcs as [|r c rs cs' Hc _ IH]; [done|].
        simpl. by rewrite IH, (StagingFacts.new_consumer_number _ _ _ Hc). }
      assert (ConsumerNumber row ∈ map ConsumerNumber
                (drop_duplicates ConsumerNumber df)) as Hdd.
      { apply keys_drop_duplicates. apply list_elem_of_fmap. by exists row. }
      apply list_elem_of_fmap in Hdd as (r & Hr & Hin).
      apply list_elem_of_fmap. exists r. split; [done|].
      apply list_elem_of_filter. split; [by rewrite <- Hr | done]. }
  assert (∀ row, row ∈ df →
            is_Some (dict_by (fun c => consumer_number (snd c)) tc'
                       !! ConsumerNumber row)) as Hcm.
  { intros row Hrow. apply dict_by_is_Some.
    pose proof (Hnum row Hrow) as Hin.
    rewrite <- list_fmap_compose in Hin. exact Hin. }
  assert (batch_consistent (mkBatch [] [] [] [] ∅ nums)) as Hb0
    by (by split).
  destruct (prepare_rows_cover _ _ _ _ _ Hcm Hb0 Hprep)
    as ((_ & Hkeys) & _ & Hcov).
  apply link_products_sv_numbers in Hlink.
  intros row Hrow. simpl. rewrite !elem_of_value_set.
  split; [|split].
  - rewrite Htc, map_app. rewrite Htc', map_app in Hnum. by apply Hnum.
  - destruct (Hcov row Hrow) as [[Hb | [Hex | Hst]] _]; [by left | |];
      right; rewrite Htv, !map_app; apply elem_of_app.
    + left. by apply elem_of_value_set in Hex.
    + right.
      assert (map product_code (map snd (variants_to_create b))
              = map fst (variants_to_create b)) as ->; [|done].
      clear -Hkeys. induction Hkeys as [|kv l Hkv _ IH]; [done|].
      simpl. by rewrite IH, Hkv.
  - destruct (Hcov row Hrow) as [_ [Hex | Hst]];
      rewrite Htn, !map_app; apply elem_of_app.
    + left. by apply elem_of_value_set in Hex.
    + right. by rewrite Hlink.
Qed.

Lemma second_run_nothing (df : DataFrame) (s s1 : Store) (st : Staged) :
  handle df s = (Ok st, s1) →
  handle df s1 = (Ok nothing_staged, s1).
Proof.
  intros Hrun. pose proof (handle_covers_file _ _ _ _ Hrun) as Hcov.
  apply ImportFacts.handle_ok.
  unfold handle_body, Db.bind, query, lift.
  rewrite (stage_consumers_known (prefetch s1)).
  2:{ intros row [Hrow _]%elem_of_drop_duplicates_from.
      by apply Hcov. }
  rewrite bulk_create_nil.
  rewrite (prepare_rows_known (prefetch s1)); [done| |done].
  intros row Hrow. destruct (Hcov row Hrow) as (_ & ? & ?). done.
Qed.

(** C5.  Running the import again on the same file, over the store the
    first run left, stages no consumer, no address, no contact, no
    variant and no connection, and leaves the store as it found it:
    the key sets fetched by the second run hold the consumer number,
    the product code (when it is not blank) and the connection number
    of every row of the file. *)
Theorem second_run_stages_nothing (df : DataFrame) (s s1 : Store)
    (st : Staged) :
  handle df s = (Ok st, s1) →
  handle df s1 = (Ok nothing_staged, s1)
  ∧ ∀ row, row ∈ df →
      ConsumerNumber row ∈ existing_consumer_nums (prefetch s1)
      ∧ (ProdCode row = ""
         ∨ ProdCode row ∈ existing_variant_codes (prefetch s1))
      ∧ SvNumber row ∈ existing_connection_nums (prefetch s1).
Proof.
  intros Hrun. split; [by eapply second_run_nothing|].
  by eapply handle_covers_file.
Qed.

End Run.

(** The sample file, twice. *)
Lemma second_run_sample :
  match handle (B := permissive) Samples.three_lines Samples.fresh_store with
  | (Ok st, s1) =>
      length (staged_consumers st) = 2%nat
      ∧ length (staged_connections st) = 3%nat
      ∧ handle (B := permissive) Samples.three_lines s1
        = (Ok nothing_staged, s1)
  | (Raise _, _) => False
  end.
Proof.
  destruct (handle (B := permissive) Samples.three_lines Samples.fresh_store)
    as [[st|e] s1] eqn:Hrun.
  - split; [|split].
    + vm_compute in Hrun. by injection Hrun as <- _.
    + vm_compute in Hrun. by injection Hrun as <- _.
    + exact (proj1 (second_run_stages_nothing (B := permissive) _ _ _ _ Hrun)).
  - vm_compute in Hrun. discriminate Hrun.
Defined.

End RerunFacts.

(** ** Area codes *)

Module AreaCodeFacts.
Import Py Frame Models Db Spec Notions Facts ValidateConsumerAddresses.

Lemma is_char_eq (n : N) (c : ascii) :
  (n < 256)%N → is_char n c = true ↔ c = ascii_of_N n.
Proof.
  intros Hn. unfold is_char, ord. rewrite N.eqb_eq. split.
  - intros <-. by rewrite ascii_N_embedding.
  - intros ->. by rewrite N_ascii_embedding.
Qed.

Lemma split_once_Some (p : ascii -> bool) (s a b : string) :
  split_once p s = (a, Some b)
  ↔ ∃ c, p c = true ∧ s = (a ++ String c b)%string
         ∧ all_chars (fun c => negb (p c)) a = true.
Proof.
  revert a. induction s as [|c s IH]; intros a; simpl.
  - split; [done|]. intros (c & _ & Hs & _). by destruct a.
  - destruct (p c) eqn:Hc.
    + split.
      * intros [= <- <-]. exists c. by rewrite append_empty.
      * intros (c' & Hc' & Hs & Ha). destruct a as [|d a].
        -- rewrite append_empty in Hs. by simplify_eq.
        -- rewrite append_cons in Hs. simpl in Ha. simplify_eq.
           by rewrite Hc in Ha.
    + destruct (split_once p s) as [a' b'] eqn:Hsplit. split.
      * intros [= <- ->]. destruct (proj1 (IH a') eq_refl) as (c' & ? & -> & ?).
        exists c'. rewrite append_cons. simpl. by rewrite Hc.
      * intros (c' & Hc' & Hs & Ha). destruct a as [|d a].
        -- rewrite append_empty in Hs. simplify_eq. by rewrite Hc in Hc'.
        -- rewrite append_cons in Hs. simpl in Ha. simplify_eq.
           apply andb_true_iff in Ha as [_ Ha].
           assert (H : (a', b') = (a, Some b)); [|by simplify_eq].
           apply IH. by exists c'.
Qed.

Lemma split_once_None (p : ascii -> bool) (s a : string) :
  split_once p s = (a, None)
  ↔ a = s ∧ all_chars (fun c => negb (p c)) s = true.
Proof.
  revert a. induction s as [|c s IH]; intros a; simpl.
  - split; [by intros [= <-]|by intros [-> _]].
  - destruct (p c) eqn:Hc; simpl.
    + split; [done|]. by intros [_ ?].
    + destruct (split_once p s) as [a' b'] eqn:Hsplit. split.
      * intros [= <- ->]. by destruct (proj1 (IH a') eq_refl) as [-> ->].
      * intros [-> Hs]. assert (H : (a', b') = (s, None)); [|by simplify_eq].
        by apply IH.
Qed.

Lemma hyphen_is_char (c : ascii) : is_char 45 c = true ↔ c = "-"%char.
Proof. by apply (is_char_eq 45). Qed.

Lemma parse_area_code_desc_cases (s code description : string) :
  (parse_area_code_desc s = Ok (code, description)
   ↔ ∃ a b, s = (a ++ "-" ++ b)%string ∧ hyphen_free a = true
            ∧ code = strip a ∧ description = strip b)
  ∧ (∀ e, parse_area_code_desc s = Raise e
          ↔ e = CommandError ∧ hyphen_free s = true).
Proof.
  unfold parse_area_code_desc, hyphen_free.
  destruct (split_once (is_char 45) s) as [a [b|]] eqn:Hsplit.
  - apply split_once_Some in Hsplit as Hs.
    destruct Hs as (c & Hc%hyphen_is_char & -> & Ha). subst c. split.
    + split.
      * intros [= <- <-]. by exists a, b.
      * intros (a' & b' & Hs & Ha' & -> & ->).
        assert (H : (a, Some b) = (a', Some b')); [|by simplify_eq].
        rewrite <- Hsplit. apply split_once_Some. exists "-"%char.
        by rewrite Hs.
    + intros e. split; [done|]. intros [_ He].
      assert (H : (a, Some b) = (a ++ String "-" b, None)); [|done].
      rewrite <- Hsplit. by apply split_once_None.
  - apply split_once_None in Hsplit as Hs. destruct Hs as [-> Hs]. split.
    + split; [done|]. intros (a' & b' & Hs' & Ha' & _).
      assert (H : (s, @None string) = (a', Some b')); [|done].
      rewrite <- Hsplit. apply split_once_Some. by exists "-"%char.
    + intros e. split; [by intros [= <-]|by intros [-> _]].
Qed.

Lemma all_chars_lstrip (q p : ascii -> bool) (s : string) :
  all_chars q s = true → all_chars q (lstrip_with p s) = true.
Proof.
  induction s as [|c s IH]; [done|]. simpl. intros Hs.
  apply andb_true_iff in Hs as [Hc Hs].
  destruct (p c); [by apply IH|]. simpl. by rewrite Hc, Hs.
Qed.

Lemma all_chars_rstrip (q p : ascii -> bool) (s : string) :
  all_chars q s = true → all_chars q (rstrip_with p s) = true.
Proof.
  induction s as [|c s IH]; [done|]. simpl. intros Hs.
  apply andb_true_iff in Hs as [Hc Hs].
  destruct (p c && negb (truthy (rstrip_with p s))); [done|].
  simpl. by rewrite Hc, IH.
Qed.

Lemma all_chars_strip (q : ascii -> bool) (s : string) :
  all_chars q s = true → all_chars q (strip s) = true.
Proof. intros Hs. by apply all_chars_rstrip, all_chars_lstrip. Qed.

Lemma rstrip_with_idemp (p : ascii -> bool) (s : string) :
  rstrip_with p (rstrip_with p s) = rstrip_with p s.
Proof.
  induction s as [|c s IH]; [done|]. simpl.
  destruct (p c && negb (truthy (rstrip_with p s))) eqn:Hc; [done|].
  simpl. by rewrite IH, Hc.
Qed.

Lemma lstrip_with_head (p : ascii -> bool) (s : string) :
  match lstrip_with p s with
  | EmptyString => True
  | String c _ => p c = false
  end.
Proof.
  induction s as [|c s IH]; [done|]. simpl.
  destruct (p c) eqn:Hc; [done|]. by simpl.
Qed.

Lemma lstrip_with_strip (p : ascii -> bool) (s : string) :
  lstrip_with p (strip_with p s) = strip_with p s.
Proof.
  unfold strip_with. pose proof (lstrip_with_head p s) as Hhead.
  destruct (lstrip_with p s) as [|c u]; [done|]. simpl.
  rewrite Hhead. simpl. by rewrite Hhead.
Qed.

(** X1.  [parse_area_code_desc] cuts its argument at the first hyphen:
    it returns a code and a description exactly when the argument is
    some [a], a hyphen and some [b] with no hyphen in [a], and then the
    code is [a] and the description is [b], both without the blanks
    around them, so that further hyphens stay in the description.  It
    raises exactly when the argument holds no hyphen, and what it
    raises then is [CommandError]. *)
Theorem parse_area_code_desc_first_hyphen (s code description : string) :
  (parse_area_code_desc s = Ok (code, description)
   ↔ ∃ a b, s = (a ++ "-" ++ b)%string ∧ hyphen_free a = true
            ∧ code = strip a ∧ description = strip b)
  ∧ (∀ e, parse_area_code_desc s = Raise e
          ↔ e = CommandError ∧ hyphen_free s = true).
Proof. apply parse_area_code_desc_cases. Qed.

(** Stripping twice is stripping once. *)
Lemma strip_idemp (s : string) : strip (strip s) = strip s.
Proof.
  unfold strip. unfold strip_with at 1. rewrite lstrip_with_strip.
  unfold strip_with. apply rstrip_with_idemp.
Qed.

(** X2.  The area code [populate_consumers_route] takes from a cell,
    [area_code_desc.split('-')[0].strip()], is the code
    [parse_area_code_desc] of the validator gives for the same cell;
    for a cell without a hyphen, where the validator raises, it is the
    whole cell without the blanks around it.  The code never holds a
    hyphen. *)
Theorem area_code_of_parse (s : string) :
  PopulateConsumersRoute.area_code_of s
  = match parse_area_code_desc s with
    | Ok (code, _) => code
    | Raise _ => strip s
    end
  ∧ hyphen_free (PopulateConsumersRoute.area_code_of s) = true.
Proof.
  unfold PopulateConsumersRoute.area_code_of, parse_area_code_desc,
    split_head, hyphen_free.
  destruct (split_once (is_char 45) s) as [a [b|]] eqn:Hsplit; simpl.
  - apply split_once_Some in Hsplit as (c & _ & _ & Ha).
    split; [done|]. by apply all_chars_strip.
  - apply split_once_None in Hsplit as [-> Hs].
    split; [done|]. by apply all_chars_strip.
Qed.

End AreaCodeFacts.

(** ** validate_consumer_addresses, the whole command *)

Module ValidatorFacts.
Import Py Frame Models Db Spec Notions Facts ValidateConsumerAddresses.

Lemma first_by_pk_least {A} (best : Z * A) (t : Table A) :
  first_by_pk best t ∈ best :: t
  ∧ ∀ x, x ∈ best :: t → fst (first_by_pk best t) <= fst x.
Proof.
  revert best. induction t as [|r t IH]; intros best; simpl.
  - split; [by left|]. intros x ->%list_elem_of_singleton. lia.
  - destruct (IH (if fst r <? fst best then r else best)) as [Hin Hle].
    split.
    + apply elem_of_cons in Hin as [->|Hin].
      * destruct (fst r <? fst best); [right; by left|by left].
      * by do 2 right.
    + intros x Hx.
      assert (Hstep : fst (first_by_pk (if fst r <? fst best then r else best) t)
                      <= fst (if fst r <? fst best then r else best))
        by (apply Hle; by left).
      apply elem_of_cons in Hx as [->|Hx].
      * destruct (Z.ltb_spec (fst r) (fst best)); lia.
      * apply elem_of_cons in Hx as [->|Hx].
        -- destruct (Z.ltb_spec (fst r) (fst best)); lia.
        -- apply Hle. by right.
Qed.

Lemma find_route_cases (code description : string) (s : Store) :
  ∃ found,
    find_route code description s = (Ok found, s)
    ∧ match found with
      | Some route =>
          route ∈ routes s ∧ route_matches code description route
          ∧ ∀ r, r ∈ routes s → route_matches code description r →
                 fst route <= fst r
      | None => ∀ r, r ∈ routes s → ¬ route_matches code description r
      end.
Proof.
  unfold find_route, query.
  destruct (filter _ (routes s)) as [|r rs] eqn:Hf; eexists; (split; [done|]).
  - intros r Hr Hm.
    assert (Hin : r ∈ filter (fun r => area_code (snd r) = code
                    ∧ area_code_description (snd r) = description) (routes s))
      by (by apply list_elem_of_filter).
    rewrite Hf in Hin. by apply elem_of_nil in Hin.
  - destruct (first_by_pk_least r rs) as [Hin Hle]. rewrite <- Hf in Hin, Hle.
    apply list_elem_of_filter in Hin as [Hm Hin]. repeat split; try done.
    + apply Hm.
    + apply Hm.
    + intros x Hx Hmx. apply Hle. by apply list_elem_of_filter.
Qed.

(** X3.  [find_route] never raises and leaves the store as it is, also
    when several routes carry the code and the description.  It gives
    a route of the store with that code and that description when
    there is one, and [None] only when there is none. *)
Theorem find_route_some_match (code description : string) (s : Store) :
  ∃ found,
    find_route code description s = (Ok found, s)
    ∧ match found with
      | Some route => route ∈ routes s ∧ route_matches code description route
      | None => ∀ r, r ∈ routes s → ¬ route_matches code description r
      end.
Proof.
  destruct (find_route_cases code description s) as (found & Hrun & Hfound).
  exists found. split; [done|].
  destruct found as [route|]; [|done].
  destruct Hfound as (Hin & Hm & _). by split.
Qed.

Lemma matching_pair_filter (filter : string) (row : Row) p :
  matching_pair filter row = Some p → filter ≠ "" ∧ strip filter = filter.
Proof.
  unfold matching_pair. intros Hp.
  destruct (truthy (strip (ConsumerNumber row))); [|done].
  destruct (truthy (strip (AreaCodeDesc row))) eqn:Ht; [|done].
  destruct (truthy (strip (Frame.Address row))); [|done].
  simpl in Hp. case_bool_decide as Heq; [|done]. subst filter. split.
  - intros Hblank. by rewrite Hblank in Ht.
  - apply AreaCodeFacts.strip_idemp.
Qed.

Lemma deduplicated_elem (filter : string) (df : DataFrame) number address :
  (number, address) ∈ deduplicated filter df
  ↔ head (where_eq fst number (omap (matching_pair filter) df))
    = Some (number, address).
Proof.
  unfold deduplicated.
  pose proof (where_eq_drop_duplicates fst number
                (omap (matching_pair filter) df)) as Hw.
  split.
  - intros Hin.
    assert (Hin' : (number, address)
                   ∈ where_eq fst number
                       (drop_duplicates fst (omap (matching_pair filter) df)))
      by (by apply list_elem_of_filter).
    rewrite Hw in Hin'.
    destruct (where_eq fst number (omap (matching_pair filter) df))
      as [|x l]; simpl in *; [by apply elem_of_nil in Hin'|].
    rewrite take_0 in Hin'. by apply list_elem_of_singleton in Hin' as ->.
  - intros Hhead.
    destruct (where_eq fst number (omap (matching_pair filter) df))
      as [|x l]; simpl in *; [done|]. simplify_eq. rewrite take_0 in Hw.
    assert (Hin : (number, address)
                  ∈ where_eq fst number
                      (drop_duplicates fst (omap (matching_pair filter) df)))
      by (rewrite Hw; by left).
    by apply list_elem_of_filter in Hin as [_ Hin].
Qed.

(** X4.  [process_csv] returns at most one entry.  Its key is the filter
    itself, its list of consumers is not empty and holds every
    consumer number once, and a consumer number comes with the address
    of the first row of the file that has this number among the rows
    that match the filter and have the three cells filled. *)
Theorem process_csv_first_address (df : DataFrame) (filter : string) :
  (length (process_csv df filter) <= 1)%nat
  ∧ ∀ area consumers,
      (area, consumers) ∈ process_csv df filter →
      area = filter ∧ consumers ≠ [] ∧ NoDup (map fst consumers)
      ∧ ∀ number address,
          (number, address) ∈ consumers
          ↔ head (where_eq fst number (omap (matching_pair filter) df))
            = Some (number, address).
Proof.
  rewrite AddressFacts.process_csv_deduplicated.
  destruct (deduplicated filter df) as [|p ps] eqn:Hd; simpl.
  - split; [lia|]. intros area consumers Hin. by apply elem_of_nil in Hin.
  - split; [lia|]. intros area consumers Hin.
    apply list_elem_of_singleton in Hin. simplify_eq.
    split; [done|]. split; [done|]. rewrite <- Hd. split.
    + apply NoDup_drop_duplicates.
    + apply deduplicated_elem.
Qed.

Section Upper.
Variable upper : string -> string.

(** The command, case by case. *)
Lemma handle_cases (df : DataFrame) (area_filter : string) (s : Store) :
  handle upper df area_filter s
  = (match deduplicated area_filter df with
     | [] => Ok NoData
     | pairs =>
         match parse_area_code_desc area_filter with
         | Raise _ => Raise CommandError
         | Ok (code, description) =>
             match fst (find_route code description s) with
             | Ok (Some route) =>
                 match sub_area_names route s with
                 | [] => Ok (Results [] (length pairs))
                 | names =>
                     Ok (Results
                           (validate_consumers upper pairs (map upper names))
                           (length pairs))
                 end
             | Ok None => Ok (Results [] (length pairs))
             | Raise _ => Raise CommandError
             end
         end
     end, s).
Proof.
  unfold handle, as_command_error.
  rewrite AddressFacts.process_csv_deduplicated.
  destruct (deduplicated area_filter df) as [|p ps] eqn:Hd; [done|].
  unfold Db.bind. simpl validate_areas. unfold Db.bind.
  unfold validate_area, Db.bind, lift. simpl fst.
  destruct (parse_area_code_desc area_filter) as [[code description]|e]; [|done].
  unfold find_route, query. simpl fst.
  destruct (filter _ (routes s)) as [|r rs].
  { simpl. unfold ret. by rewrite Nat.add_0_r. }
  cbv beta iota. rewrite AddressFacts.get_route_areas_eq.
  destruct (sub_area_names (first_by_pk r rs) s) as [|a l]; simpl;
    unfold ret; by rewrite Nat.add_0_r.
Qed.

Lemma mapM_id_None {A} (rows : list (option A)) :
  mapM id rows = None ↔ None ∈ rows.
Proof.
  induction rows as [|[row|] rows IH].
  - split; [done|]. intros H. by apply elem_of_nil in H.
  - rewrite elem_of_cons. cbn [mapM id].
    destruct (mapM id rows) as [l|]; simpl.
    + split; [done|]. intros [?|Hin]; [done|]. by apply IH in Hin.
    + split; [|done]. intros _. right. by apply IH.
  - split; [|done]. intros _. by left.
Qed.

(** When [process_csv] raises before it returns. *)
Lemma read_rows_None (file : CsvFile) :
  read_rows file = None
  ↔ file = Unreadable
    ∨ ∃ fieldnames rows,
        file = Sheet fieldnames rows
        ∧ ((∃ col, col ∈ required_cols ∧ col ∉ fieldnames) ∨ None ∈ rows).
Proof.
  destruct file as [|fieldnames rows]; unfold read_rows.
  { split; [by left|done]. }
  assert (Hcols : forallb (fun col => bool_decide (col ∈ fieldnames))
                    required_cols = false
                  ↔ ∃ col, col ∈ required_cols ∧ col ∉ fieldnames).
  { rewrite <- not_true_iff_false, forallb_forall. split.
    - intros Hno.
      destruct (decide (Forall (fun col => col ∈ fieldnames) required_cols))
        as [Hall|Hex].
      + destruct Hno. intros col Hcol%list_elem_of_In.
        apply bool_decide_eq_true_2. by eapply Forall_forall in Hall.
      + apply not_Forall_Exists in Hex; [|apply _].
        by apply Exists_exists in Hex.
    - intros (col & Hcol & Hno) Hall. apply Hno.
      eapply bool_decide_eq_true_1, Hall. by apply list_elem_of_In. }
  destruct (forallb _ required_cols) eqn:Hall.
  - split.
    + intros Hin%mapM_id_None. right. exists fieldnames, rows.
      split; [done|]. by right.
    + intros [?|(f & r & [= <- <-] & [Hcol|Hin])]; [done| |].
      * apply Hcols in Hcol. congruence.
      * by apply mapM_id_None.
  - split; [|done]. intros _. right. exists fieldnames, rows.
    split; [done|]. left. by apply Hcols.
Qed.

(** X5.  [validate_consumer_addresses] reports that it found no data
    exactly when the file was read and no row of it matches the filter
    with its three cells filled.  It raises exactly when the file was
    not read, or when there are such rows and the filter holds no
    hyphen; what it raises is [CommandError], and the store is as
    before.  The file is not read when it cannot be opened or decoded,
    when its header lacks one of the three columns, or when one of its
    rows is too short. *)
Theorem handle_no_data_or_error (file : CsvFile) (filter : string)
    (s : Store) :
  (handle_file upper file filter s = (Ok NoData, s)
   ↔ ∃ df, read_rows file = Some df ∧ deduplicated filter df = [])
  ∧ (∀ e s', handle_file upper file filter s = (Raise e, s')
             ↔ e = CommandError ∧ s' = s
               ∧ (read_rows file = None
                  ∨ ∃ df, read_rows file = Some df
                          ∧ deduplicated filter df ≠ []
                          ∧ hyphen_free filter = true))
  ∧ (read_rows file = None
     ↔ file = Unreadable
       ∨ ∃ fieldnames rows,
           file = Sheet fieldnames rows
           ∧ ((∃ col, col ∈ required_cols ∧ col ∉ fieldnames)
              ∨ None ∈ rows)).
Proof.
  split; [|split; [|apply read_rows_None]].
  - unfold handle_file. destruct (read_rows file) as [df|].
    + rewrite handle_cases. split.
      * intros H. exists df. split; [done|].
        destruct (deduplicated filter df) as [|p ps]; [done|].
        cbv zeta in H. repeat case_match; by simplify_eq.
      * intros (df' & [= <-] & ->). done.
    + split; [done|]. by intros (df & ? & _).
  - intros e s'. unfold handle_file. destruct (read_rows file) as [df|].
    + rewrite handle_cases.
      destruct (AreaCodeFacts.parse_area_code_desc_cases filter "" "")
        as [_ Hraise].
      destruct (deduplicated filter df) as [|p ps] eqn:Hd.
      { split; [done|].
        intros (_ & _ & [?|(df' & [= <-] & Hne & _)]); [done|].
        by rewrite Hd in Hne. }
      destruct (parse_area_code_desc filter) as [[code description]|e0] eqn:Hp.
      * assert (Hh : hyphen_free filter ≠ true).
        { intros Hh.
          by pose proof (proj2 (Hraise CommandError) (conj eq_refl Hh)). }
        unfold find_route, query. simpl fst. split.
        -- intros H. repeat case_match; by simplify_eq.
        -- intros (_ & _ & [?|(df' & _ & _ & ?)]); done.
      * destruct (proj1 (Hraise e0) eq_refl) as [-> Hh]. split.
        -- intros [= <- <-]. split; [done|]. split; [done|]. right.
           exists df. rewrite Hd. by repeat split.
        -- by intros (-> & -> & _).
    + split.
      * intros [= <- <-]. split; [done|]. split; [done|]. by left.
      * by intros (-> & -> & _).
Qed.

(** X6.  On a file that was read and that has rows for the filter,
    when no route carries the code and description of the filter, or
    the route found has no sub-area, the command flags no consumer: it
    reports all consumers of the area as records and no mismatch, as
    if every address were in order. *)
Theorem handle_unknown_route_flags_nobody (file : CsvFile) (df : DataFrame)
    (filter code description : string) (s : Store) :
  read_rows file = Some df →
  deduplicated filter df ≠ [] →
  parse_area_code_desc filter = Ok (code, description) →
  (∀ r, r ∈ routes s → ¬ route_matches code description r)
  ∨ (∃ route, find_route code description s = (Ok (Some route), s)
              ∧ sub_area_names route s = []) →
  handle_file upper file filter s
  = (Ok (Results [] (length (deduplicated filter df))), s).
Proof.
  intros Hread Hne Hparse Hroute.
  rewrite (AddressFacts.handle_file_read upper _ _ _ _ Hread).
  rewrite handle_cases, Hparse.
  destruct (deduplicated filter df) as [|p ps] eqn:Hd; [done|].
  destruct Hroute as [Hnone|(route & Hfind & Hareas)].
  - destruct (find_route_cases code description s)
      as (found & -> & Hfound). simpl.
    destruct found as [route|]; [|done].
    destruct Hfound as (Hin & Hm & _). by destruct (Hnone route Hin).
  - rewrite Hfind. simpl. by rewrite Hareas.
Qed.

(** X7.  When the command reports results, the store is as before, the
    number of records is the number of distinct consumers that match
    the filter, and the flagged consumers are some of these, in file
    order; so the mismatches never exceed the records, and the count
    of matches [total_consumers - mismatch_count] that
    [display_invalid_consumers] prints is never negative. *)
Theorem handle_mismatches_bounded (df : DataFrame) (filter : string)
    (s s' : Store) (all_invalid_consumers : list (string * string))
    (total_consumers : nat) :
  handle upper df filter s
  = (Ok (Results all_invalid_consumers total_consumers), s') →
  s' = s
  ∧ total_consumers = length (deduplicated filter df)
  ∧ all_invalid_consumers `sublist_of` deduplicated filter df
  ∧ (length all_invalid_consumers <= total_consumers)%nat.
Proof.
  rewrite handle_cases. intros H.
  assert (Hgoal : s' = s
          ∧ total_consumers = length (deduplicated filter df)
          ∧ all_invalid_consumers `sublist_of` deduplicated filter df).
  { destruct (deduplicated filter df) as [|p ps] eqn:Hd; [done|].
    cbv zeta in H.
    repeat case_match; simplify_eq; repeat split;
      try apply sublist_nil_l; apply sublist_filter. }
  destruct Hgoal as (-> & -> & Hsub). repeat split; try done.
  by apply sublist_length.
Qed.

End Upper.

(** X8.  The cells are stripped before they are compared with the
    filter, the filter is not: with a filter that is empty, or that
    has blanks around it, [process_csv] keeps no row of the file it
    read, and the command reports that it found no data for every file
    that can be read, whatever the store holds; on a file that cannot
    be read it raises [CommandError] as with any filter. *)
Theorem padded_filter_finds_nothing (filter : string) :
  filter = "" ∨ strip filter ≠ filter →
  (∀ file df,
     read_rows file = Some df → process_csv_file file filter = Some [])
  ∧ ∀ upper file s,
      handle_file upper file filter s
      = (match read_rows file with
         | Some _ => Ok NoData
         | None => Raise CommandError
         end, s).
Proof.
  intros Hfilter.
  assert (Hd : ∀ df, deduplicated filter df = []).
  { intros df. unfold deduplicated.
    assert (Hnone : omap (matching_pair filter) df = []); [|by rewrite Hnone].
    induction df as [|row df IH]; [done|]. simpl.
    destruct (matching_pair filter row) as [p|] eqn:Hp; [|done].
    apply matching_pair_filter in Hp as [? ?]. by destruct Hfilter. }
  split.
  - intros file df Hread. unfold process_csv_file. rewrite Hread.
    by rewrite AddressFacts.process_csv_deduplicated, Hd.
  - intros upper file s. unfold handle_file.
    destruct (read_rows file) as [df|]; [|done].
    by rewrite handle_cases, Hd.
Qed.

Lemma padded_filter_sample :
  (" R001-North Zone" = "" ∨ strip " R001-North Zone" ≠ " R001-North Zone")
  ∧ process_csv_file Cases.usage_file " R001-North Zone" = Some []
  ∧ handle_file upper_ascii Cases.usage_file " R001-North Zone"
      Samples.fresh_store
    = (Ok NoData, Samples.fresh_store).
Proof.
  assert (H : " R001-North Zone" = ""
              ∨ strip " R001-North Zone" ≠ " R001-North Zone")
    by (right; vm_compute; discriminate).
  split; [exact H|].
  destruct (padded_filter_finds_nothing " R001-North Zone" H) as [Hp Hh].
  split.
  - apply (Hp Cases.usage_file Cases.usage_lines). vm_compute. reflexivity.
  - exact (Hh upper_ascii Cases.usage_file Samples.fresh_store).
Defined.

Lemma unknown_route_sample :
  handle_file upper_ascii Cases.south_file "R002-South Zone"
    Samples.fresh_store
  = (Ok (Results [] (length (deduplicated "R002-South Zone"
                               Cases.south_lines))),
     Samples.fresh_store)
  ∧ length (deduplicated "R002-South Zone" Cases.south_lines) = 2%nat.
Proof.
  split; [|vm_compute; reflexivity].
  apply (handle_unknown_route_flags_nobody upper_ascii Cases.south_file
           Cases.south_lines "R002-South Zone" "R002" "South Zone"
           Samples.fresh_store).
  - vm_compute. reflexivity.
  - vm_compute. discriminate.
  - vm_compute. reflexivity.
  - right. exists (2, mkRoute "R002" "South Zone").
    split; vm_compute; reflexivity.
Defined.

(** A short row, or a header the reader did not cut, ends the command
    in [CommandError] before any row is compared with the filter. *)
Lemma unread_files_raise :
  handle_file upper_ascii Cases.short_row_file "R001-North Zone"
    Samples.fresh_store
  = (Raise CommandError, Samples.fresh_store)
  ∧ handle_file upper_ascii Cases.uncut_header_file "R001-North Zone"
      Samples.fresh_store
    = (Raise CommandError, Samples.fresh_store).
Proof. split; vm_compute; reflexivity. Qed.

Lemma mismatches_sample :
  Samples.fresh_store = Samples.fresh_store
  ∧ 3%nat = length (deduplicated "R001-North Zone" Cases.usage_lines)
  ∧ [("C002", "456 Main Street, Hyderabad")]
      `sublist_of` deduplicated "R001-North Zone" Cases.usage_lines
  ∧ (length [("C002", "456 Main Street, Hyderabad")] <= 3)%nat.
Proof.
  apply (handle_mismatches_bounded upper_ascii Cases.usage_lines
           "R001-North Zone" Samples.fresh_store Samples.fresh_store).
  vm_compute. reflexivity.
Defined.

End ValidatorFacts.

(** ** populate_consumers_route, the whole command *)

Module RouteRunFacts.
Import Py Frame Models Db Spec Notions Facts PopulateConsumersRoute.

Lemma staged_consistent (df : DataFrame) (s : Store) :
  consistent (assigned_ids_of s) (staged df s).
Proof.
  apply RouteFacts.run_consistent. repeat split; [constructor|].
  by intros a ?%elem_of_nil.
Qed.

Lemma staged_snoc (df : DataFrame) (row : Row) (s : Store) :
  staged (df ++ [row])%list s
  = stage_row (consumer_map_of s) (route_map_of s) (assigned_ids_of s) row
      (staged df s).
Proof. apply RouteFacts.run_snoc. Qed.

(** One turn of the loop, read through what the row resolves to. *)
Lemma stage_row_resolves (s : Store) (row : Row) (p : Progress) :
  stage_row (consumer_map_of s) (route_map_of s) (assigned_ids_of s) row p
  = match resolves s row with
    | None => skip_missing p
    | Some (consumer, route) =>
        if bool_decide (consumer ∈ assigned_ids_of s)
           || bool_decide (consumer ∈ processed_consumer_ids_in_batch p)
        then skip_assigned p
        else mkProgress
               (assignments_to_create p ++ [mkAssignment consumer route])%list
               ({[consumer]} ∪ processed_consumer_ids_in_batch p)
               (skipped_already_assigned p) (skipped_missing_data p)
    end.
Proof.
  unfold stage_row, resolves.
  destruct (truthy (ConsumerNumber row)); [|done].
  destruct (truthy (AreaCodeDesc row)); [|done]. simpl.
  destruct (consumer_map_of s !! ConsumerNumber row) as [c|]; [|done].
  by destruct (route_map_of s !! area_code_of (AreaCodeDesc row)) as [r|].
Qed.

Lemma head_filter_fst (l : list (Z * Z)) (c : Z) (pr : Z * Z) :
  head (filter (fun pr => fst pr = c) l) = Some pr → fst pr = c ∧ pr ∈ l.
Proof.
  intros Hh. apply head_Some_elem_of in Hh.
  by apply list_elem_of_filter in Hh.
Qed.

(** An assignment is staged for a consumer without one, with the
    route of the first row of the file that resolves for the consumer. *)
Lemma staged_elem (df : DataFrame) (s : Store) (a : ConsumerRouteAssignment) :
  a ∈ assignments_to_create (staged df s)
  ↔ (assignment_consumer_id a ∉ assigned_ids_of s)
    ∧ (first_resolved s df (assignment_consumer_id a)
       = Some (assignment_consumer_id a, assignment_route_id a)).
Proof.
  unfold first_resolved. revert a.
  induction df as [|row df IH] using rev_ind; intros a.
  { simpl. split; [by intros ?%elem_of_nil | by intros [_ ?]]. }
  destruct (staged_consistent df s) as (Hset & Hnd & Hfresh).
  rewrite staged_snoc, stage_row_resolves, omap_app, filter_app. simpl.
  destruct (resolves s row) as [[c r]|] eqn:Hres; simpl.
  2:{ rewrite filter_nil, app_nil_r. apply IH. }
  rewrite filter_cons, filter_nil. simpl.
  destruct (decide (c = assignment_consumer_id a)) as [->|Hne].
  - (* the row resolves to the consumer of [a] *)
    destruct (bool_decide (assignment_consumer_id a ∈ assigned_ids_of s))
      eqn:Ha; simpl.
    { apply bool_decide_eq_true in Ha. rewrite IH. split; by intros [? _]. }
    apply bool_decide_eq_false in Ha.
    destruct (bool_decide (assignment_consumer_id a
                ∈ processed_consumer_ids_in_batch (staged df s))) eqn:Hp.
    + apply bool_decide_eq_true in Hp. simpl. rewrite IH.
      rewrite Hset in Hp. apply elem_of_list_to_set in Hp.
      apply list_elem_of_fmap in Hp as (a' & Heq & Hin').
      apply IH in Hin' as [_ Hhead]. rewrite <- Heq in Hhead.
      destruct (filter _ (omap (resolves s) df)) as [|x l]; [done|]. done.
    + apply bool_decide_eq_false in Hp. simpl.
      assert (Hempty : filter (fun pr => fst pr = assignment_consumer_id a)
                         (omap (resolves s) df) = []).
      { destruct (filter _ (omap (resolves s) df)) as [|[c' r'] l] eqn:Hf;
          [done|]. exfalso. apply Hp. rewrite Hset.
        assert (Hc' : c' = assignment_consumer_id a).
        { assert (Hin : (c', r') ∈ filter
                          (fun pr => fst pr = assignment_consumer_id a)
                          (omap (resolves s) df)) by (rewrite Hf; by left).
          by apply list_elem_of_filter in Hin as [? _]. }
        subst c'. apply elem_of_list_to_set, list_elem_of_fmap.
        exists (mkAssignment (assignment_consumer_id a) r').
        split; [done|]. apply IH. simpl. by rewrite Hf. }
      rewrite Hempty. simpl. rewrite elem_of_app, list_elem_of_singleton.
      split.
      * intros [Hin|Heq].
        -- exfalso. apply Hp. rewrite Hset.
           apply elem_of_list_to_set, list_elem_of_fmap. by exists a.
        -- apply (f_equal assignment_route_id) in Heq. simpl in Heq.
           by rewrite Heq.
      * intros [_ [= ->]]. right. by destruct a.
  - rewrite app_nil_r.
    assert (Hsame : a ∈ assignments_to_create
                        (if bool_decide (c ∈ assigned_ids_of s)
                            || bool_decide
                                 (c ∈ processed_consumer_ids_in_batch
                                        (staged df s))
                         then skip_assigned (staged df s)
                         else mkProgress
                                (assignments_to_create (staged df s)
                                 ++ [mkAssignment c r])%list
                                ({[c]} ∪ processed_consumer_ids_in_batch
                                           (staged df s))
                                (skipped_already_assigned (staged df s))
                                (skipped_missing_data (staged df s)))
                    ↔ a ∈ assignments_to_create (staged df s)).
    { destruct (_ || _); [done|]. simpl.
      rewrite elem_of_app, list_elem_of_singleton. split; [|by left].
      intros [?| ->]; [done|]. by destruct Hne. }
    rewrite Hsame. apply IH.
Qed.

(** X9.  [populate_consumers_route] stages an assignment of a consumer
    to a route exactly when the consumer has no assignment in the
    store yet and the first row of the file that resolves to this
    consumer (both cells filled, the consumer number and the area code
    known) names this route.  Later rows of the consumer, also with
    another route, do not count. *)
Theorem route_of_first_resolving_row (df : DataFrame) (s : Store)
    (a : ConsumerRouteAssignment) :
  a ∈ assignments_to_create (staged df s)
  ↔ (assignment_consumer_id a ∉ assigned_ids_of s)
    ∧ (first_resolved s df (assignment_consumer_id a)
       = Some (assignment_consumer_id a, assignment_route_id a)).
Proof. apply staged_elem. Qed.

Lemma resolves_known (s : Store) (row : Row) (c r : Z) :
  resolves s row = Some (c, r) →
  c ∈ map fst (consumers s) ∧ r ∈ map fst (routes s).
Proof.
  unfold resolves. intros H.
  destruct (truthy (ConsumerNumber row) && truthy (AreaCodeDesc row));
    [|done].
  destruct (consumer_map_of s !! ConsumerNumber row) as [cobj|] eqn:Hc;
    [|done].
  destruct (route_map_of s !! area_code_of (AreaCodeDesc row)) as [robj|]
    eqn:Hr; [|done].
  simplify_eq.
  apply DbFacts.dict_by_lookup in Hc as [Hc _], Hr as [Hr _].
  split; apply list_elem_of_fmap; eauto.
Qed.

Lemma staged_known (df : DataFrame) (s : Store) a :
  a ∈ assignments_to_create (staged df s) →
  assignment_consumer_id a ∈ map fst (consumers s)
  ∧ assignment_route_id a ∈ map fst (routes s).
Proof.
  intros [_ Hh]%staged_elem. unfold first_resolved in Hh.
  apply head_filter_fst in Hh as [_ Hin].
  apply list_elem_of_omap in Hin as (row & _ & Hres).
  by apply resolves_known in Hres.
Qed.

Lemma set_assignments_same (s : Store) : set_assignments (assignments s) s = s.
Proof. by destruct s. Qed.

Lemma assignments_valid_prefix (s : Store) (l1 l2 : list ConsumerRouteAssignment) :
  assignments_valid s (l1 ++ l2) = true → assignments_valid s l1 = true.
Proof.
  unfold assignments_valid, distinct.
  rewrite !andb_true_iff, !bool_decide_eq_true, map_app, forallb_app,
    andb_true_iff.
  intros [Hnd [Hall _]]. split; [|done]. by apply NoDup_app in Hnd as [? _].
Qed.

(** The staged assignments fit a store whose assignments are in order. *)
Lemma staged_valid (df : DataFrame) (s : Store) :
  assignments_valid s (assignments s) = true →
  assignments_valid s (assignments s ++ assignments_to_create (staged df s))
  = true.
Proof.
  unfold assignments_valid, distinct.
  rewrite !andb_true_iff, !bool_decide_eq_true, map_app, forallb_app,
    andb_true_iff.
  intros [Hnd Hall]. destruct (staged_consistent df s) as (_ & Hnd' & Hfresh).
  split; [|split; [done|]].
  - apply NoDup_app. split; [done|]. split; [|done].
    intros x Hx Hx'. apply list_elem_of_fmap in Hx' as (a & -> & Ha).
    apply (Hfresh a Ha). unfold assigned_ids_of, id_set.
    by apply elem_of_list_to_set.
  - apply forallb_forall. intros a Ha%list_elem_of_In.
    apply staged_known in Ha as [Hc Hr].
    by rewrite !bool_decide_eq_true_2.
Qed.

Section Again.
Variables (consumer_map : gmap string (Z * Consumer))
          (route_map : gmap string (Z * Route))
          (assigned later : gset Z).

Lemma stage_row_processed row p :
  processed_consumer_ids_in_batch p
  ⊆ processed_consumer_ids_in_batch
      (stage_row consumer_map route_map assigned row p).
Proof. unfold stage_row. repeat case_match; simpl; set_solver. Qed.

Lemma stage_rows_processed rows p :
  processed_consumer_ids_in_batch p
  ⊆ processed_consumer_ids_in_batch
      (stage_rows consumer_map route_map assigned rows p).
Proof.
  unfold stage_rows. revert p.
  induction rows as [|row rows IH]; intros p; [done|]. simpl.
  etrans; [apply (stage_row_processed row)|apply IH].
Qed.

Lemma stage_row_again row p p' :
  processed_consumer_ids_in_batch
    (stage_row consumer_map route_map assigned row p) ⊆ later →
  counted_again p p' →
  counted_again (stage_row consumer_map route_map assigned row p)
    (stage_row consumer_map route_map (assigned ∪ later) row p').
Proof.
  intros Hlater (Hnone & Hempty & Hmissing & Hassigned).
  unfold stage_row in *.
  destruct (negb (truthy (ConsumerNumber row))
            || negb (truthy (AreaCodeDesc row))).
  { unfold counted_again. simpl. by rewrite Hmissing. }
  destruct (consumer_map !! ConsumerNumber row) as [c|].
  2:{ unfold counted_again. simpl. by rewrite Hmissing. }
  destruct (route_map !! area_code_of (AreaCodeDesc row)) as [r|].
  2:{ unfold counted_again. simpl. by rewrite Hmissing. }
  rewrite Hempty.
  assert (Hseen : fst c ∈ assigned ∪ later).
  { destruct (bool_decide (fst c ∈ assigned)) eqn:Ha.
    - apply bool_decide_eq_true in Ha. set_solver.
    - destruct (bool_decide
                  (fst c ∈ processed_consumer_ids_in_batch p)) eqn:Hp;
        simpl in Hlater.
      + apply bool_decide_eq_true in Hp. set_solver.
      + set_solver. }
  rewrite (bool_decide_eq_true_2 _ Hseen). simpl. unfold counted_again.
  destruct (bool_decide (fst c ∈ assigned)
            || bool_decide (fst c ∈ processed_consumer_ids_in_batch p));
    simpl; rewrite ?length_app; simpl; repeat split; try done; lia.
Qed.

Lemma stage_rows_again rows p p' :
  processed_consumer_ids_in_batch
    (stage_rows consumer_map route_map assigned rows p) ⊆ later →
  counted_again p p' →
  counted_again (stage_rows consumer_map route_map assigned rows p)
    (stage_rows consumer_map route_map (assigned ∪ later) rows p').
Proof.
  unfold stage_rows. revert p p'.
  induction rows as [|row rows IH]; intros p p' Hlater Hp; [done|].
  simpl in *. apply IH; [done|]. apply stage_row_again; [|done].
  etrans; [|apply Hlater]. apply stage_rows_processed.
Qed.

End Again.

Lemma for_each_assignments_ok (batches : list (list ConsumerRouteAssignment))
    (s s' : Store) :
  for_each insert_assignments batches s = (Ok tt, s') →
  s' = set_assignments (assignments s ++ concat batches) s.
Proof.
  revert s. induction batches as [|rows batches IH]; intros s.
  - intros [= <-]. simpl. by rewrite app_nil_r, set_assignments_same.
  - simpl. unfold Db.bind, insert_assignments at 1, insert_checked.
    destruct (negb (forallb _ rows)); [done|].
    destruct (assignments_valid s (assignments s ++ rows)); [|done].
    intros ->%IH. simpl. by rewrite app_assoc.
Qed.

Lemma for_each_assignments_valid
    (batches : list (list ConsumerRouteAssignment)) (s : Store) :
  assignments_valid s (assignments s ++ concat batches) = true →
  for_each insert_assignments batches s
  = (Ok tt, set_assignments (assignments s ++ concat batches) s).
Proof.
  revert s. induction batches as [|rows batches IH]; intros s Hvalid.
  - simpl. by rewrite app_nil_r, set_assignments_same.
  - simpl in *. unfold Db.bind, insert_assignments at 1, insert_checked.
    assert (Hrows : forallb (fun _ : ConsumerRouteAssignment => true) rows
                    = true) by (by apply forallb_forall).
    rewrite Hrows. simpl. rewrite app_assoc in Hvalid.
    rewrite (assignments_valid_prefix _ _ _ Hvalid).
    rewrite IH; simpl; [by rewrite app_assoc|done].
Qed.

Lemma handle_unfold (df : DataFrame) (s : Store) :
  handle df s
  = match assignments_to_create (staged df s) with
    | [] => (Ok (summary_of df (staged df s)), s)
    | objs =>
        match bulk_create insert_assignments objs batch_size s with
        | (Ok _, s') => (Ok (summary_of df (staged df s)), s')
        | (Raise _, _) => (Ok (summary_of df (staged df s)), s)
        end
    end.
Proof.
  unfold handle, atomic, Db.bind, query, try_bulk_create, ret, summary_of.
  destruct (assignments_to_create (staged df s)) as [|a l]; [done|].
  by destruct (bulk_create insert_assignments (a :: l) batch_size s)
    as [[[]|e] s'].
Qed.

Lemma batch_size_pos : (0 < batch_size)%nat.
Proof. unfold batch_size. lia. Qed.

Lemma handle_returns (df : DataFrame) (s : Store) :
  ∃ s', handle df s = (Ok (summary_of df (staged df s)), s')
        ∧ (s' = s
           ∨ s' = set_assignments
                    (assignments s ++ assignments_to_create (staged df s)) s).
Proof.
  rewrite handle_unfold.
  destruct (assignments_to_create (staged df s)) as [|a l] eqn:Hobjs; [eauto|].
  destruct (bulk_create insert_assignments (a :: l) batch_size s)
    as [[[]|e] s'] eqn:Hbulk; [|eauto].
  exists s'. split; [done|]. right.
  apply for_each_assignments_ok in Hbulk.
  by rewrite (DbFacts.chunks_concat _ _ batch_size_pos) in Hbulk.
Qed.

(** X10.  [populate_consumers_route] never raises on a file it could
    read: it returns its summary, with the count of the assignments
    it staged as the count of the assignments created, and the store
    is either the one the run started with (nothing staged, or the
    insert refused and the error swallowed) or that store with the
    staged assignments appended. *)
Theorem handle_always_returns (df : DataFrame) (s : Store) :
  ∃ s', handle df s = (Ok (summary_of df (staged df s)), s')
        ∧ (s' = s
           ∨ s' = set_assignments
                    (assignments s ++ assignments_to_create (staged df s)) s).
Proof. apply handle_returns. Qed.

Lemma handle_valid (df : DataFrame) (s : Store) :
  assignments_valid s (assignments s) = true →
  handle df s
  = (Ok (summary_of df (staged df s)),
     set_assignments
       (assignments s ++ assignments_to_create (staged df s)) s).
Proof.
  intros Hvalid. rewrite handle_unfold.
  pose proof (staged_valid df s Hvalid) as Hstaged.
  destruct (assignments_to_create (staged df s)) as [|a l] eqn:Hobjs.
  { by rewrite app_nil_r, set_assignments_same. }
  unfold bulk_create. rewrite for_each_assignments_valid;
    rewrite (DbFacts.chunks_concat _ _ batch_size_pos); done.
Qed.

(** X11.  When the assignments of the store are in order (one per
    consumer, each naming a consumer and a route of the store), the
    insert of a run of [populate_consumers_route] is never refused:
    the staged assignments are appended, and the assignments of the
    resulting store are in order again. *)
Theorem handle_keeps_store_valid (df : DataFrame) (s : Store) :
  assignments_valid s (assignments s) = true →
  ∃ s', handle df s = (Ok (summary_of df (staged df s)), s')
        ∧ assignments s'
          = (assignments s ++ assignments_to_create (staged df s))%list
        ∧ assignments_valid s' (assignments s') = true.
Proof.
  intros Hvalid.
  exists (set_assignments
            (assignments s ++ assignments_to_create (staged df s)) s).
  split; [by apply handle_valid|].
  split; [done|]. exact (staged_valid df s Hvalid).
Qed.

Lemma staged_again (df : DataFrame) (s s' : Store) :
  consumers s' = consumers s → routes s' = routes s →
  assignments s'
  = (assignments s ++ assignments_to_create (staged df s))%list →
  counted_again (staged df s) (staged df s').
Proof.
  intros Hc Hr Ha. unfold staged, consumer_map_of, route_map_of.
  rewrite Hc, Hr.
  destruct (staged_consistent df s) as (Hset & _ & _).
  assert (Hids : assigned_ids_of s'
                 = assigned_ids_of s
                   ∪ processed_consumer_ids_in_batch (staged df s)).
  { unfold assigned_ids_of, id_set.
    by rewrite Ha, map_app, list_to_set_app_L, Hset. }
  rewrite Hids. by apply stage_rows_again.
Qed.

(** X12.  After a run of [populate_consumers_route] whose insert went
    through, a second run on the same file creates nothing and leaves
    the store as it is; it counts as already assigned the rows the
    first run counted so plus the rows whose assignments the first run
    created, and the same rows as before as missing data. *)
Theorem second_run_assigns_nothing (df : DataFrame) (s s' : Store)
    (summary : Summary) :
  handle df s = (Ok summary, s') →
  assignments s'
  = (assignments s ++ assignments_to_create (staged df s))%list →
  handle df s'
  = (Ok (mkSummary (length df) 0
           (rows_already_assigned summary + assignments_created summary)
           (rows_missing_data summary)), s').
Proof.
  intros Hrun Ha.
  destruct (handle_returns df s) as (s1 & Hrun' & Hs1).
  rewrite Hrun in Hrun'. injection Hrun' as Hsum Hs'. subst s1 summary.
  assert (Hagain : counted_again (staged df s) (staged df s')).
  { apply staged_again; [| |done]; by destruct Hs1 as [->| ->]. }
  destruct Hagain as (Hnone & _ & Hmissing & Hassigned).
  rewrite handle_unfold, Hnone. unfold summary_of.
  rewrite Hnone, Hmissing, Hassigned. done.
Qed.

Lemma second_run_assigns_nothing_sample :
  handle Cases.route_lines
    (set_assignments [mkAssignment 1 1; mkAssignment 2 2]
       Samples.unassigned_store)
  = (Ok (mkSummary 3 0 3 0),
     set_assignments [mkAssignment 1 1; mkAssignment 2 2]
       Samples.unassigned_store).
Proof.
  apply (second_run_assigns_nothing Cases.route_lines
           Samples.unassigned_store
           (set_assignments [mkAssignment 1 1; mkAssignment 2 2]
              Samples.unassigned_store)
           (mkSummary 3 2 1 0)).
  - vm_compute. reflexivity.
  - vm_compute. reflexivity.
Defined.

Lemma handle_keeps_store_valid_sample :
  ∃ s', handle Cases.route_lines Samples.unassigned_store
        = (Ok (summary_of Cases.route_lines
                 (staged Cases.route_lines Samples.unassigned_store)), s')
        ∧ assignments s'
          = (assignments Samples.unassigned_store
             ++ assignments_to_create
                  (staged Cases.route_lines Samples.unassigned_store))%list
        ∧ assignments_valid s' (assignments s') = true.
Proof.
  apply (handle_keeps_store_valid Cases.route_lines
           Samples.unassigned_store).
  vm_compute. reflexivity.
Defined.

End RouteRunFacts.

(** ** populate_consumers, what step 5 stages *)

Module ChildFacts.
Import Py Frame Models Db Spec Notions Facts PopulateConsumers.

Lemma prepare_rows_app pre cm (l1 l2 : list Row) b :
  prepare_rows pre cm (l1 ++ l2)%list b
  = (b1 <- prepare_rows pre cm l1 b ;; prepare_rows pre cm l2 b1)%py.
Proof.
  revert b. induction l1 as [|row l1 IH]; intros b; [done|].
  simpl. destruct (prepare_row pre cm row b) as [b1|e]; [|done].
  simpl. apply IH.
Qed.

Lemma prepare_rows_snoc pre cm (rows : list Row) row b b' :
  prepare_rows pre cm (rows ++ [row])%list b = Ok b' →
  ∃ b1, prepare_rows pre cm rows b = Ok b1
        ∧ prepare_row pre cm row b1 = Ok b'.
Proof.
  rewrite prepare_rows_app.
  destruct (prepare_rows pre cm rows b) as [b1|e]; [|done]. simpl.
  destruct (prepare_row pre cm row b1) as [b2|e] eqn:Hrow; [|done]. simpl.
  intros [= <-]. by exists b1.
Qed.

Lemma first_rows_snoc (col : Row -> string) (known : gset string)
    (df : list Row) (row : Row) :
  first_rows col known (df ++ [row])%list
  = (first_rows col known df
     ++ if bool_decide ((col row ∉ known)
                         ∧ (col row ∉ map col (first_rows col known df)))
        then [row] else [])%list.
Proof.
  unfold first_rows. rewrite filter_app, filter_cons, filter_nil.
  destruct (decide (col row ∉ known)) as [Hnew|Hold].
  - rewrite drop_duplicates_snoc.
    assert (Hiff : col row ∈ map col (filter (fun r => col r ∉ known) df)
                   ↔ ¬ ((col row ∉ known)
                        ∧ (col row ∉ map col (drop_duplicates col
                                     (filter (fun r => col r ∉ known) df))))).
    { rewrite keys_drop_duplicates. split; [tauto|].
      intros Hn. destruct (decide (col row ∈ map col
                   (filter (fun r => col r ∉ known) df))); tauto. }
    destruct (decide (col row ∈ map col (filter (fun r => col r ∉ known) df)))
      as [Hin|Hnin].
    + rewrite (bool_decide_eq_true_2 _ Hin).
      rewrite bool_decide_eq_false_2; [done|]. by apply Hiff.
    + rewrite (bool_decide_eq_false_2 _ Hnin).
      rewrite bool_decide_eq_true_2; [done|]. split; [done|].
      by rewrite keys_drop_duplicates.
  - rewrite app_nil_r. rewrite bool_decide_eq_false_2; [|tauto].
    by rewrite app_nil_r.
Qed.

Lemma prepare_variant_effect (s : Store) (row : Row) (b b' : Batch) :
  prepare_variant (prefetch s) row b = Ok b' →
  addresses_to_create b' = addresses_to_create b
  ∧ contacts_to_create b' = contacts_to_create b
  ∧ connections_to_create b' = connections_to_create b
  ∧ sv_numbers_in_batch b' = sv_numbers_in_batch b
  ∧ new_consumer_numbers b' = new_consumer_numbers b
  ∧ if bool_decide (ProdCode row ≠ ""
                    ∧ (ProdCode row ∉ existing_variant_codes (prefetch s))
                    ∧ (ProdCode row ∉ map fst (variants_to_create b)))
    then ∃ v, variants_to_create b'
              = (variants_to_create b ++ [(ProdCode row, v)])%list
              ∧ variant_from_row s row v
    else variants_to_create b' = variants_to_create b.
Proof.
  unfold prepare_variant, has_key.
  destruct (decide (ProdCode row ≠ ""
                    ∧ (ProdCode row ∉ existing_variant_codes (prefetch s))
                    ∧ (ProdCode row ∉ map fst (variants_to_create b))))
    as [Hyes|Hno].
  - rewrite (bool_decide_eq_true_2 _ Hyes).
    destruct Hyes as (Hne & Hnew & Hfresh).
    apply mem_false in Hnew. rewrite Hnew.
    rewrite (bool_decide_eq_false_2 _ Hfresh).
    destruct (ProdCode row) as [|c code] eqn:Hcode; [done|]. simpl.
    destruct (float (NoOfCylinder row)) as [variant_size|e] eqn:Hsize;
      [|done]. simpl. intros [= <-]. simpl. repeat split; try done.
    eexists. split; [done|]. unfold variant_from_row. simpl.
    rewrite Hcode.
    split; [done|]. split; [done|]. split; [|split; [|done]].
    + destruct (dict_by name (Models.consumer_types s)
                  !! ConsumerTypeIdDesc row) as [ct|] eqn:Hct.
      * apply DbFacts.dict_by_lookup in Hct as [Hin Hk].
        case_bool_decide as Hname.
        -- split; [intros _|done]. split; [congruence|].
           apply list_elem_of_fmap. by exists ct.
        -- split; [done|]. intros [Hdom _]. congruence.
      * split; [done|]. intros [Hdom Hreg].
        apply (DbFacts.dict_by_is_Some name) in Hreg as [ct Hct'].
        rewrite Hdom in Hct. congruence.
    + by destruct (match dict_by name (Models.consumer_types s)
                           !! ConsumerTypeIdDesc row with
                   | Some ct => _ | None => _ end).
  - rewrite (bool_decide_eq_false_2 _ Hno).
    assert (Hskip : truthy (ProdCode row)
                    && negb (mem (ProdCode row)
                               (existing_variant_codes (prefetch s)))
                    && negb (bool_decide
                               (ProdCode row
                                ∈ map fst (variants_to_create b))) = false).
    { destruct (truthy (ProdCode row)) eqn:Ht; [|done].
      destruct (mem (ProdCode row) (existing_variant_codes (prefetch s)))
        eqn:Hm; [done|]. apply mem_false in Hm.
      case_bool_decide as Hk; [done|]. destruct Hno.
      split; [|done]. intros Hblank. by rewrite Hblank in Ht. }
    rewrite Hskip. by intros [= <-].
Qed.

Lemma prepare_connection_effect (s : Store) (t : Table Consumer)
    (consumer_obj : Z * Consumer) (row : Row) (b b' : Batch) :
  consumer_obj ∈ t →
  consumer_number (snd consumer_obj) = ConsumerNumber row →
  prepare_connection (prefetch s) consumer_obj row b = Ok b' →
  addresses_to_create b' = addresses_to_create b
  ∧ contacts_to_create b' = contacts_to_create b
  ∧ variants_to_create b' = variants_to_create b
  ∧ new_consumer_numbers b' = new_consumer_numbers b
  ∧ if bool_decide ((SvNumber row ∉ existing_connection_nums (prefetch s))
                    ∧ (SvNumber row ∉ sv_numbers_in_batch b))
    then ∃ conn, connections_to_create b'
                 = (connections_to_create b ++ [conn])%list
                 ∧ sv_numbers_in_batch b'
                   = {[SvNumber row]} ∪ sv_numbers_in_batch b
                 ∧ connection_from_row s t row conn
                 ∧ connection_product conn = None
    else connections_to_create b' = connections_to_create b
         ∧ sv_numbers_in_batch b' = sv_numbers_in_batch b.
Proof.
  intros Hin Hnum. unfold prepare_connection.
  destruct (decide ((SvNumber row ∉ existing_connection_nums (prefetch s))
                    ∧ (SvNumber row ∉ sv_numbers_in_batch b)))
    as [Hyes|Hno].
  - rewrite (bool_decide_eq_true_2 _ Hyes). destruct Hyes as [Hnew Hfresh].
    apply mem_false in Hnew, Hfresh. rewrite Hnew, Hfresh. simpl.
    destruct (truthy (SvDateInt row)) eqn:Hdate.
    + destruct (strptime_date (SvDateInt row)) as [d|e] eqn:Hd; [|done].
      simpl. destruct (int (NoOfDpr row)) as [regulators|e] eqn:Hr; [|done].
      simpl. intros [= <-]. simpl. repeat split; try done.
      eexists. split; [done|]. split; [done|]. split; [|done].
      unfold connection_from_row. simpl. rewrite Hdate.
      repeat split; try done; [|by exists d].
      exists (snd consumer_obj). by destruct consumer_obj.
    + simpl. destruct (int (NoOfDpr row)) as [regulators|e] eqn:Hr; [|done].
      simpl. intros [= <-]. simpl. repeat split; try done.
      eexists. split; [done|]. split; [done|]. split; [|done].
      unfold connection_from_row. simpl. rewrite Hdate.
      repeat split; try done.
      exists (snd consumer_obj). by destruct consumer_obj.
  - rewrite (bool_decide_eq_false_2 _ Hno).
    assert (Hskip : negb (mem (SvNumber row)
                            (existing_connection_nums (prefetch s)))
                    && negb (mem (SvNumber row) (sv_numbers_in_batch b))
                    = false).
    { destruct (mem (SvNumber row) (existing_connection_nums (prefetch s)))
        eqn:Hm; [done|]. simpl. apply mem_false in Hm.
      destruct (mem (SvNumber row) (sv_numbers_in_batch b)) eqn:Hm2; [done|].
      apply mem_false in Hm2. by destruct Hno. }
    rewrite Hskip. by intros [= <-].
Qed.

Lemma Forall2_snoc_if {A C} (R : A -> C -> Prop) (l : list A) (k : list C)
    (x : A) (cond : bool) (k' : list C) :
  Forall2 R l k →
  (if cond then ∃ y, k' = (k ++ [y])%list ∧ R x y else k' = k) →
  Forall2 R (l ++ if cond then [x] else [])%list k'.
Proof.
  intros Hl Hk. destruct cond.
  - destruct Hk as (y & -> & Hy). apply Forall2_app; [done|].
    by repeat constructor.
  - subst k'. by rewrite app_nil_r.
Qed.

Lemma Forall2_keys {A C} (R : A -> C -> Prop) (f : A -> string)
    (g : C -> string) (l : list A) (k : list C) :
  (∀ x y, R x y → g y = f x) → Forall2 R l k → map g k = map f l.
Proof.
  intros HR Hl. induction Hl as [|x y l k Hxy _ IH]; [done|].
  simpl. by rewrite IH, (HR x y Hxy).
Qed.

Section Staged.
Variables (s : Store) (t : Table Consumer).

Abbreviation cm := (dict_by (fun c => consumer_number (snd c)) t).

(** What step 5 has staged after the rows of a file, for the set of
    consumer numbers step 2 handed over: the children of the first row
    of each of these consumers, a variant for the first row of each new
    product code, a connection for the first row of each new connection
    number. *)
Lemma prepare_rows_staged (rows : list Row) (new_numbers : gset string)
    (b : Batch) :
  (∀ row, row ∈ rows → is_Some (cm !! ConsumerNumber row)) →
  prepare_rows (prefetch s) cm rows (mkBatch [] [] [] [] ∅ new_numbers)
  = Ok b →
  Forall2 (address_from_row s t)
    (filter (fun r => ConsumerNumber r ∈ new_numbers)
       (drop_duplicates ConsumerNumber rows))
    (addresses_to_create b)
  ∧ Forall2 (contact_from_row s t)
      (filter (fun r => ConsumerNumber r ∈ new_numbers)
         (drop_duplicates ConsumerNumber rows))
      (contacts_to_create b)
  ∧ new_consumer_numbers b
    = new_numbers ∖ list_to_set (map ConsumerNumber rows)
  ∧ Forall2 (fun row kv => fst kv = ProdCode row
                           ∧ variant_from_row s row (snd kv))
      (first_rows ProdCode (existing_variant_codes (prefetch s))
         (where_nonblank ProdCode rows))
      (variants_to_create b)
  ∧ Forall2 (fun row conn => connection_from_row s t row conn
                             ∧ connection_product conn = None)
      (first_rows SvNumber (existing_connection_nums (prefetch s)) rows)
      (connections_to_create b)
  ∧ sv_numbers_in_batch b
    = list_to_set
        (map SvNumber
           (first_rows SvNumber (existing_connection_nums (prefetch s))
              rows)).
Proof.
  revert b. induction rows as [|row rows IH] using rev_ind; intros b Hcm.
  { intros [= <-]. simpl. repeat split; try constructor. set_solver. }
  intros (b0 & Hrows & Hrow)%prepare_rows_snoc.
  destruct (IH b0) as (Ha & Hk & Hn & Hv & Hc & Hs); [|done|].
  { intros r Hr. apply Hcm, elem_of_app. by left. }
  clear IH Hrows.
  destruct (Hcm row) as [consumer_obj Hobj];
    [apply elem_of_app; right; by left|].
  unfold prepare_row in Hrow. rewrite Hobj in Hrow.
  apply DbFacts.dict_by_lookup in Hobj as [Hin Hnum].
  destruct (prepare_variant (prefetch s) row
              (prepare_children (prefetch s) consumer_obj row b0))
    as [b2|e] eqn:Hvar; [|done]. simpl in Hrow.
  apply prepare_variant_effect in Hvar
    as (Hva & Hvk & Hvc & Hvs & Hvn & Hvv).
  apply (prepare_connection_effect s t) in Hrow
    as (Hca & Hck & Hcv & Hcn & Hcc); [|done|done].
  rewrite Hca, Hva, Hck, Hvk, Hcn, Hvn, Hcv. clear Hca Hva Hck Hvk Hcn Hvn Hcv.
  rewrite Hvs, Hvc in Hcc. clear Hvs Hvc.
  rewrite (proj1 (RerunFacts.prepare_children_same _ _ _ _)) in Hvv.
  rewrite (proj1 (proj2 (RerunFacts.prepare_children_same _ _ _ _))),
    (proj2 (proj2 (RerunFacts.prepare_children_same _ _ _ _))) in Hcc.
  (* children *)
  assert (Hchildren :
    let fresh := bool_decide (ConsumerNumber row ∈ new_numbers)
                 && negb (bool_decide
                            (ConsumerNumber row ∈ map ConsumerNumber rows)) in
    (if fresh
     then ∃ a, addresses_to_create
                 (prepare_children (prefetch s) consumer_obj row b0)
               = (addresses_to_create b0 ++ [a])%list
               ∧ address_from_row s t row a
     else addresses_to_create
            (prepare_children (prefetch s) consumer_obj row b0)
          = addresses_to_create b0)
    ∧ (if fresh
       then ∃ k, contacts_to_create
                   (prepare_children (prefetch s) consumer_obj row b0)
                 = (contacts_to_create b0 ++ [k])%list
                 ∧ contact_from_row s t row k
       else contacts_to_create
              (prepare_children (prefetch s) consumer_obj row b0)
            = contacts_to_create b0)
    ∧ new_consumer_numbers
        (prepare_children (prefetch s) consumer_obj row b0)
      = new_numbers ∖ list_to_set (map ConsumerNumber (rows ++ [row]))).
  { unfold prepare_children. rewrite Hnum, Hn.
    destruct (decide (ConsumerNumber row ∈ new_numbers)) as [Hnew|Hold];
      destruct (decide (ConsumerNumber row ∈ map ConsumerNumber rows))
        as [Hseen|Hfirst].
    - rewrite (bool_decide_eq_true_2 _ Hnew), (bool_decide_eq_true_2 _ Hseen).
      assert (Hm : mem (ConsumerNumber row)
                     (new_numbers ∖ list_to_set (map ConsumerNumber rows))
                   = false).
      { apply mem_false. rewrite elem_of_difference, elem_of_list_to_set.
        tauto. }
      rewrite Hm. simpl. repeat split; try done.
      rewrite Hn, map_app, list_to_set_app_L. simpl.
      assert (Hset : ConsumerNumber row
                     ∈ (list_to_set (map ConsumerNumber rows) : gset string))
        by (by apply elem_of_list_to_set).
      set_solver.
    - rewrite (bool_decide_eq_true_2 _ Hnew),
        (bool_decide_eq_false_2 _ Hfirst).
      assert (Hm : mem (ConsumerNumber row)
                     (new_numbers ∖ list_to_set (map ConsumerNumber rows))
                   = true).
      { apply mem_true. rewrite elem_of_difference, elem_of_list_to_set.
        tauto. }
      rewrite Hm. simpl. split; [|split].
      + eexists. split; [done|]. repeat split; try done.
        exists (snd consumer_obj). by destruct consumer_obj.
      + eexists. split; [done|]. repeat split; try done.
        exists (snd consumer_obj). by destruct consumer_obj.
      + rewrite map_app, list_to_set_app_L. simpl. set_solver.
    - rewrite (bool_decide_eq_false_2 _ Hold).
      assert (Hm : mem (ConsumerNumber row)
                     (new_numbers ∖ list_to_set (map ConsumerNumber rows))
                   = false).
      { apply mem_false. rewrite elem_of_difference. tauto. }
      rewrite Hm. simpl. repeat split; try done.
      rewrite Hn, map_app, list_to_set_app_L. simpl. set_solver.
    - rewrite (bool_decide_eq_false_2 _ Hold).
      assert (Hm : mem (ConsumerNumber row)
                     (new_numbers ∖ list_to_set (map ConsumerNumber rows))
                   = false).
      { apply mem_false. rewrite elem_of_difference. tauto. }
      rewrite Hm. simpl. repeat split; try done.
      rewrite Hn, map_app, list_to_set_app_L. simpl. set_solver. }
  cbv zeta in Hchildren. destruct Hchildren as (Hca & Hck & Hcn).
  assert (Hdd : filter (fun r => ConsumerNumber r ∈ new_numbers)
                  (drop_duplicates ConsumerNumber (rows ++ [row]))
                = (filter (fun r => ConsumerNumber r ∈ new_numbers)
                     (drop_duplicates ConsumerNumber rows)
                   ++ if bool_decide (ConsumerNumber row ∈ new_numbers)
                         && negb (bool_decide
                                    (ConsumerNumber row
                                     ∈ map ConsumerNumber rows))
                      then [row] else [])%list).
  { rewrite drop_duplicates_snoc, filter_app.
    destruct (bool_decide (ConsumerNumber row ∈ map ConsumerNumber rows));
      simpl; [by rewrite andb_false_r|].
    rewrite andb_true_r, filter_cons, filter_nil.
    destruct (decide (ConsumerNumber row ∈ new_numbers)) as [Hnew|Hold].
    - by rewrite (bool_decide_eq_true_2 _ Hnew).
    - by rewrite (bool_decide_eq_false_2 _ Hold). }
  split; [|split; [|split; [|split; [|split]]]].
  - rewrite Hdd. eapply Forall2_snoc_if; [exact Ha|exact Hca].
  - rewrite Hdd. eapply Forall2_snoc_if; [exact Hk|exact Hck].
  - done.
  - (* variants *)
    pose proof (Forall2_keys _ ProdCode fst _ _
                  (fun x y H => proj1 H) Hv) as Hkeys.
    unfold where_nonblank in *. rewrite filter_app, filter_cons, filter_nil.
    destruct (decide (ProdCode row ≠ "")) as [Hcode|Hblank].
    + rewrite first_rows_snoc.
      eapply Forall2_snoc_if; [exact Hv|].
      rewrite <- Hkeys.
      destruct (decide ((ProdCode row ∉ existing_variant_codes (prefetch s))
                        ∧ (ProdCode row ∉ map fst (variants_to_create b0))))
        as [Hyes|Hno].
      * rewrite (bool_decide_eq_true_2 _ Hyes).
        rewrite bool_decide_eq_true_2 in Hvv by tauto.
        destruct Hvv as (v & Hv' & Hfrom). by exists (ProdCode row, v).
      * rewrite (bool_decide_eq_false_2 _ Hno).
        rewrite bool_decide_eq_false_2 in Hvv by tauto. done.
    + rewrite app_nil_r. rewrite bool_decide_eq_false_2 in Hvv by tauto.
      by rewrite Hvv.
  - (* connections *)
    rewrite first_rows_snoc. eapply Forall2_snoc_if; [exact Hc|].
    destruct (decide ((SvNumber row ∉ existing_connection_nums (prefetch s))
                      ∧ (SvNumber row ∉ sv_numbers_in_batch b0)))
      as [Hyes|Hno].
    + rewrite (bool_decide_eq_true_2 _ Hyes) in Hcc.
      rewrite Hs, elem_of_list_to_set in Hyes.
      rewrite (bool_decide_eq_true_2 _ Hyes).
      destruct Hcc as (conn & Hconn & _ & Hfrom & Hnone). by exists conn.
    + rewrite (bool_decide_eq_false_2 _ Hno) in Hcc.
      rewrite Hs, elem_of_list_to_set in Hno.
      rewrite (bool_decide_eq_false_2 _ Hno). by destruct Hcc.
  - rewrite first_rows_snoc, map_app, list_to_set_app_L, <- Hs.
    destruct (decide ((SvNumber row ∉ existing_connection_nums (prefetch s))
                      ∧ (SvNumber row ∉ sv_numbers_in_batch b0)))
      as [Hyes|Hno].
    + rewrite (bool_decide_eq_true_2 _ Hyes) in Hcc.
      rewrite Hs, elem_of_list_to_set in Hyes.
      rewrite (bool_decide_eq_true_2 _ Hyes).
      destruct Hcc as (conn & _ & -> & _). simpl. set_solver.
    + rewrite (bool_decide_eq_false_2 _ Hno) in Hcc.
      rewrite Hs, elem_of_list_to_set in Hno.
      rewrite (bool_decide_eq_false_2 _ Hno).
      destruct Hcc as [_ ->]. simpl. set_solver.
Qed.

End Staged.

Lemma drop_duplicates_from_absent {A} (key : A -> string) (k : string)
    (seen : gset string) (l : list A) :
  k ∉ map key l →
  drop_duplicates_from key ({[k]} ∪ seen) l = drop_duplicates_from key seen l.
Proof.
  revert seen. induction l as [|x l IH]; intros seen Hk; [done|].
  simpl in *. apply not_elem_of_cons in Hk as [Hx Hk].
  destruct (mem (key x) seen) eqn:Hm.
  - apply mem_true in Hm.
    assert (Hm' : mem (key x) ({[k]} ∪ seen) = true)
      by (apply mem_true; set_solver).
    rewrite Hm'. by apply IH.
  - apply mem_false in Hm.
    assert (Hm' : mem (key x) ({[k]} ∪ seen) = false)
      by (apply mem_false; set_solver).
    rewrite Hm'. f_equal.
    replace ({[key x]} ∪ ({[k]} ∪ seen)) with ({[k]} ∪ ({[key x]} ∪ seen))
      by set_solver.
    by apply IH.
Qed.

(** Leaving out the known keys before or after the duplicates are
    dropped gives the same rows. *)
Lemma unknown_first_rows (known : gset string) (df : list Row) :
  unknown_consumers known (drop_duplicates ConsumerNumber df)
  = first_rows ConsumerNumber known df.
Proof.
  unfold unknown_consumers, first_rows, drop_duplicates.
  generalize (∅ : gset string) as seen.
  induction df as [|r df IH]; intros seen; [done|].
  simpl. rewrite filter_cons.
  destruct (decide (ConsumerNumber r ∉ known)) as [Hnew|Hold].
  - simpl. destruct (mem (ConsumerNumber r) seen); [apply IH|].
    rewrite filter_cons. rewrite decide_True by done. f_equal. apply IH.
  - destruct (mem (ConsumerNumber r) seen); [apply IH|].
    rewrite filter_cons. rewrite decide_False by done.
    rewrite IH. apply drop_duplicates_from_absent.
    intros (r' & Hr' & Hin)%list_elem_of_fmap.
    apply list_elem_of_filter in Hin as [Hin _]. by rewrite <- Hr' in Hin.
Qed.

Lemma filter_ext_elem {A} (P Q : A -> Prop) `{∀ x, Decision (P x)}
    `{∀ x, Decision (Q x)} (l : list A) :
  (∀ x, x ∈ l → P x ↔ Q x) → filter P l = filter Q l.
Proof.
  induction l as [|x l IH]; intros Hl; [done|].
  rewrite !filter_cons.
  rewrite IH by (intros y Hy; apply Hl; by right).
  destruct (decide (P x)) as [HP|HP], (decide (Q x)) as [HQ|HQ]; try done.
  - destruct HQ. apply Hl; [by left|done].
  - destruct HP. apply Hl; [by left|done].
Qed.

Lemma link_products_keeps (df : DataFrame) vm (conns conns' : list ConnectionDetails) :
  link_products df vm conns = Ok conns' →
  Forall2 (fun conn conn' =>
             consumer_id conn' = consumer_id conn
             ∧ sv_number conn' = sv_number conn
             ∧ sv_date conn' = sv_date conn
             ∧ connection_type conn' = connection_type conn
             ∧ hist_code_description conn' = hist_code_description conn
             ∧ num_of_regulators conn' = num_of_regulators conn)
    conns conns'.
Proof.
  revert conns'. induction conns as [|conn conns IH]; intros conns'; simpl.
  - intros [= <-]. constructor.
  - unfold link_product.
    destruct (first_where SvNumber ProdCode (sv_number conn) df)
      as [code|e]; [|done]. simpl.
    destruct (link_products df vm conns) as [cs|e]; [|done]. simpl.
    intros [= <-]. constructor; [done|]. by apply IH.
Qed.

Section Run.
Context {B : Backend}.

(** After step 3 the consumer of every row of the file is in the
    store. *)
Lemma consumer_map_covers (df : DataFrame) (s s_a : Store)
    (cands : list Consumer) (nums : gset string) :
  stage_consumers (prefetch s) (drop_duplicates ConsumerNumber df) [] ∅
  = Ok (cands, nums) →
  bulk_create insert_consumers cands batch_size s = (Ok tt, s_a) →
  (∀ row, row ∈ df →
     is_Some (dict_by (fun c => consumer_number (snd c)) (consumers s_a)
                !! ConsumerNumber row))
  ∧ map consumer_number cands
    = map ConsumerNumber
        (first_rows ConsumerNumber (existing_consumer_nums (prefetch s)) df)
  ∧ nums = list_to_set (map consumer_number cands).
Proof.
  intros Hstage Hcons.
  apply DbFacts.bulk_create_consumers in Hcons as (tc & -> & Htc & _).
  specialize (Htc eq_refl). simpl.
  apply StagingFacts.stage_consumers_shape in Hstage as (cs & -> & Hcs & ->).
  rewrite app_nil_l in *.
  assert (Hnums : map consumer_number cs
                  = map ConsumerNumber
                      (first_rows ConsumerNumber
                         (existing_consumer_nums (prefetch s)) df)).
  { rewrite <- unknown_first_rows. clear -Hcs.
    induction Hcs as [|r c rs cs' Hc _ IH]; [done|].
    simpl. by rewrite IH, (StagingFacts.new_consumer_number _ _ _ Hc). }
  split; [|split; [done|set_solver]].
  intros row Hrow. apply DbFacts.dict_by_is_Some.
  assert (Hin : ConsumerNumber row ∈ map consumer_number (map snd tc)).
  { rewrite Htc, map_app. apply elem_of_app.
    destruct (decide (ConsumerNumber row
                      ∈ existing_consumer_nums (prefetch s))) as [Hex|Hnew].
    - left. by apply RerunFacts.elem_of_value_set in Hex.
    - right. rewrite Hnums. unfold first_rows.
      apply keys_drop_duplicates, list_elem_of_fmap. exists row.
      split; [done|]. by apply list_elem_of_filter. }
  rewrite <- list_fmap_compose in Hin. exact Hin.
Qed.

(** A run that completed, seen from its last line. *)
Lemma handle_staged (df : DataFrame) (s s' : Store) (st : Staged) :
  handle df s = (Ok st, s') →
  ∃ nums b,
    prepare_rows (prefetch s)
      (dict_by (fun c => consumer_number (snd c)) (consumers s')) df
      (mkBatch [] [] [] [] ∅ nums) = Ok b
    ∧ (∀ row, row ∈ df →
         is_Some (dict_by (fun c => consumer_number (snd c)) (consumers s')
                    !! ConsumerNumber row))
    ∧ map consumer_number (staged_consumers st)
      = map ConsumerNumber
          (first_rows ConsumerNumber (existing_consumer_nums (prefetch s))
             df)
    ∧ nums = list_to_set (map consumer_number (staged_consumers st))
    ∧ staged_addresses st = addresses_to_create b
    ∧ staged_contacts st = contacts_to_create b
    ∧ staged_variants st = map snd (variants_to_create b)
    ∧ link_products df
        (dict_by (fun v => product_code (snd v)) (variants s'))
        (connections_to_create b) = Ok (staged_connections st).
Proof.
  intros H%ImportFacts.handle_ok.
  apply ImportFacts.handle_body_ok in H
    as (cands & nums & s_a & b & s_b & conns & s_c & s_d
        & Hstage & Hcons & Hprep & Hvar & Hlink & Haddr & Hcont & Hconn & ->).
  destruct (consumer_map_covers _ _ _ _ _ Hstage Hcons)
    as (Hcm & Hnums & Hset).
  apply DbFacts.bulk_create_variants in Hvar as (tv & -> & _ & _).
  apply DbFacts.bulk_create_addresses in Haddr as (ta & -> & _ & _).
  apply DbFacts.bulk_create_contacts in Hcont as (tk & -> & _ & _).
  apply DbFacts.bulk_create_connections in Hconn as (tn & -> & _ & _).
  simpl in *. exists nums, b. repeat split; done.
Qed.

Lemma new_numbers_rows (df : DataFrame) (s : Store) (nums : gset string) :
  nums = list_to_set
           (map ConsumerNumber
              (first_rows ConsumerNumber (existing_consumer_nums (prefetch s))
                 df)) →
  filter (fun r => ConsumerNumber r ∈ nums)
    (drop_duplicates ConsumerNumber df)
  = first_rows ConsumerNumber (existing_consumer_nums (prefetch s)) df.
Proof.
  intros ->.
  transitivity (unknown_consumers (existing_consumer_nums (prefetch s))
                  (drop_duplicates ConsumerNumber df));
    [|apply unknown_first_rows].
  unfold unknown_consumers. apply filter_ext_elem. intros r Hr.
  rewrite elem_of_list_to_set. unfold first_rows.
  rewrite keys_drop_duplicates. split.
  - intros (r' & Hr' & Hin)%list_elem_of_fmap.
    apply list_elem_of_filter in Hin as [Hnew _]. by rewrite Hr'.
  - intros Hnew. apply list_elem_of_fmap. exists r. split; [done|].
    apply list_elem_of_filter. split; [done|].
    by apply elem_of_drop_duplicates_from in Hr as [Hr _].
Qed.

(** X13.  In a run of [populate_consumers] that completes, the
    addresses and the contacts staged are, in file order, one for each
    consumer number of the file that the store did not hold: the
    address and the mobile number are those of the first row with that
    number, and both are attached, with the content type of
    [Consumer], to the consumer of the resulting store that carries
    the number.  So there are as many of each as new consumers. *)
Theorem children_from_first_rows (df : DataFrame) (s s' : Store)
    (st : Staged) :
  handle df s = (Ok st, s') →
  Forall2 (address_from_row s (consumers s'))
    (first_rows ConsumerNumber (existing_consumer_nums (prefetch s)) df)
    (staged_addresses st)
  ∧ Forall2 (contact_from_row s (consumers s'))
      (first_rows ConsumerNumber (existing_consumer_nums (prefetch s)) df)
      (staged_contacts st)
  ∧ length (staged_addresses st) = length (staged_consumers st)
  ∧ length (staged_contacts st) = length (staged_consumers st).
Proof.
  intros (nums & b & Hprep & Hcm & Hnums & Hset & Ha & Hk & _)%handle_staged.
  destruct (prepare_rows_staged s (consumers s') df nums b Hcm Hprep)
    as (HA & HK & _).
  rewrite Hnums in Hset. rewrite (new_numbers_rows df s nums Hset) in HA, HK.
  rewrite Ha, Hk. split; [done|]. split; [done|].
  apply Forall2_length in HA, HK.
  apply (f_equal length) in Hnums. rewrite !length_map in Hnums.
  split; congruence.
Qed.

(** X14.  In a run of [populate_consumers] that completes, the product
    variants staged are, in file order, one for each product code of
    the file that is not blank and that the store did not hold, built
    from the first row with that code: its size is the cylinder cell
    read as a float, it is domestic exactly when the consumer type of
    that row is a registered type called Domestic, and its product and
    unit are those registered as LPG Cylinder and kg, if any. *)
Theorem variants_from_first_rows (df : DataFrame) (s s' : Store)
    (st : Staged) :
  handle df s = (Ok st, s') →
  Forall2 (variant_from_row s)
    (first_rows ProdCode (existing_variant_codes (prefetch s))
       (where_nonblank ProdCode df))
    (staged_variants st).
Proof.
  intros (nums & b & Hprep & Hcm & _ & _ & _ & _ & Hv & _)%handle_staged.
  destruct (prepare_rows_staged s (consumers s') df nums b Hcm Hprep)
    as (_ & _ & _ & HV & _).
  rewrite Hv. apply Forall2_fmap_r.
  eapply Forall2_impl; [exact HV|]. by intros row kv [_ ?].
Qed.

(** X15.  In a run of [populate_consumers] that completes, the
    connections staged are, in file order, one for each connection
    number of the file that the store did not hold, the blank one
    among them, built from the first row with that number: it belongs
    to the consumer of that row, its date is the date cell parsed, or
    none for a blank cell, and its number of regulators is the
    regulator cell read as an integer. *)
Theorem connections_from_first_rows (df : DataFrame) (s s' : Store)
    (st : Staged) :
  handle df s = (Ok st, s') →
  Forall2 (connection_from_row s (consumers s'))
    (first_rows SvNumber (existing_connection_nums (prefetch s)) df)
    (staged_connections st).
Proof.
  intros (nums & b & Hprep & Hcm & _ & _ & _ & _ & _ & Hlink)%handle_staged.
  destruct (prepare_rows_staged s (consumers s') df nums b Hcm Hprep)
    as (_ & _ & _ & _ & HC & _).
  apply link_products_keeps in Hlink.
  revert HC Hlink. generalize (staged_connections st) as conns'.
  generalize (connections_to_create b) as conns.
  generalize (first_rows SvNumber (existing_connection_nums (prefetch s)) df)
    as rows.
  intros rows conns conns' HC. revert conns'.
  induction HC as [|row conn rows conns [Hfrom _] _ IH]; intros conns' Hlink.
  - inversion Hlink. constructor.
  - inversion Hlink as [|? conn' ? cs' Hkeep Hrest]; subst.
    constructor; [|by apply IH].
    destruct Hkeep as (Hid & Hsv & Hdate & Htype & Hhist & Hreg).
    unfold connection_from_row in *.
    rewrite Hid, Hsv, Hdate, Htype, Hhist, Hreg. exact Hfrom.
Qed.

End Run.

Lemma children_sample :
  match handle (B := permissive) Samples.three_lines Samples.fresh_store with
  | (Ok st, s') =>
      Forall2 (address_from_row Samples.fresh_store (consumers s'))
        (first_rows ConsumerNumber
           (existing_consumer_nums (prefetch Samples.fresh_store))
           Samples.three_lines)
        (staged_addresses st)
      ∧ Forall2 (contact_from_row Samples.fresh_store (consumers s'))
          (first_rows ConsumerNumber
             (existing_consumer_nums (prefetch Samples.fresh_store))
             Samples.three_lines)
          (staged_contacts st)
      ∧ length (staged_addresses st) = length (staged_consumers st)
      ∧ length (staged_contacts st) = length (staged_consumers st)
  | (Raise _, _) => False
  end.
Proof.
  destruct (handle (B := permissive) Samples.three_lines Samples.fresh_store)
    as [[st|e] s'] eqn:Hrun.
  - exact (children_from_first_rows (B := permissive) _ _ _ _ Hrun).
  - vm_compute in Hrun. discriminate Hrun.
Defined.

Lemma variants_sample :
  match handle (B := permissive) Samples.three_lines Samples.fresh_store with
  | (Ok st, s') =>
      Forall2 (variant_from_row Samples.fresh_store)
        (first_rows ProdCode
           (existing_variant_codes (prefetch Samples.fresh_store))
           (where_nonblank ProdCode Samples.three_lines))
        (staged_variants st)
  | (Raise _, _) => False
  end.
Proof.
  destruct (handle (B := permissive) Samples.three_lines Samples.fresh_store)
    as [[st|e] s'] eqn:Hrun.
  - exact (variants_from_first_rows (B := permissive) _ _ _ _ Hrun).
  - vm_compute in Hrun. discriminate Hrun.
Defined.

Lemma connections_sample :
  match handle (B := permissive) Samples.three_lines Samples.fresh_store with
  | (Ok st, s') =>
      Forall2 (connection_from_row Samples.fresh_store (consumers s'))
        (first_rows SvNumber
           (existing_connection_nums (prefetch Samples.fresh_store))
           Samples.three_lines)
        (staged_connections st)
  | (Raise _, _) => False
  end.
Proof.
  destruct (handle (B := permissive) Samples.three_lines Samples.fresh_store)
    as [[st|e] s'] eqn:Hrun.
  - exact (connections_from_first_rows (B := permissive) _ _ _ _ Hrun).
  - vm_compute in Hrun. discriminate Hrun.
Defined.

End ChildFacts.

(** ** populate_consumers, what a run can do to the store *)

Module OutcomeFacts.
Import Py Frame Models Db Spec Notions Facts DbFacts PopulateConsumers.

Section Prefix.
Context {A : Type} (proj : Store -> Table A)
        (set : Table A -> Store -> Store) (insert : list A -> db unit).
Hypothesis proj_set : ∀ t s, proj (set t s) = t.
Hypothesis insert_shape : ∀ rows s,
  insert rows s = (Ok tt, set (append_rows (proj s) rows) s)
  ∨ ∃ e, insert rows s = (Raise e, s) ∧ (e = DataError ∨ e = IntegrityError).

(** Batch after batch, the rows a table held stay where they were. *)
Lemma for_each_prefix (batches : list (list A)) s r s' :
  for_each insert batches s = (r, s') → proj s `prefix_of` proj s'.
Proof.
  revert s. induction batches as [|rows batches IH]; intros s.
  - by intros [= <- <-].
  - simpl. unfold Db.bind.
    destruct (insert_shape rows s) as [Hok | (e & Hraise & He)].
    + rewrite Hok. intros H%IH. rewrite proj_set in H.
      etrans; [|exact H]. unfold append_rows. by apply prefix_app_r.
    + rewrite Hraise. by intros [= <- <-].
Qed.

End Prefix.

Section Run.
Context {B : Backend}.

Lemma consumers_prefix (objs : list Consumer) (n : nat) s r s' :
  bulk_create insert_consumers objs n s = (r, s') →
  consumers s `prefix_of` consumers s'.
Proof.
  apply (for_each_prefix consumers set_consumers); [done|].
  intros rows s0. apply insert_checked_shape.
Qed.

Lemma variants_prefix (objs : list ProductVariant) (n : nat) s r s' :
  bulk_create insert_variants objs n s = (r, s') →
  variants s `prefix_of` variants s'.
Proof.
  apply (for_each_prefix variants set_variants); [done|].
  intros rows s0. apply insert_checked_shape.
Qed.

Lemma addresses_prefix (objs : list Address) (n : nat) s r s' :
  bulk_create insert_addresses objs n s = (r, s') →
  addresses s `prefix_of` addresses s'.
Proof.
  apply (for_each_prefix addresses set_addresses); [done|].
  intros rows s0. apply insert_checked_shape.
Qed.

Lemma contacts_prefix (objs : list Contact) (n : nat) s r s' :
  bulk_create insert_contacts objs n s = (r, s') →
  contacts s `prefix_of` contacts s'.
Proof.
  apply (for_each_prefix contacts set_contacts); [done|].
  intros rows s0. apply insert_checked_shape.
Qed.

Lemma connections_prefix (objs : list ConnectionDetails) (n : nat) s r s' :
  bulk_create insert_connections objs n s = (r, s') →
  connections s `prefix_of` connections s'.
Proof.
  apply (for_each_prefix connections set_connections); [done|].
  intros rows s0. apply insert_checked_shape.
Qed.

(** X16.  A run of [populate_consumers] that completes only appends:
    the consumers, addresses, contacts, variants and connections the
    store held are kept as they were, in place, and the rows after
    them are the staged ones; routes, sub-areas, assignments and the
    lookup registries are not touched. *)
Theorem handle_only_appends (df : DataFrame) (s s' : Store) (st : Staged) :
  handle df s = (Ok st, s') →
  (consumers s `prefix_of` consumers s'
   ∧ map snd (consumers s')
     = (map snd (consumers s) ++ staged_consumers st)%list)
  ∧ (addresses s `prefix_of` addresses s'
     ∧ map snd (addresses s')
       = (map snd (addresses s) ++ staged_addresses st)%list)
  ∧ (contacts s `prefix_of` contacts s'
     ∧ map snd (contacts s')
       = (map snd (contacts s) ++ staged_contacts st)%list)
  ∧ (variants s `prefix_of` variants s'
     ∧ map snd (variants s')
       = (map snd (variants s) ++ staged_variants st)%list)
  ∧ (connections s `prefix_of` connections s'
     ∧ map snd (connections s')
       = (map snd (connections s) ++ staged_connections st)%list)
  ∧ routes s' = routes s ∧ route_areas s' = route_areas s
  ∧ assignments s' = assignments s
  ∧ Models.categories s' = Models.categories s
  ∧ Models.consumer_types s' = Models.consumer_types s
  ∧ Models.connection_types s' = Models.connection_types s
  ∧ Models.products s' = Models.products s
  ∧ Models.units s' = Models.units s.
Proof.
  intros H%ImportFacts.handle_ok.
  apply ImportFacts.handle_body_ok in H
    as (cands & nums & s_a & b & s_b & conns & s_c & s_d
        & _ & Hcons & _ & Hvar & _ & Haddr & Hcont & Hconn & ->).
  pose proof (consumers_prefix _ _ _ _ _ Hcons) as Pc.
  pose proof (variants_prefix _ _ _ _ _ Hvar) as Pv.
  pose proof (addresses_prefix _ _ _ _ _ Haddr) as Pa.
  pose proof (contacts_prefix _ _ _ _ _ Hcont) as Pk.
  pose proof (connections_prefix _ _ _ _ _ Hconn) as Pn.
  apply bulk_create_consumers in Hcons as (tc & -> & Htc & _).
  apply bulk_create_variants in Hvar as (tv & -> & Htv & _).
  apply bulk_create_addresses in Haddr as (ta & -> & Hta & _).
  apply bulk_create_contacts in Hcont as (tk & -> & Htk & _).
  apply bulk_create_connections in Hconn as (tn & -> & Htn & _).
  simpl in *.
  specialize (Htc eq_refl). specialize (Htv eq_refl).
  specialize (Hta eq_refl). specialize (Htk eq_refl).
  specialize (Htn eq_refl). done.
Qed.

End Run.

Lemma handle_only_appends_sample :
  match handle (B := permissive) Samples.three_lines Samples.settled_store
  with
  | (Ok st, s') =>
      consumers Samples.settled_store `prefix_of` consumers s'
      ∧ map snd (consumers s')
        = (map snd (consumers Samples.settled_store)
           ++ staged_consumers st)%list
      ∧ length (staged_consumers st) = 1%nat
  | (Raise _, _) => False
  end.
Proof.
  destruct (handle (B := permissive) Samples.three_lines
              Samples.settled_store) as [[st|e] s'] eqn:Hrun.
  - destruct (handle_only_appends (B := permissive) _ _ _ _ Hrun)
      as ([Hprefix Hrows] & _).
    split; [exact Hprefix|]. split; [exact Hrows|].
    vm_compute in Hrun. by injection Hrun as <- _.
  - vm_compute in Hrun. discriminate Hrun.
Defined.

End OutcomeFacts.

(** ** populate_consumers, the numeric cells *)

Module NumberFacts.
Import Py Frame Models Db Spec Notions Facts PopulateConsumers.

(** A digit, in the sense of [str.isdigit], is no blank, no sign and
    no underscore. *)
Lemma digit_char_plain (c : ascii) :
  isdigit_char c = true →
  isblank_num c = false ∧ is_char 45 c = false ∧ is_char 43 c = false
  ∧ is_char 95 c = false.
Proof.
  destruct c as [[] [] [] [] [] [] [] []]; vm_compute;
    intros H; try discriminate H; by repeat split.
Qed.

Lemma rstrip_digits (s : string) :
  all_chars isdigit_char s = true → rstrip_with isblank_num s = s.
Proof.
  induction s as [|c s IH]; [done|]. simpl.
  intros [Hc Hs]%andb_true_iff. rewrite (IH Hs).
  by destruct (digit_char_plain c Hc) as (-> & _).
Qed.

Lemma strip_digits (s : string) :
  all_chars isdigit_char s = true → strip_with isblank_num s = s.
Proof.
  intros Hs. unfold strip_with. destruct s as [|c s]; [done|]. simpl.
  pose proof Hs as [Hc _]%andb_true_iff.
  destruct (digit_char_plain c Hc) as (-> & _). by apply rstrip_digits.
Qed.

Lemma remove_underscores_digits (s : string) :
  all_chars isdigit_char s = true → remove_all (is_char 95) s = s.
Proof.
  induction s as [|c s IH]; [done|]. simpl.
  intros [Hc Hs]%andb_true_iff.
  destruct (digit_char_plain c Hc) as (_ & _ & _ & ->). by rewrite IH.
Qed.

Lemma underscores_ok_digits (prev : option ascii) (s : string) :
  match prev with Some p => is_char 95 p = false | None => True end →
  all_chars isdigit_char s = true → underscores_ok prev s = true.
Proof.
  revert prev. induction s as [|c s IH]; intros prev Hprev.
  - intros _. simpl. destruct prev as [p|]; [by rewrite Hprev | done].
  - simpl. intros [Hc Hs]%andb_true_iff.
    destruct (digit_char_plain c Hc) as (_ & _ & _ & Hu).
    rewrite Hu. rewrite (IH (Some c) Hu Hs), andb_true_r.
    destruct prev as [p|]; [by rewrite Hprev | done].
Qed.

(** [int] on a string of digits: its value when the digits are ASCII
    and within the length limit, [ValueError] otherwise. *)
Lemma int_digits (v : string) :
  isdigit v = true →
  int v = if isdecimal v && (String.length v <=? int_max_str_digits)%nat
          then Ok (digits_value 0 v) else Raise ValueError.
Proof.
  intros [Ht Hs]%andb_true_iff. unfold int.
  rewrite (strip_digits v Hs).
  destruct v as [|c s]; [done|].
  pose proof Hs as [Hc _]%andb_true_iff.
  destruct (digit_char_plain c Hc) as (_ & Hm & Hp & _).
  unfold split_sign. rewrite Hm, Hp.
  rewrite (remove_underscores_digits _ Hs).
  rewrite (underscores_ok_digits None _ I Hs). cbn [andb].
  destruct (isdecimal (String c s)); [|done]. cbn [andb].
  destruct (Nat.leb_spec (String.length (String c s)) int_max_str_digits)
    as [Hle|Hgt].
  - by rewrite (proj2 (Nat.ltb_ge _ _) Hle).
  - by rewrite (proj2 (Nat.ltb_lt _ _) Hgt).
Qed.

(** X18.  What [populate_consumers] makes of a blue-book cell: a cell
    that [str.isdigit] rejects, the empty one among them, gives no
    blue book; a cell of decimal digits of at most
    [int_max_str_digits] characters gives its value; every other cell that [str.isdigit] accepts (one
    with a digit that is not decimal, or a longer one) makes the run
    raise [ValueError]. *)
Theorem coerce_blue_book_cases (v : string) :
  coerce_blue_book v
  = if isdigit v
    then if isdecimal v && (String.length v <=? int_max_str_digits)%nat
         then Ok (Some (digits_value 0 v))
         else Raise ValueError
    else Ok None.
Proof.
  unfold coerce_blue_book.
  destruct (isdigit v) eqn:Hd; [|by rewrite andb_false_r].
  pose proof Hd as [-> _]%andb_true_iff. simpl.
  rewrite (int_digits v Hd). by destruct (_ && _).
Qed.











End NumberFacts.

(** ** find_duplicate_ration_cards, the blocks of the report *)

Module FindingFacts.
Import Py Frame Spec Notions Facts FindDuplicateRationCards.

#[local] Instance str_le_total : Total str_le.
Proof. intros a b. apply String.leb_total. Qed.

Lemma map_drop_duplicates_from {A} (key : A -> string) (seen : gset string)
    (l : list A) :
  map key (drop_duplicates_from key seen l)
  = drop_duplicates_from id seen (map key l).
Proof.
  revert seen. induction l as [|x l IH]; intros seen; [done|]. simpl.
  destruct (mem (key x) seen); [apply IH|]. simpl. f_equal. apply IH.
Qed.

Lemma nunique_length {A} (key : A -> string) (l : list A) :
  nunique (map key l) = length (drop_duplicates key l).
Proof.
  unfold nunique, drop_duplicates.
  by rewrite <- map_drop_duplicates_from, length_map.
Qed.

Lemma where_eq_snd {A} (col : Row -> string) (v : string)
    (l : list (A * Row)) :
  map snd (where_eq (fun r => col (snd r)) v l) = where_eq col v (map snd l).
Proof.
  unfold where_eq. induction l as [|x l IH]; [done|]. simpl.
  rewrite !filter_cons.
  destruct (decide (col (snd x) = v)); simpl; by rewrite IH.
Qed.

(** The rows of a card in the rows the report keeps are its rows in
    the file. *)
Lemma where_eq_offending (keys : list string) (card : string)
    (rows : list (nat * Row)) :
  card ∈ keys →
  where_eq (fun r => Rationcardno (snd r)) card
    (where_in (fun r => Rationcardno (snd r)) keys rows)
  = where_eq (fun r => Rationcardno (snd r)) card rows.
Proof.
  intros Hk. unfold where_eq, where_in. rewrite list_filter_filter.
  apply list_filter_iff. intros r. split; [tauto|]. intros Hr.
  split; [done|]. by rewrite Hr.
Qed.

(** X20.  The blocks [find_duplicate_ration_cards] prints come in
    ascending order of the ration card, each card once; the rows of a
    block are the rows of the file with that card, the first row of
    each consumer number only, under the labels they have in the
    file; the count printed for the block is the number of these rows,
    it is the number of consumers on the card, and it is at least
    two. *)
Theorem findings_well_formed (df : DataFrame) (blocks : list Finding) :
  handle df = Findings blocks →
  Sorted str_le (map ration_card_num blocks)
  ∧ NoDup (map ration_card_num blocks)
  ∧ ∀ f, f ∈ blocks →
      unique_consumer_rows f
      = drop_duplicates (fun r => ConsumerNumber (snd r))
          (card_rows (ration_card_num f) df)
      ∧ unique_consumer_count f = length (unique_consumer_rows f)
      ∧ unique_consumer_count f
        = size (consumers_of_card (ration_card_num f) df)
      ∧ (1 < unique_consumer_count f)%nat
      ∧ ∀ i r, (i, r) ∈ unique_consumer_rows f → df !! i = Some r.
Proof.
  unfold handle.
  destruct (true_duplicates df) as [|d dups] eqn:Hd; [done|].
  rewrite <- Hd. clear Hd d dups. intros [= <-].
  rewrite <- list_fmap_compose.
  change (map (ration_card_num ∘ finding_of ?rows) ?l) with (map id l).
  rewrite map_id. split; [apply Sorted_merge_sort, _|].
  split; [apply NoDup_group_keys|].
  intros f (card & -> & Hcard)%list_elem_of_fmap.
  apply group_keys_elem in Hcard.
  apply list_elem_of_fmap in Hcard as ([i row] & -> & Hin).
  apply list_elem_of_filter in Hin as [Hkey _]. simpl in Hkey.
  unfold finding_of. simpl.
  rewrite (where_eq_offending _ _ _ Hkey). fold (card_rows (Rationcardno row) df).
  split; [done|]. split; [apply nunique_length|].
  assert (Hsize : nunique (map (fun r => ConsumerNumber (snd r))
                             (card_rows (Rationcardno row) df))
                  = size (consumers_of_card (Rationcardno row) df)).
  { rewrite nunique_size. unfold consumers_of_card, card_rows.
    rewrite <- (map_map snd ConsumerNumber), where_eq_snd.
    by rewrite RationCardFacts.snd_iterrows. }
  split; [done|]. split.
  - rewrite Hsize. by apply RationCardFacts.true_duplicates_elem in Hkey as [_ ?].
  - intros j r Hr.
    apply elem_of_drop_duplicates_from in Hr as [Hr _].
    apply list_elem_of_filter in Hr as [_ Hr]. unfold iterrows in Hr.
    apply elem_of_lookup_imap in Hr as (j' & r' & [= -> ->] & Hlook). done.
Qed.

Lemma findings_sample :
  handle Cases.card_lines
  = Findings [mkFinding "R1" 2 [(0%nat, Samples.on_card "R1" "C1");
                                (1%nat, Samples.on_card "R1" "C2")]]
  ∧ Sorted str_le ["R1"] ∧ NoDup ["R1"].
Proof.
  assert (Hrun : handle Cases.card_lines
                 = Findings [mkFinding "R1" 2
                               [(0%nat, Samples.on_card "R1" "C1");
                                (1%nat, Samples.on_card "R1" "C2")]])
    by (vm_compute; reflexivity).
  split; [exact Hrun|].
  destruct (findings_well_formed _ _ Hrun) as (Hsorted & Hnodup & _).
  split; [exact Hsorted|exact Hnodup].
Defined.

End FindingFacts.

(** ** generate_bluebook_reports *)

Module BlueBookReportFacts.
Import Py Frame Spec Notions Facts GenerateBluebookReports.

#[local] Instance count_le_transitive : Transitive count_le.
Proof. intros a b c. unfold count_le. lia. Qed.

#[local] Instance count_le_total : Total count_le.
Proof. intros a b. unfold count_le. lia. Qed.

Lemma elem_of_concat_map {A C} (g : A -> list C) (l : list A) (x : C) :
  x ∈ concat (map g l) ↔ ∃ a, a ∈ l ∧ x ∈ g a.
Proof.
  induction l as [|a l IH]; simpl.
  - split; [by intros ?%elem_of_nil|]. by intros (a & ?%elem_of_nil & _).
  - rewrite elem_of_app, IH. split.
    + intros [Hx|(a' & Ha' & Hx)]; [exists a; split; [by left|done]|].
      exists a'. split; [by right|done].
    + intros (a' & [->|Ha']%elem_of_cons & Hx); [by left|].
      right. by exists a'.
Qed.

(** The shared blue books: not blank, held by more than one consumer,
    each with the number of its holders. *)
Lemma shared_blue_books_elem (df : DataFrame) (blue_book : string) (n : nat) :
  (blue_book, n) ∈ shared_blue_books df
  ↔ blue_book ≠ "" ∧ n = length (holders blue_book df) ∧ (1 < n)%nat.
Proof.
  unfold shared_blue_books, more_than_one, consumers_with_blue_book.
  rewrite list_elem_of_filter, BlueBookFacts.value_counts_elem. simpl.
  rewrite BlueBookFacts.occurrences_map, list_elem_of_fmap. unfold holders.
  set (rows := drop_duplicates ConsumerNumber df).
  split.
  - intros [Hn [[row [-> [Hnb _]%list_elem_of_filter]] ->]].
    rewrite RationCardFacts.where_eq_nonblank in Hn |- * by done. done.
  - intros [Hnb [-> Hn]].
    rewrite RationCardFacts.where_eq_nonblank by done.
    split; [done|]. split; [|done].
    destruct (where_eq BlueBookNumber blue_book rows) as [|row rest] eqn:Hw;
      [simpl in Hn; lia|].
    assert (row ∈ where_eq BlueBookNumber blue_book rows) as Hin
      by (rewrite Hw; by left).
    apply list_elem_of_filter in Hin as [<- Hin].
    exists row. split; [done|]. by apply list_elem_of_filter.
Qed.

Lemma sorted_shared_blue_books_elem (df : DataFrame) kv :
  kv ∈ sorted_shared_blue_books df ↔ kv ∈ shared_blue_books df.
Proof.
  unfold sorted_shared_blue_books, sort_values_ascending.
  by rewrite merge_sort_Permutation.
Qed.

Lemma final_report_rows_elem (df : DataFrame) (r : Row) :
  r ∈ final_report_rows df
  ↔ r ∈ drop_duplicates ConsumerNumber df ∧ BlueBookNumber r ≠ ""
    ∧ (1 < holders_of df r)%nat.
Proof.
  unfold final_report_rows, holders_of. rewrite elem_of_concat_map. split.
  - intros ([k n] & Hkv%sorted_shared_blue_books_elem & Hr).
    apply shared_blue_books_elem in Hkv as (Hnb & -> & Hn).
    apply list_elem_of_filter in Hr as [Hk Hr]. simpl in Hk. subst k.
    apply list_elem_of_filter in Hr as [_ Hr]. done.
  - intros (Hr & Hnb & Hn).
    exists (BlueBookNumber r, length (holders (BlueBookNumber r) df)).
    split.
    + apply sorted_shared_blue_books_elem, shared_blue_books_elem. done.
    + apply list_elem_of_filter. split; [done|].
      apply list_elem_of_filter. done.
Qed.

Lemma NoDup_map_inj {A} (f : A -> string) (l : list A) (x y : A) :
  NoDup (map f l) → x ∈ l → y ∈ l → f x = f y → x = y.
Proof.
  induction l as [|a l IH]; [by intros _ ?%elem_of_nil|]. simpl.
  intros [Ha Hl]%NoDup_cons [->|Hx]%elem_of_cons [->|Hy]%elem_of_cons Hf;
    try done.
  - destruct Ha. rewrite Hf. apply list_elem_of_fmap. by exists y.
  - destruct Ha. rewrite <- Hf. apply list_elem_of_fmap. by exists x.
  - by apply IH.
Qed.

Lemma NoDup_map_filter {A} (f : A -> string) (P : A -> Prop)
    `{∀ x, Decision (P x)} (l : list A) :
  NoDup (map f l) → NoDup (map f (filter P l)).
Proof.
  intros Hl. apply (sublist_NoDup _ (map f l)); [exact Hl|].
  apply (fmap_sublist f), sublist_filter.
Qed.

(** Groups cut out of a list by different keys share no element. *)
Lemma NoDup_groups {A} (f key : A -> string) (base : list A)
    (keys : list string) :
  NoDup (map f base) → NoDup keys →
  NoDup (map f (concat (map (fun k => where_eq key k base) keys))).
Proof.
  intros Hbase. induction keys as [|k keys IH]; [constructor|].
  intros [Hk Hkeys]%NoDup_cons. simpl. rewrite map_app.
  apply NoDup_app. split; [by apply NoDup_map_filter|].
  split; [|by apply IH].
  intros x (r1 & -> & Hr1)%list_elem_of_fmap (r2 & Hf & Hr2)%list_elem_of_fmap.
  apply list_elem_of_filter in Hr1 as [Hk1 Hr1].
  apply elem_of_concat_map in Hr2 as (k' & Hk' & Hr2).
  apply list_elem_of_filter in Hr2 as [Hk2 Hr2].
  assert (r1 = r2) by (by eapply NoDup_map_inj). subst r2. congruence.
Qed.

Lemma NoDup_shared_blue_books (df : DataFrame) :
  NoDup (map fst (sorted_shared_blue_books df)).
Proof.
  unfold sorted_shared_blue_books, sort_values_ascending.
  rewrite merge_sort_Permutation.
  unfold shared_blue_books, more_than_one.
  apply (sublist_NoDup _ (map fst (value_counts
           (map BlueBookNumber (consumers_with_blue_book df)))));
    [|apply (fmap_sublist fst), sublist_filter].
  unfold value_counts. rewrite merge_sort_Permutation.
  rewrite map_map. simpl.
  exact (NoDup_drop_duplicates id
           (map BlueBookNumber (consumers_with_blue_book df))).
Qed.

Lemma handle_final_report_rows (df : DataFrame) :
  handle df
  = match final_report_rows df with
    | [] => NoneShared
    | _ => Written (map output_columns (final_report_rows df))
    end.
Proof.
  unfold handle.
  destruct (shared_blue_books df) as [|[k n] l] eqn:Hshared.
  - unfold final_report_rows, sorted_shared_blue_books, sort_values_ascending.
    rewrite Hshared. done.
  - assert (Hkv : (k, n) ∈ shared_blue_books df) by (rewrite Hshared; by left).
    apply shared_blue_books_elem in Hkv as (Hnb & -> & Hn).
    destruct (holders k df) as [|r rs] eqn:Hh; [simpl in Hn; lia|].
    assert (Hr : r ∈ holders k df) by (rewrite Hh; by left).
    unfold holders in Hr, Hh. apply list_elem_of_filter in Hr as [Hk Hr].
    assert (Hin : r ∈ final_report_rows df).
    { apply final_report_rows_elem. unfold holders_of, holders.
      rewrite Hk, Hh. by subst k. }
    destruct (final_report_rows df); [by apply elem_of_nil in Hin|done].
Qed.

(** X21.  [generate_bluebook_reports] writes no report exactly when its
    list of rows is empty.  A row is on the report exactly when it is
    the first row of its consumer number in the file, its blue book is
    not blank, and more than one consumer holds that blue book; no
    consumer number is on the report twice. *)
Theorem report_lists_holders_once (df : DataFrame) :
  handle df
  = match final_report_rows df with
    | [] => NoneShared
    | _ => Written (map output_columns (final_report_rows df))
    end
  ∧ (∀ r, r ∈ final_report_rows df
          ↔ r ∈ drop_duplicates ConsumerNumber df ∧ BlueBookNumber r ≠ ""
            ∧ (1 < holders_of df r)%nat)
  ∧ NoDup (map ConsumerNumber (final_report_rows df)).
Proof.
  split; [apply handle_final_report_rows|].
  split; [apply final_report_rows_elem|].
  unfold final_report_rows.
  rewrite <- (map_map fst (fun k => where_eq BlueBookNumber k
                                      (consumers_with_blue_book df))).
  apply NoDup_groups; [|apply NoDup_shared_blue_books].
  apply NoDup_map_filter, NoDup_drop_duplicates.
Qed.

Lemma StronglySorted_groups {A K} (R : relation K) (R' : relation A)
    (g : K -> list A) (l : list K) :
  StronglySorted R l →
  (∀ k, k ∈ l → StronglySorted R' (g k)) →
  (∀ k1 k2 a b, k1 ∈ l → k2 ∈ l → R k1 k2 → a ∈ g k1 → b ∈ g k2 → R' a b) →
  StronglySorted R' (concat (map g l)).
Proof.
  induction 1 as [|k l Hl IH Hk]; intros Hin Hcross; [constructor|].
  simpl. apply StronglySorted_app_2.
  - intros a b Ha (k2 & Hk2 & Hb)%elem_of_concat_map.
    apply (Hcross k k2); [by left|by right| |done|done].
    by eapply Forall_forall in Hk.
  - apply Hin. by left.
  - apply IH.
    + intros k' Hk'. apply Hin. by right.
    + intros k1 k2 a b H1 H2. apply Hcross; by right.
Qed.

Lemma StronglySorted_all {A} (R : relation A) (l : list A) :
  (∀ a b, a ∈ l → b ∈ l → R a b) → StronglySorted R l.
Proof.
  induction l as [|x l IH]; intros Hall; [constructor|].
  constructor.
  - apply IH. intros a b Ha Hb. apply Hall; by right.
  - apply Forall_forall. intros y Hy. apply Hall; [by left|by right].
Qed.

(** X22.  The rows of the report of [generate_bluebook_reports] come in
    ascending order of the number of consumers that hold their blue
    book, as do the shared blue books the report is built from. *)
Theorem report_rows_ascending (df : DataFrame) :
  StronglySorted (fun a b => (holders_of df a <= holders_of df b)%nat)
    (final_report_rows df)
  ∧ StronglySorted count_le (sorted_shared_blue_books df).
Proof.
  assert (Hsorted : StronglySorted count_le (sorted_shared_blue_books df)).
  { unfold sorted_shared_blue_books, sort_values_ascending.
    apply StronglySorted_merge_sort; apply _. }
  split; [|done].
  assert (Hsize : ∀ kv r,
            kv ∈ sorted_shared_blue_books df →
            r ∈ where_eq BlueBookNumber (fst kv)
                  (consumers_with_blue_book df) →
            holders_of df r = snd kv).
  { intros [k n] r Hkv%sorted_shared_blue_books_elem Hr.
    apply shared_blue_books_elem in Hkv as (_ & -> & _).
    apply list_elem_of_filter in Hr as [Hk _]. simpl in *.
    unfold holders_of. by rewrite Hk. }
  unfold final_report_rows.
  eapply StronglySorted_groups; [exact Hsorted| |].
  - intros kv Hkv. apply StronglySorted_all. intros a b Ha Hb.
    by rewrite (Hsize kv a Hkv Ha), (Hsize kv b Hkv Hb).
  - intros k1 k2 a b H1 H2 Hle Ha Hb.
    by rewrite (Hsize k1 a H1 Ha), (Hsize k2 b H2 Hb).
Qed.

End BlueBookReportFacts.

(** ** find_duplicate_sv_numbers *)

Module SvNumberFacts.
Import Py Frame Spec Notions Facts FindDuplicateSvNumbers.

Lemma sv_numbers_iterrows (df : DataFrame) :
  map (fun r : nat * Row => SvNumber (snd r)) (iterrows df)
  = map SvNumber df.
Proof.
  by rewrite <- (map_map snd SvNumber), RationCardFacts.snd_iterrows.
Qed.

Lemma elem_of_iterrows (df : DataFrame) (i : nat) (r : Row) :
  (i, r) ∈ iterrows df ↔ df !! i = Some r.
Proof.
  unfold iterrows. rewrite elem_of_lookup_imap. split.
  - by intros (j & r' & [= -> ->] & Hlook).
  - intros Hlook. by exists i, r.
Qed.

(** The duplicated rows of a file, before and after they are sorted. *)
Lemma duplicate_sv_rows_elem (df : DataFrame) (i : nat) (r : Row) :
  (i, r) ∈ sort_values (fun r => SvNumber (snd r))
             (duplicated_all (fun r => SvNumber (snd r)) (iterrows df))
  ↔ df !! i = Some r
    ∧ (1 < occurrences (SvNumber r) (map SvNumber df))%nat.
Proof.
  unfold sort_values, duplicated_all.
  rewrite merge_sort_Permutation, list_elem_of_filter, elem_of_iterrows.
  rewrite sv_numbers_iterrows. simpl. tauto.
Qed.

Lemma occurrences_row (df : DataFrame) (k : string) :
  (0 < occurrences k (map SvNumber df))%nat →
  ∃ i r, df !! i = Some r ∧ SvNumber r = k.
Proof.
  rewrite BlueBookFacts.occurrences_map. intros Hn.
  destruct (where_eq SvNumber k df) as [|r rs] eqn:Hw; [simpl in Hn; lia|].
  assert (Hr : r ∈ where_eq SvNumber k df) by (rewrite Hw; by left).
  apply list_elem_of_filter in Hr as [Hk Hr].
  apply list_elem_of_lookup in Hr as [i Hi]. by exists i, r.
Qed.

Lemma group_rows (df : DataFrame) (k : string) :
  (1 < occurrences k (map SvNumber df))%nat →
  length (where_eq (fun r => SvNumber (snd r)) k
            (sort_values (fun r => SvNumber (snd r))
               (duplicated_all (fun r => SvNumber (snd r)) (iterrows df))))
  = occurrences k (map SvNumber df)
  ∧ ∀ i r,
      (i, r) ∈ where_eq (fun r => SvNumber (snd r)) k
                 (sort_values (fun r => SvNumber (snd r))
                    (duplicated_all (fun r => SvNumber (snd r))
                       (iterrows df)))
      ↔ df !! i = Some r ∧ SvNumber r = k.
Proof.
  intros Hk. split.
  - unfold where_eq, sort_values, duplicated_all.
    rewrite merge_sort_Permutation, list_filter_filter.
    rewrite sv_numbers_iterrows.
    rewrite (list_filter_iff _ (fun r : nat * Row => SvNumber (snd r) = k)).
    2:{ intros [i r]. simpl. split; [tauto|]. intros <-. done. }
    rewrite <- sv_numbers_iterrows.
    by rewrite (BlueBookFacts.occurrences_map
                  (fun r : nat * Row => SvNumber (snd r))).
  - intros i r. unfold where_eq at 1.
    rewrite list_elem_of_filter, duplicate_sv_rows_elem. simpl.
    split; [tauto|]. intros [Hi <-]. done.
Qed.

(** X23.  [find_duplicate_sv_numbers] reports no duplicates exactly
    when no connection number is on two rows.  Otherwise the count it
    prints is the number of blocks; the blocks come in ascending order
    of the connection number, each number once, and they are the
    numbers on more than one row, the blank one among them when
    several rows have none; a block holds all rows of the file with
    its number, under their labels, also when they are rows of one
    consumer. *)
Theorem sv_report_blocks (df : DataFrame) :
  match handle df with
  | NoDuplicates => ∀ k, (occurrences k (map SvNumber df) <= 1)%nat
  | Groups count blocks =>
      blocks ≠ []
      ∧ count = length blocks
      ∧ Sorted str_le (map sv_num blocks)
      ∧ NoDup (map sv_num blocks)
      ∧ (∀ k, k ∈ map sv_num blocks
              ↔ (1 < occurrences k (map SvNumber df))%nat)
      ∧ ∀ g, g ∈ blocks →
          length (group_df g) = occurrences (sv_num g) (map SvNumber df)
          ∧ ∀ i r, (i, r) ∈ group_df g
                   ↔ df !! i = Some r ∧ SvNumber r = sv_num g
  end.
Proof.
  assert (Hkeys : ∀ k,
            k ∈ group_keys (fun r => SvNumber (snd r))
                  (sort_values (fun r => SvNumber (snd r))
                     (duplicated_all (fun r => SvNumber (snd r))
                        (iterrows df)))
            ↔ (1 < occurrences k (map SvNumber df))%nat).
  { intros k. rewrite group_keys_elem, list_elem_of_fmap. split.
    - intros ([i r] & -> & Hr%duplicate_sv_rows_elem). simpl. tauto.
    - intros Hk. destruct (occurrences_row df k) as (i & r & Hi & Hr);
        [lia|].
      exists (i, r). split; [done|]. apply duplicate_sv_rows_elem.
      by rewrite Hr. }
  unfold handle.
  destruct (duplicated_all (fun r => SvNumber (snd r)) (iterrows df))
    as [|row rows] eqn:Hrows.
  - intros k. destruct (decide (1 < occurrences k (map SvNumber df))%nat)
      as [Hk|Hk]; [|lia].
    apply Hkeys in Hk. apply group_keys_elem in Hk.
    by apply elem_of_nil in Hk.
  - assert (Hdup : ∃ k, (1 < occurrences k (map SvNumber df))%nat).
    { assert (Hin : row ∈ sort_values (fun r => SvNumber (snd r))
                      (duplicated_all (fun r => SvNumber (snd r))
                         (iterrows df))).
      { unfold sort_values. rewrite merge_sort_Permutation, Hrows.
        by left. }
      destruct row as [i r]. apply duplicate_sv_rows_elem in Hin.
      exists (SvNumber r). tauto. }
    rewrite <- Hrows in *. clear Hrows row rows. cbv zeta.
    rewrite map_map. simpl. rewrite map_id.
    split; [|split; [|split; [|split; [|split]]]].
    + destruct Hdup as [k Hk%Hkeys]. intros Hnil.
      apply (f_equal (map sv_num)) in Hnil. rewrite map_map in Hnil.
      simpl in Hnil. rewrite map_id in Hnil. rewrite Hnil in Hk.
      by apply elem_of_nil in Hk.
    + rewrite length_map. unfold nunique, group_keys.
      by rewrite merge_sort_Permutation.
    + apply Sorted_merge_sort. apply FindingFacts.str_le_total.
    + apply NoDup_group_keys.
    + exact Hkeys.
    + intros g (k & -> & Hk)%list_elem_of_fmap. simpl.
      apply Hkeys in Hk. by apply group_rows.
Qed.

(** On the sample the blank connection number is reported like any
    other. *)
Lemma sv_report_sample :
  match handle Cases.sv_lines with
  | NoDuplicates => False
  | Groups count blocks =>
      count = 2%nat ∧ map sv_num blocks = [""; "SV7"]
      ∧ map (fun g => length (group_df g)) blocks = [2%nat; 2%nat]
  end.
Proof. vm_compute. repeat split. Qed.

End SvNumberFacts.

(** ** The area report *)

Module AreaReportFacts.
Import Py ProcessAreas AreaNotions.

Abbreviation str_le := Frame.str_le.

#[local] Instance area_le_total : Total str_le.
Proof. intros a b. apply String.leb_total. Qed.

#[local] Instance area_le_trans : Transitive str_le.
Proof.
  intros a b c Hab Hbc. unfold str_le, Frame.str_le in *.
  apply Is_true_true. apply Is_true_true in Hab, Hbc.
  by etrans.
Qed.

#[local] Instance area_le_refl : Reflexive str_le.
Proof.
  intros a. unfold str_le, Frame.str_le. apply Is_true_true.
  change (String.le a a). done.
Qed.

#[local] Instance item_le_total {A} :
  Total (fun a b : string * A => str_le (fst a) (fst b)).
Proof. intros a b. apply String.leb_total. Qed.

Lemma process_row_kept (row : Line) (d : gmap string (gset string)) :
  process_row row d
  = match kept row with
    | Some (desc, id) => add_area desc id d
    | None => d
    end.
Proof.
  unfold process_row, kept.
  destruct (truthy (strip (AreaId row))); simpl; [|done].
  by destruct (truthy (strip (AreaCodeDesc row))).
Qed.

Lemma add_area_agrees desc id d pairs :
  agrees d pairs → agrees (add_area desc id d) (pairs ++ [(desc, id)]).
Proof.
  intros Hd desc'. unfold add_area.
  destruct (decide (desc' = desc)) as [->|Hne].
  - rewrite lookup_insert_eq. specialize (Hd desc). split; [set_solver|].
    intros id'. rewrite elem_of_app, list_elem_of_singleton.
    destruct (d !! desc) as [ids|]; simpl.
    + destruct Hd as [_ Hd]. rewrite elem_of_union, elem_of_singleton, Hd.
      naive_solver.
    + rewrite elem_of_union, elem_of_singleton. set_solver.
  - rewrite lookup_insert_ne by done. specialize (Hd desc').
    destruct (d !! desc') as [ids|].
    + destruct Hd as [Hne' Hd]. split; [done|]. intros id'.
      rewrite Hd, elem_of_app, list_elem_of_singleton. naive_solver.
    + intros id'. rewrite elem_of_app, list_elem_of_singleton.
      specialize (Hd id'). naive_solver.
Qed.

Lemma areas_dict_agrees (rows : list Line) :
  agrees (foldl (fun d row => process_row row d) ∅ rows) (omap kept rows).
Proof.
  induction rows as [|row rows IH] using rev_ind.
  - intros desc. simpl. rewrite lookup_empty. intros id. apply not_elem_of_nil.
  - rewrite foldl_app, omap_app. simpl. rewrite process_row_kept.
    destruct (kept row) as [[desc id]|]; simpl.
    + by apply add_area_agrees.
    + by rewrite app_nil_r.
Qed.

Lemma process_csv_elem (rows : list Line) desc l :
  (desc, l) ∈ process_csv rows
  ↔ ∃ ids, foldl (fun d row => process_row row d) ∅ rows !! desc = Some ids
           ∧ l = merge_sort str_le (elements ids).
Proof.
  unfold process_csv. cbv zeta. rewrite list_elem_of_fmap. split.
  - intros ([k ids] & [= -> ->] & Hin). rewrite merge_sort_Permutation in Hin.
    apply elem_of_map_to_list in Hin. eauto.
  - intros (ids & Hl & ->). exists (desc, ids). split; [done|].
    rewrite merge_sort_Permutation. by apply elem_of_map_to_list.
Qed.

Lemma process_csv_keys (rows : list Line) :
  map fst (process_csv rows)
  = map fst (merge_sort (fun a b => str_le (fst a) (fst b))
               (map_to_list (foldl (fun d row => process_row row d) ∅ rows))).
Proof. unfold process_csv. cbv zeta. by rewrite map_map. Qed.

Lemma process_csv_sorted (rows : list Line) :
  StronglySorted str_le (map fst (process_csv rows))
  ∧ NoDup (map fst (process_csv rows)).
Proof.
  rewrite process_csv_keys. split.
  - apply Sorted_StronglySorted; [apply _|].
    apply (Sorted_fmap _ (fun a b => str_le (fst a) (fst b))); [done|].
    apply Sorted_merge_sort, _.
  - rewrite merge_sort_Permutation. apply NoDup_fst_map_to_list.
Qed.

Lemma process_csv_ids (rows : list Line) desc l :
  (desc, l) ∈ process_csv rows →
  l ≠ [] ∧ Sorted str_le l ∧ NoDup l
  ∧ ∀ id, id ∈ l ↔ (desc, id) ∈ omap kept rows.
Proof.
  intros (ids & Hl & ->)%process_csv_elem.
  pose proof (areas_dict_agrees rows desc) as Hd. rewrite Hl in Hd.
  destruct Hd as [Hne Hd]. split; [|split; [|split]].
  - intros Hnil. apply Hne. apply leibniz_equiv, elements_empty_iff.
    apply Permutation_nil_r. by rewrite <- Hnil, merge_sort_Permutation.
  - apply Sorted_merge_sort, _.
  - rewrite merge_sort_Permutation. apply NoDup_elements.
  - intros id. by rewrite merge_sort_Permutation, elem_of_elements.
Qed.

(** X24.  What [process_csv] of [process_areas] returns for the rows
    of a file that was read: the descriptions come in ascending order,
    each once; the area ids of a description come in ascending order,
    each once, and there is at least one; and an area id is listed
    under a description exactly when some row has the two, without the
    blanks around them and neither of them empty. *)
Theorem process_csv_groups (rows : list Line) :
  Sorted str_le (map fst (process_csv rows))
  ∧ NoDup (map fst (process_csv rows))
  ∧ (∀ desc ids, (desc, ids) ∈ process_csv rows →
       ids ≠ [] ∧ Sorted str_le ids ∧ NoDup ids)
  ∧ ∀ desc id,
      (∃ ids, (desc, ids) ∈ process_csv rows ∧ id ∈ ids)
      ↔ ∃ row, row ∈ rows ∧ kept row = Some (desc, id).
Proof.
  destruct (process_csv_sorted rows) as [Hs Hnd].
  split; [by apply StronglySorted_Sorted|]. split; [done|]. split.
  - intros desc ids Hin. apply process_csv_ids in Hin. tauto.
  - intros desc id. rewrite <- (list_elem_of_omap kept rows (desc, id)). split.
    + intros (ids & Hin & Hid). by apply (process_csv_ids rows desc ids).
    + intros Hin. pose proof (areas_dict_agrees rows desc) as Hd.
      destruct (foldl _ ∅ rows !! desc) as [ids|] eqn:Hl.
      * exists (merge_sort str_le (elements ids)). split.
        -- apply process_csv_elem. eauto.
        -- rewrite merge_sort_Permutation, elem_of_elements. by apply Hd.
      * by apply Hd in Hin.
Qed.

Lemma max_from_first {A} (key : A -> nat) (best : A) (items : list A) :
  ∃ before after,
    best :: items = (before ++ max_from key best items :: after)%list
    ∧ (∀ y, y ∈ before → (key y < key (max_from key best items))%nat)
    ∧ (∀ y, y ∈ after → (key y <= key (max_from key best items))%nat).
Proof.
  revert best. induction items as [|item items IH]; intros best; simpl.
  - exists [], []. split; [done|]. split; intros y Hy; by apply elem_of_nil in Hy.
  - destruct (IH (if (key best <? key item)%nat then item else best))
      as (before & after & Heq & Hb & Ha).
    remember (max_from key (if (key best <? key item)%nat then item else best)
                items) as m eqn:Hm.
    clear Hm IH.
    destruct (Nat.ltb_spec (key best) (key item)) as [Hlt|Hge].
    + assert (Hitem : (key item <= key m)%nat).
      { destruct before as [|b before]; simplify_eq/=; [lia|].
        specialize (Hb b ltac:(by left)). lia. }
      exists (best :: before), after. split; [by rewrite Heq|]. split; [|done].
      intros y [->|Hy]%elem_of_cons; [lia|by apply Hb].
    + destruct before as [|b before]; simpl in Heq;
        injection Heq as Hhd Htl.
      * subst m after. exists [], (item :: items). split; [done|]. split.
        -- intros y Hy. by apply elem_of_nil in Hy.
        -- intros y [->|Hy]%elem_of_cons; [lia|by apply Ha].
      * subst b items. exists (best :: item :: before), after.
        split; [done|]. split; [|done].
        intros y [->|[->|Hy]%elem_of_cons]%elem_of_cons.
        -- apply Hb. by left.
        -- specialize (Hb best ltac:(by left)). lia.
        -- apply Hb. by right.
Qed.

Lemma min_from_first {A} (key : A -> nat) (best : A) (items : list A) :
  ∃ before after,
    best :: items = (before ++ min_from key best items :: after)%list
    ∧ (∀ y, y ∈ before → (key (min_from key best items) < key y)%nat)
    ∧ (∀ y, y ∈ after → (key (min_from key best items) <= key y)%nat).
Proof.
  revert best. induction items as [|item items IH]; intros best; simpl.
  - exists [], []. split; [done|]. split; intros y Hy; by apply elem_of_nil in Hy.
  - destruct (IH (if (key item <? key best)%nat then item else best))
      as (before & after & Heq & Hb & Ha).
    remember (min_from key (if (key item <? key best)%nat then item else best)
                items) as m eqn:Hm.
    clear Hm IH.
    destruct (Nat.ltb_spec (key item) (key best)) as [Hlt|Hge].
    + assert (Hitem : (key m <= key item)%nat).
      { destruct before as [|b before]; simplify_eq/=; [lia|].
        specialize (Hb b ltac:(by left)). lia. }
      exists (best :: before), after. split; [by rewrite Heq|]. split; [|done].
      intros y [->|Hy]%elem_of_cons; [lia|by apply Hb].
    + destruct before as [|b before]; simpl in Heq;
        injection Heq as Hhd Htl.
      * subst m after. exists [], (item :: items). split; [done|]. split.
        -- intros y Hy. by apply elem_of_nil in Hy.
        -- intros y [->|Hy]%elem_of_cons; [lia|by apply Ha].
      * subst b items. exists (best :: item :: before), after.
        split; [done|]. split; [|done].
        intros y [->|[->|Hy]%elem_of_cons]%elem_of_cons.
        -- apply Hb. by left.
        -- specialize (Hb best ltac:(by left)). lia.
        -- apply Hb. by right.
Qed.

(** In a list with ascending keys, an item that comes before none of
    its peers is the one with the least key among them. *)
Lemma first_least_key {V} (peer : string * V -> Prop)
    (items before after : list (string * V)) (m : string * V) :
  StronglySorted str_le (map fst items) →
  items = (before ++ m :: after)%list →
  (∀ y, y ∈ before → ¬ peer y) →
  ∀ y, y ∈ items → peer y → str_le (fst m) (fst y).
Proof.
  intros Hs -> Hb y Hy Hp. rewrite map_app in Hs. simpl in Hs.
  apply StronglySorted_app_1_r in Hs. inversion Hs as [|? ? _ Hall]; subst.
  apply elem_of_app in Hy as [Hy|Hy]; [by apply Hb in Hy|].
  apply elem_of_cons in Hy as [->|Hy]; [done|].
  rewrite Forall_forall in Hall. apply Hall. by apply list_elem_of_fmap_2.
Qed.

(** The pairs of a description and one of its area ids, as the report
    lists them. *)
Lemma report_pairs (items : list (string * list string)) :
  NoDup (map fst items) →
  (∀ item, item ∈ items → NoDup (snd item)) →
  NoDup (items ≫= fun item => map (pair (fst item)) (snd item))
  ∧ foldr (fun item n => (length (snd item) + n)%nat) 0%nat items
    = length (items ≫= fun item => map (pair (fst item)) (snd item)).
Proof.
  induction items as [|[desc ids] items IH]; intros Hk Hi; simpl.
  - split; [constructor|done].
  - apply NoDup_cons in Hk as [Hdesc Hk].
    destruct IH as [IH1 IH2]; [done|by intros item Hin; apply Hi; right|].
    split.
    + apply NoDup_app. split; [|split; [|done]].
      * apply (NoDup_fmap_2 _). apply (Hi (desc, ids)). by left.
      * intros [d id] (id' & [= -> ->] & _)%list_elem_of_fmap
          (item & (id'' & [= Hd ->] & _)%list_elem_of_fmap & Hitem)%list_elem_of_bind.
        apply Hdesc. simpl. rewrite Hd. change (item.1 ∈ map fst items).
        by apply list_elem_of_fmap_2.
    + rewrite length_app, length_map. by rewrite IH2.
Qed.

Lemma process_csv_nil (rows : list Line) :
  process_csv rows = [] ↔ ∀ row, row ∈ rows → kept row = None.
Proof.
  split.
  - intros Hnil row Hrow. destruct (kept row) as [[desc id]|] eqn:Hk; [|done].
    assert (Hin : (desc, id) ∈ omap kept rows)
      by (apply list_elem_of_omap; eauto).
    pose proof (areas_dict_agrees rows desc) as Hd.
    destruct (foldl _ ∅ rows !! desc) as [ids|] eqn:Hl; [|by apply Hd in Hin].
    assert (Hitem : (desc, merge_sort str_le (elements ids)) ∈ process_csv rows)
      by (apply process_csv_elem; eauto).
    rewrite Hnil in Hitem. by apply elem_of_nil in Hitem.
  - intros Hrows. destruct (process_csv rows) as [|[desc ids] items] eqn:Hp;
      [done|].
    assert (Hin : (desc, ids) ∈ process_csv rows) by (rewrite Hp; by left).
    apply process_csv_ids in Hin as (Hne & _ & _ & Hids).
    destruct ids as [|id ids]; [done|].
    assert (Hid : (desc, id) ∈ omap kept rows) by (apply Hids; by left).
    apply list_elem_of_omap in Hid as (row & Hrow & Hk).
    by rewrite (Hrows row Hrow) in Hk.
Qed.

Lemma handle_report (rows : list Line) :
  match process_csv rows with
  | [] => handle rows = Raise CommandError
  | item :: items =>
      handle rows
      = Ok (mkReport (process_csv rows)
              (mkSummary (length (process_csv rows))
                 (foldr (fun item n => (length (snd item) + n)%nat) 0%nat
                    (process_csv rows))
                 (max_from (fun x => length (snd x)) item items)
                 (min_from (fun x => length (snd x)) item items)))
  end.
Proof.
  unfold handle, display_summary. cbv zeta.
  by destruct (process_csv rows) as [|item items].
Qed.

(** X25.  [process_areas] ends in [CommandError], and in no other
    exception: when the file is not read, and also when it is read
    but no row of it has both cells filled, as for an empty table,
    where [max] of the empty dictionary raises in [display_summary].
    When it completes, the file was read, some row has both cells
    filled, and the groups reported are those of [process_csv]. *)
Theorem handle_needs_a_row (file : CsvFile) :
  (∀ e, handle_file file = Raise e → e = CommandError)
  ∧ (read_rows file = None → handle_file file = Raise CommandError)
  ∧ (∀ rows, read_rows file = Some rows →
       (∀ row, row ∈ rows → kept row = None) →
       handle_file file = Raise CommandError)
  ∧ (∀ report, handle_file file = Ok report →
       ∃ rows, read_rows file = Some rows
               ∧ areas report = process_csv rows
               ∧ ∃ row, row ∈ rows ∧ is_Some (kept row)).
Proof.
  unfold handle_file. destruct (read_rows file) as [rows|].
  2:{ split; [by intros e [= <-]|]. split; [done|]. split; [done|done]. }
  pose proof (handle_report rows) as Hc.
  pose proof (process_csv_nil rows) as Hnil.
  destruct (process_csv rows) as [|item items] eqn:Hp; rewrite Hc.
  - split; [by intros e [= <-]|]. split; [done|]. split; [done|done].
  - split; [done|]. split; [done|]. split.
    + intros rows' [= <-] Hall. by apply Hnil in Hall.
    + intros report [= <-]. exists rows. split; [done|]. split; [done|].
      destruct (decide (Forall (fun row => kept row = None) rows))
        as [Hall|Hex].
      * rewrite Forall_forall in Hall. by apply Hnil in Hall.
      * apply not_Forall_Exists in Hex; [|apply _].
        apply Exists_exists in Hex as (row & Hrow & Hk). exists row.
        split; [done|]. simpl in Hk.
        destruct (kept row); [by eexists|by destruct Hk].
Qed.

(** X26.  The summary of a run of [process_areas] that completes: the
    number of descriptions is the number of groups; the total of area
    ids is the number of distinct pairs of a description and an area
    id, so that an id under two descriptions counts twice; the group
    named for the most ids has no fewer ids than any group and, among
    the groups with as many, the least description; the group named
    for the least ids likewise. *)
Theorem summary_counts (file : CsvFile) (rows : list Line)
    (report : Report) :
  read_rows file = Some rows →
  handle_file file = Ok report →
  total_descriptions (summary report) = length (areas report)
  ∧ total_unique_ids (summary report) = length (remove_dups (omap kept rows))
  ∧ (max_area (summary report) ∈ areas report
     ∧ ∀ item, item ∈ areas report →
         (length (snd item) <= length (snd (max_area (summary report))))%nat
         ∧ (length (snd item) = length (snd (max_area (summary report))) →
            str_le (fst (max_area (summary report))) (fst item)))
  ∧ (min_area (summary report) ∈ areas report
     ∧ ∀ item, item ∈ areas report →
         (length (snd (min_area (summary report))) <= length (snd item))%nat
         ∧ (length (snd item) = length (snd (min_area (summary report))) →
            str_le (fst (min_area (summary report))) (fst item))).
Proof.
  intros Hread Hrun. unfold handle_file in Hrun. rewrite Hread in Hrun.
  pose proof (handle_report rows) as Hc.
  destruct (process_csv_sorted rows) as [Hsorted Hnd].
  assert (Hids : ∀ item, item ∈ process_csv rows → NoDup (snd item)).
  { intros [desc ids] Hin. apply process_csv_ids in Hin. simpl. tauto. }
  destruct (report_pairs (process_csv rows) Hnd Hids) as [Hpairs Hsum].
  assert (Hperm : process_csv rows
                    ≫= (fun item => map (pair (fst item)) (snd item))
                  ≡ₚ remove_dups (omap kept rows)).
  { apply NoDup_Permutation; [done|apply NoDup_remove_dups|].
    intros [desc id]. rewrite elem_of_remove_dups, list_elem_of_bind. split.
    - intros ([d ids] & (id' & [= -> ->] & Hid)%list_elem_of_fmap & Hitem).
      simpl in Hid. by apply (process_csv_ids rows d ids).
    - intros Hin. apply list_elem_of_omap in Hin.
      destruct (proj2 (proj2 (proj2 (process_csv_groups rows)))) with desc id
        as [_ Hback].
      destruct (Hback Hin) as (ids & Hitem & Hid).
      exists (desc, ids). split; [|done]. simpl. by apply list_elem_of_fmap_2. }
  destruct (process_csv rows) as [|item items] eqn:Hp;
    rewrite Hc in Hrun; [done|].
  injection Hrun as <-.
  cbn [summary areas total_descriptions total_unique_ids max_area min_area].
  split; [done|]. split; [rewrite <- Hperm, <- Hsum; reflexivity|].
  destruct (max_from_first (fun x : string * list string => length (snd x))
              item items) as (b1 & a1 & Heq1 & Hb1 & Ha1).
  destruct (min_from_first (fun x : string * list string => length (snd x))
              item items) as (b2 & a2 & Heq2 & Hb2 & Ha2).
  split.
  - split; [rewrite Heq1; set_solver|]. intros other Hother. split.
    + rewrite Heq1 in Hother.
      apply elem_of_app in Hother as [Hin|[->|Hin]%elem_of_cons].
      * specialize (Hb1 _ Hin). simpl in Hb1. lia.
      * done.
      * by apply Ha1.
    + intros Hlen.
      apply (first_least_key
               (fun y => length (snd y)
                         = length (snd (max_from (fun x => length (snd x))
                                          item items)))
               (item :: items) b1 a1); [done|done| |done|done].
      intros y Hy Hpeer. specialize (Hb1 _ Hy). simpl in Hb1. lia.
  - split; [rewrite Heq2; set_solver|]. intros other Hother. split.
    + rewrite Heq2 in Hother.
      apply elem_of_app in Hother as [Hin|[->|Hin]%elem_of_cons].
      * specialize (Hb2 _ Hin). simpl in Hb2. lia.
      * done.
      * by apply Ha2.
    + intros Hlen.
      apply (first_least_key
               (fun y => length (snd y)
                         = length (snd (min_from (fun x => length (snd x))
                                          item items)))
               (item :: items) b2 a2); [done|done| |done|done].
      intros y Hy Hpeer. specialize (Hb2 _ Hy). simpl in Hb2. lia.
Qed.

Lemma summary_usage_sample :
  read_rows usage_file = Some usage_rows
  ∧ handle_file usage_file = Ok usage_report
  ∧ total_unique_ids (summary usage_report)
    = length (remove_dups (omap kept usage_rows)).
Proof.
  assert (Hread : read_rows usage_file = Some usage_rows)
    by (vm_compute; reflexivity).
  assert (Hrun : handle_file usage_file = Ok usage_report)
    by (vm_compute; reflexivity).
  split; [exact Hread|]. split; [exact Hrun|].
  exact (proj1 (proj2 (summary_counts _ _ _ Hread Hrun))).
Defined.

(** An area id that comes under two descriptions is counted with
    each. *)
Lemma border_id_counted_twice :
  match handle border_rows with
  | Ok report =>
      total_unique_ids (summary report) = 2%nat
      ∧ remove_dups (map (fun row => strip (AreaId row)) border_rows)
        = ["A001"]
  | Raise _ => False
  end.
Proof. vm_compute. by split. Qed.

End AreaReportFacts.
